(** * Destinex backend: enrichment, ranking and cache policy

    A shallow embedding of the Python backend
    ([backend/services/ai_service.py], [backend/services/db_service.py],
    [backend/services/place_service.py], [backend/app.py]) together with
    the properties its specification states about it.

    Conventions of the embedding:
    - a Python [str] is a [string] (the UTF-8 bytes of the text);
    - a Python [float] is a binary64 [float] of the primitive floats;
    - a Python [int] is a [Z];
    - a [dict] used as a table is a [gmap]; a [dict] used as a record
      is a [Record] whose optional keys are [option] fields;
    - library routines whose result the code only passes along
      ([str.lower], [str.strip], [hashlib.md5], the salted built-in
      [hash], the [random] generator, the trigonometry of [math]) are
      the fields of the class [PyRuntime]: every theorem that does
      not name a runtime holds for any behaviour of them, and module
      [Reference] supplies instances on which the model runs;
    - an exception is an explicit outcome: of the driver calls
      ([Raised]), of the [math] functions and of the loop over the
      features of an answer ([None], [BodyRaised]);
    - the wall clock, the state of the global random generator and the
      MongoDB collection are passed explicitly; the collection keeps
      timestamps in whole milliseconds; console output is not part of
      the model. *)

From Stdlib Require Import ZArith List String Ascii Bool Lia Floats Permutation Sorted.
From stdpp Require Import gmap strings.
Import ListNotations.

#[local] Set Warnings "-inexact-float".

Local Open Scope string_scope.
Local Open Scope Z_scope.

(** ** Python floats *)

Module PyFloat.

(** *** The order of binary64 values

    [SFcompare] is the IEEE comparison of the specification floats.
    Away from NaN it is the lexicographic order of the triple [sf_key]. *)

Definition sf_key (f : spec_float) : Z * Z * Z :=
  match f with
  | S754_nan => (0, 0, 0)
  | S754_zero _ => (0, 0, 0)
  | S754_infinity true => (-2, 0, 0)
  | S754_infinity false => (2, 0, 0)
  | S754_finite true m e => (-1, - e, Z.neg m)
  | S754_finite false m e => (1, e, Z.pos m)
  end.

Definition lex3 (a b : Z * Z * Z) : comparison :=
  let '(a1, a2, a3) := a in
  let '(b1, b2, b3) := b in
  match a1 ?= b1 with
  | Eq => match a2 ?= b2 with
          | Eq => a3 ?= b3
          | c => c
          end
  | c => c
  end.

Definition sf_is_nan (f : spec_float) : bool :=
  match f with S754_nan => true | _ => false end.

(** The strict order of the triples, and the triple of a float. *)
Definition t3_lt (a b : Z * Z * Z) : Prop :=
  a.1.1 < b.1.1 \/
  (a.1.1 = b.1.1 /\ (a.1.2 < b.1.2 \/ (a.1.2 = b.1.2 /\ a.2 < b.2))).

Definition fkey (x : float) : Z * Z * Z := sf_key (Prim2SF x).

(** Python's [float(i)] for an [int] below [2^63] in magnitude. *)
Definition of_int (z : Z) : float :=
  if z <? 0 then PrimFloat.opp (PrimFloat.of_uint63 (Uint63.of_Z (- z)))
  else PrimFloat.of_uint63 (Uint63.of_Z z).

(** [x >= y], [x < y] and [x == y] on Python floats. *)
Definition ge (x y : float) : bool := PrimFloat.leb y x.
Definition lt (x y : float) : bool := PrimFloat.ltb x y.
Definition eq (x y : float) : bool := PrimFloat.eqb x y.

(** Truth value of a float: [bool(x)] is [x != 0.0]. *)
Definition truthy (x : float) : bool := negb (PrimFloat.eqb x 0%float).

(** *** [round(x, ndigits)]

    CPython rounds the exact binary value of [x] to [ndigits] decimals,
    ties to even, and returns the double nearest to that decimal.  The
    decimal is [n / 10^ndigits] for an integer [n].  For [ndigits] from
    0 to 15 and [n < 2^53] both [n] and [10^ndigits] are exact doubles,
    so the correctly rounded division yields the nearest double; for
    [n >= 2^53] the spacing of the doubles around [x] exceeds
    [10^-ndigits] and [x] rounds to itself, as do infinities and NaN.
    The code calls [round] with 1 and 2 digits. *)

Definition round_half_even (num den : Z) : Z :=
  let q := num / den in
  let r := num mod den in
  match 2 * r ?= den with
  | Lt => q
  | Gt => q + 1
  | Eq => if Z.even q then q else q + 1
  end.

Definition scaled_int (m : positive) (e : Z) (ndigits : Z) : Z :=
  if 0 <=? e then Z.pos m * 2 ^ e * 10 ^ ndigits
  else round_half_even (Z.pos m * 10 ^ ndigits) (2 ^ (- e)).

Definition round (x : float) (ndigits : Z) : float :=
  match Prim2SF x with
  | S754_finite s m e =>
      let n := scaled_int m e ndigits in
      if 2 ^ 53 <=? n then x
      else
        let r := PrimFloat.div (of_int n) (of_int (10 ^ ndigits)) in
        if s then PrimFloat.opp r else r
  | _ => x
  end.

End PyFloat.

(** ** Python strings *)

Module PyStr.

(** [kw in text]: [kw] occurs in [text] as a contiguous substring. *)
Fixpoint contains (kw text : string) : bool :=
  String.prefix kw text ||
  match text with
  | EmptyString => false
  | String _ rest => contains kw rest
  end.

(** [any(k in text for k in keywords)]. *)
Definition any_in (keywords : list string) (text : string) : bool :=
  existsb (fun k => contains k text) keywords.

(** [bool(s)]: a string is true when it is not empty. *)
Definition truthy (s : string) : bool :=
  match s with EmptyString => false | _ => true end.

(** [s.endswith(suffix)]. *)
Definition endswith (s suffix : string) : bool :=
  let n := String.length s in
  let k := String.length suffix in
  (k <=? n)%nat && String.eqb (String.substring (n - k) k s) suffix.

(** [s[:-1]]. *)
Definition drop_last (s : string) : string :=
  String.substring 0 (String.length s - 1) s.

(** [sep.join(parts)]. *)
Fixpoint join (sep : string) (parts : list string) : string :=
  match parts with
  | [] => ""
  | [p] => p
  | p :: rest => p ++ sep ++ join sep rest
  end.

(** [str.lower] on the ASCII range, the instance used to run the model
    on concrete ASCII text. *)
Definition ascii_lower_char (c : ascii) : ascii :=
  let n := nat_of_ascii c in
  if ((65 <=? n) && (n <=? 90))%nat then ascii_of_nat (n + 32) else c.

Fixpoint ascii_lower (s : string) : string :=
  match s with
  | EmptyString => EmptyString
  | String c rest => String (ascii_lower_char c) (ascii_lower rest)
  end.

(** The Prop reading of [in]. *)
Definition substring_of (kw text : string) : Prop :=
  exists pre post, text = pre ++ kw ++ post.

(** Some keyword of the list occurs in the text. *)
Definition has_keyword (keywords : list string) (text : string) : Prop :=
  exists k, In k keywords /\ substring_of k text.

End PyStr.

(** ** The Python runtime

    What the code takes from the interpreter and its standard library.
    Nothing is assumed about these routines beyond their types; the one
    contract a proof needs ([random.choice] picks an index inside the
    sequence) is stated separately as [rng_in_range]. *)

Class PyRuntime := {
  (** [s.lower()] and [s.strip()] *)
  str_lower : string -> string;
  str_strip : string -> string;
  (** [int(hashlib.md5(s.encode()).hexdigest(), 16)] *)
  md5_int : string -> Z;
  (** the built-in [hash(s)], salted once per interpreter process *)
  str_hash : string -> Z;
  (** the state of the global generator of module [random] *)
  rng : Type;
  (** the state [random.seed(n)] installs *)
  random_seed : Z -> rng;
  (** the index [random.choice] draws for a sequence of length [n] *)
  random_below : rng -> nat -> nat * rng;
  (** [math.radians], [math.sin], [math.cos], [math.asin] *)
  math_radians : float -> float;
  math_sin : float -> float;
  math_cos : float -> float;
  math_asin : float -> float
}.

Definition rng_in_range `{PyRuntime} : Prop :=
  forall (g : rng) (n : nat), (0 < n)%nat -> (fst (random_below g n) < n)%nat.

(** ** Python lists *)

Module PyList.

(** [sorted(l, key=..., reverse=True)].  Python's sort is stable, also
    with [reverse=True]: it places [x] before [y] exactly when the key
    of [y] is smaller, or when neither key is smaller than the other
    and [x] came first.  [lt a b] is the comparison [key(a) < key(b)],
    the only one the sort uses.  Inserting each element in front of the
    first later element it is not smaller than gives that list. *)
Fixpoint insert_desc {A : Type} (lt : A -> A -> bool) (x : A) (l : list A) : list A :=
  match l with
  | [] => [x]
  | y :: rest => if lt x y then y :: insert_desc lt x rest else x :: l
  end.

Definition sorted_reverse {A : Type} (lt : A -> A -> bool) (l : list A) : list A :=
  fold_right (insert_desc lt) [] l.

(** No element is followed, anywhere later, by one with a larger key. *)
Definition non_increasing {A : Type} (lt : A -> A -> bool) (l : list A) : Prop :=
  StronglySorted (fun a b => lt a b = false) l.

(** Neither element is smaller than the other: for the sort their keys
    are equal. *)
Definition same_key {A : Type} (lt : A -> A -> bool) (x y : A) : bool :=
  negb (lt x y) && negb (lt y x).

(** The elements selected by [f] appear in [l'] in the order they have
    in [l]. *)
Definition same_order_on {A : Type} (f : A -> bool) (l' l : list A) : Prop :=
  List.filter f l' = List.filter f l.

End PyList.

(** ** The place dictionaries *)

(** The [properties] object of a Geoapify feature. *)
Record Props := {
  props_name : option string;
  props_formatted : option string;
  props_lat : option float;
  props_lon : option float;
  props_categories : option (list string);
  props_distance : option float
}.

(** A raw place as [format_place_data] reads it: every key is read
    with [get], so every key may be absent. *)
Record RawPlace := {
  rp_name : option string;
  rp_address : option string;
  rp_lat : option float;
  rp_lon : option float;
  rp_categories : list string;
  rp_kinds : option string;
  rp_distance : option float;
  rp_rating : option float
}.

(** An enriched place.  [rank_places] reads [rating] and
    [review_count] with [get]. *)
Record FormattedPlace := {
  fp_name : string;
  fp_category : string;
  fp_rating : option float;
  fp_price_range : string;
  fp_ai_insight : string;
  fp_distance : float;
  fp_lat : option float;
  fp_lon : option float;
  fp_review_count : option Z
}.

(** ** ai_service.py *)

Module AIService.

Definition LUXURY_KEYWORDS : list string :=
  [ "luxury"; "premium"; "5-star"; "five star"; "resort"; "palace";
    "heritage"; "boutique"; "fine dining"; "rooftop"; "spa"; "golf";
    "marriott"; "taj"; "hyatt"; "hilton"; "oberoi"; "itc"; "leela";
    "expensive"; "high-end"; "exclusive"; "private"; "suite" ].

Definition BUDGET_KEYWORDS : list string :=
  [ "budget"; "cheap"; "economy"; "hostel"; "backpacker"; "dhaba";
    "street food"; "cafe"; "inexpensive"; "affordable"; "low-cost";
    "zostel"; "free"; "complimentary"; "no charge" ].

Definition MODERATE_KEYWORDS : list string :=
  [ "mid-range"; "moderate"; "3-star"; "three star"; "comfortable";
    "decent"; "reasonable"; "standard"; "regular"; "casual" ].

Definition ATTRACTION_INSIGHTS : gmap string (list string) :=
  list_to_map
  [ ("historic",
     [ "Rich in history and culture. Best visited with a guide to fully appreciate the stories.";
       "A testament to the region's glorious past. Don't miss the architectural details.";
       "Step back in time and experience the heritage of this magnificent site." ]);
    ("nature",
     [ "Perfect escape from city life. Visit early morning for the best experience.";
       "Breathtaking natural beauty. Ideal for photography enthusiasts.";
       "A peaceful retreat surrounded by nature's finest offerings." ]);
    ("religious",
     [ "Spiritual ambiance that brings peace and tranquility. Dress modestly.";
       "Important pilgrimage site with deep cultural significance.";
       "Experience the divine atmosphere and architectural grandeur." ]);
    ("entertainment",
     [ "Great place for fun and entertainment with family and friends.";
       "Vibrant atmosphere with plenty of activities for all ages.";
       "Perfect spot to unwind and enjoy leisure time." ]);
    ("default",
     [ "Popular destination loved by locals and tourists alike.";
       "Worth a visit when exploring the city. Check reviews for best times.";
       "A must-see attraction that captures the essence of the city." ]) ].

Definition HOTEL_INSIGHTS : gmap string (list string) :=
  list_to_map
  [ ("luxury",
     [ "World-class amenities and impeccable service for a memorable stay.";
       "Indulge in luxury with stunning views and premium facilities.";
       "Perfect blend of comfort and elegance for discerning travelers." ]);
    ("boutique",
     [ "Charming property with unique character and personalized service.";
       "Intimate setting with attention to every detail.";
       "Experience local hospitality in a cozy, well-appointed space." ]);
    ("budget",
     [ "Great value for money with all essential amenities.";
       "Clean and comfortable accommodation without breaking the bank.";
       "Perfect for budget travelers and backpackers." ]);
    ("default",
     [ "Convenient location with good amenities for a comfortable stay.";
       "Well-rated property offering reliable hospitality.";
       "Good choice for both business and leisure travelers." ]) ].

Definition RESTAURANT_INSIGHTS : gmap string (list string) :=
  list_to_map
  [ ("fine_dining",
     [ "Exquisite culinary experience with impeccable presentation and service.";
       "Perfect for special occasions with an elegant ambiance.";
       "Mouthwatering dishes crafted by skilled chefs using premium ingredients." ]);
    ("casual",
     [ "Relaxed atmosphere with delicious food at reasonable prices.";
       "Great spot for a casual meal with friends and family.";
       "Consistently good food with friendly service." ]);
    ("street_food",
     [ "Authentic local flavors that shouldn't be missed.";
       "Popular among locals - a true taste of the city's culinary culture.";
       "Delicious and affordable - perfect for food adventurers." ]);
    ("default",
     [ "Well-loved eatery serving tasty dishes in a welcoming setting.";
       "Good food, good vibes - a reliable choice for any meal.";
       "Recommended by locals for its quality and consistency." ]) ].

(** [d.get(key, d['default'])] on the tables above. *)
Definition pool_get (d : gmap string (list string)) (key : string) : list string :=
  default (default [] (d !! "default")) (d !! key).

Section WithRuntime.
Context `{PyRuntime}.

Definition estimate_price_range (name kinds : string) (rating : float) : string :=
  let text := str_lower (name ++ " " ++ kinds) in
  if PyStr.any_in LUXURY_KEYWORDS text then "₹₹₹"
  else if PyStr.any_in BUDGET_KEYWORDS text then "₹"
  else if PyStr.any_in MODERATE_KEYWORDS text then "₹₹"
  else if PyFloat.ge rating 4.5 then "₹₹₹"
  else if PyFloat.ge rating 4.0 then "₹₹"
  else "₹".

Definition generate_rating (name : string) : float :=
  let hash_int := md5_int name in
  let variance := (PyFloat.of_int (hash_int mod 16) / 10.0)%float in
  let rating := (3.5 + variance)%float in
  PyFloat.round rating 1.

Definition categorize_attraction_type (kinds : string) : string :=
  let kinds_lower := str_lower kinds in
  if PyStr.any_in
       ["historic"; "cultural"; "architecture"; "monument"; "museum"; "fort"; "palace"]
       kinds_lower then "historic"
  else if PyStr.any_in
       ["natural"; "park"; "garden"; "beach"; "mountain"; "lake"; "nature"]
       kinds_lower then "nature"
  else if PyStr.any_in
       ["religion"; "temple"; "church"; "mosque"; "gurdwara"; "shrine"; "spiritual"]
       kinds_lower then "religious"
  else if PyStr.any_in
       ["amusement"; "entertainment"; "zoo"; "aquarium"; "theater"; "cinema"]
       kinds_lower then "entertainment"
  else "default".

Definition categorize_hotel_type (name kinds : string) : string :=
  let text := str_lower (name ++ " " ++ kinds) in
  if PyStr.any_in ["luxury"; "premium"; "5-star"; "resort"; "palace"; "spa"] text
  then "luxury"
  else if PyStr.any_in ["boutique"; "heritage"; "charming"; "unique"] text
  then "boutique"
  else if PyStr.any_in ["hostel"; "budget"; "economy"; "cheap"] text
  then "budget"
  else "default".

Definition categorize_restaurant_type (name kinds : string) : string :=
  let text := str_lower (name ++ " " ++ kinds) in
  if PyStr.any_in ["fine dining"; "gourmet"; "luxury"; "premium"; "5-star"] text
  then "fine_dining"
  else if PyStr.any_in ["street food"; "fast food"; "food court"; "stall"] text
  then "street_food"
  else if PyStr.any_in ["cafe"; "casual"; "bistro"; "diner"] text
  then "casual"
  else "default".

(** The chain of [if category == ...] of [generate_insight]: the
    template pool of a known category, [None] where the code takes the
    final [else] and returns without choosing a template. *)
Definition select_insights (name category kinds : string) : option (list string) :=
  if String.eqb category "attractions" then
    let attr_type := categorize_attraction_type kinds in
    Some (pool_get ATTRACTION_INSIGHTS attr_type)
  else if String.eqb category "hotels" then
    let hotel_type := categorize_hotel_type name kinds in
    Some (pool_get HOTEL_INSIGHTS hotel_type)
  else if String.eqb category "restaurants" then
    let rest_type := categorize_restaurant_type name kinds in
    Some (pool_get RESTAURANT_INSIGHTS rest_type)
  else None.

(** The text appended after the template. *)
Definition rating_suffix (rating : float) : string :=
  if PyFloat.ge rating 4.5 then " Highly rated by visitors!"
  else if PyFloat.ge rating 4.0 then " Well-loved by travelers."
  else "".

(** [generate_insight] reseeds the global generator, so it takes the
    generator state [g] it finds and returns the one it leaves. *)
Definition generate_insight (name category kinds : string) (rating : float) (g : rng)
  : string * rng :=
  let g1 := random_seed (str_hash name mod 10000) in
  match select_insights name category kinds with
  | None => ("A great place to visit and explore.", g1)
  | Some insights =>
      let (i, g2) := random_below g1 (length insights) in
      let insight := nth i insights "" in
      (insight ++ rating_suffix rating, g2)
  end.

End WithRuntime.

(** A pool is well formed: three templates, all different. *)
Definition pool_ok (pool : list string) : Prop :=
  length pool = 3%nat /\ NoDup pool.

(** The sixteen ratings [3.5, 3.6, ..., 5.0]. *)
Definition RATING_VALUES : list float :=
  [ 3.5; 3.6; 3.7; 3.8; 3.9; 4.0; 4.1; 4.2;
    4.3; 4.4; 4.5; 4.6; 4.7; 4.8; 4.9; 5.0 ]%float.

(** The three price symbols. *)
Definition PRICE_SYMBOLS : list string := ["₹"; "₹₹"; "₹₹₹"].

(** The sort key [(x.get('rating', 0), x.get('review_count', 0))]. *)
Definition rank_key (x : FormattedPlace) : float * Z :=
  (default 0%float (fp_rating x), default 0 (fp_review_count x)).

(** [a < b] on key tuples: the first components that are not [==]
    decide. *)
Definition key_lt (a b : float * Z) : bool :=
  if PyFloat.eq (fst a) (fst b) then snd a <? snd b
  else PyFloat.lt (fst a) (fst b).

(** [a == b] on key tuples. *)
Definition key_eq (a b : float * Z) : bool :=
  PyFloat.eq (fst a) (fst b) && (snd a =? snd b).

(** The order of the keys read off the triples of the ratings. *)
Definition key_below (a b : float * Z) : Prop :=
  PyFloat.t3_lt (PyFloat.fkey (fst a)) (PyFloat.fkey (fst b)) \/
  (PyFloat.fkey (fst a) = PyFloat.fkey (fst b) /\ snd a < snd b).

(** The rating of the place is a number. *)
Definition rating_is_number (x : FormattedPlace) : Prop :=
  PrimFloat.is_nan (fst (rank_key x)) = false.

Definition rank_places (places : list FormattedPlace) : list FormattedPlace :=
  PyList.sorted_reverse (fun x y => key_lt (rank_key x) (rank_key y)) places.

End AIService.

(** ** The classifier of the specification

    The specification describes one classifier [classify(place_kind,
    name, category_tags)] driven by ordered rule tables.  The code has
    three functions and the dispatch on the category inside
    [generate_insight]; [classify] collects what that dispatch
    computes, and the rule tables and [first_match] follow the words of
    the specification, to be compared with the code. *)

Module Classifier.

Import AIService.

Definition rule : Type := string * list string.

Definition ATTRACTION_RULES : list rule :=
  [ ("historic",
     ["historic"; "cultural"; "architecture"; "monument"; "museum"; "fort"; "palace"]);
    ("nature",
     ["natural"; "park"; "garden"; "beach"; "mountain"; "lake"; "nature"]);
    ("religious",
     ["religion"; "temple"; "church"; "mosque"; "gurdwara"; "shrine"; "spiritual"]);
    ("entertainment",
     ["amusement"; "entertainment"; "zoo"; "aquarium"; "theater"; "cinema"]) ].

Definition HOTEL_RULES : list rule :=
  [ ("luxury", ["luxury"; "premium"; "5-star"; "resort"; "palace"; "spa"]);
    ("boutique", ["boutique"; "heritage"; "charming"; "unique"]);
    ("budget", ["hostel"; "budget"; "economy"; "cheap"]) ].

Definition RESTAURANT_RULES : list rule :=
  [ ("fine_dining", ["fine dining"; "gourmet"; "luxury"; "premium"; "5-star"]);
    ("street_food", ["street food"; "fast food"; "food court"; "stall"]);
    ("casual", ["cafe"; "casual"; "bistro"; "diner"]) ].

(** First rule with a keyword in the text, ["default"] when none. *)
Definition first_match (rules : list rule) (text : string) : string :=
  match find (fun r => PyStr.any_in (snd r) text) rules with
  | Some r => fst r
  | None => "default"
  end.

(** No keyword of the rule occurs in the text. *)
Definition no_match (text : string) (r : rule) : Prop :=
  ~ PyStr.has_keyword (snd r) text.

Definition rules_of (category : string) : option (list rule) :=
  if String.eqb category "attractions" then Some ATTRACTION_RULES
  else if String.eqb category "hotels" then Some HOTEL_RULES
  else if String.eqb category "restaurants" then Some RESTAURANT_RULES
  else None.

(** The closed label set of a rule table. *)
Definition labels (rules : list rule) : list string := map fst rules ++ ["default"].

Section WithRuntime.
Context `{PyRuntime}.

(** The text a category's classifier searches. *)
Definition classify_text (category name kinds : string) : string :=
  if String.eqb category "attractions" then str_lower kinds
  else str_lower (name ++ " " ++ kinds).

(** The label [generate_insight] computes for a category ([attr_type],
    [hotel_type], [rest_type]); [None] for a category of the final
    [else], where no classifier is called. *)
Definition classify (category name kinds : string) : option string :=
  if String.eqb category "attractions" then Some (categorize_attraction_type kinds)
  else if String.eqb category "hotels" then Some (categorize_hotel_type name kinds)
  else if String.eqb category "restaurants" then Some (categorize_restaurant_type name kinds)
  else None.

(** The insight table of a category. *)
Definition table_of (category : string) : gmap string (list string) :=
  if String.eqb category "attractions" then ATTRACTION_INSIGHTS
  else if String.eqb category "hotels" then HOTEL_INSIGHTS
  else RESTAURANT_INSIGHTS.

End WithRuntime.

End Classifier.

(** ** place_service.py *)

Module PlaceService.

(** What the HTTP call to the places API gives back: it raises (time
    out, connection error, body that is not JSON), or it answers with a
    status code and a JSON body whose [features] key may be absent. *)
Inductive HttpReply :=
  | HttpRaised
  | HttpAnswer (status_code : Z) (features : option (list Props)).

(** Truth value of an optional coordinate: present and not zero. *)
Definition coord_truthy (c : option float) : bool :=
  match c with
  | Some x => PyFloat.truthy x
  | None => false
  end.

Section WithRuntime.
Context `{PyRuntime}.

(** The wrapper CPython puts around a function of the C library
    ([math.sin], [math.cos], [math.asin], [math.sqrt]): a NaN result
    for an argument that is not NaN, and an infinite result for a
    finite argument, raise [ValueError].  [None] is the raise. *)
Definition math_1 (f : float -> float) (x : float) : option float :=
  let r := f x in
  if PrimFloat.is_nan r && negb (PrimFloat.is_nan x) then None
  else if PrimFloat.is_infinity r && PrimFloat.is_finite x then None
  else Some r.

(** [x ** 2]: the correctly rounded square; overflow raises
    [OverflowError]. *)
Definition float_pow2 (x : float) : option float :=
  let r := (x * x)%float in
  if PrimFloat.is_finite x && PrimFloat.is_infinity r then None else Some r.

(** Haversine distance; [None] when one of the [math] calls or a
    square raises. *)
Definition calculate_distance (lat1 lon1 lat2 lon2 : float) : option float :=
  let lon1 := math_radians lon1 in
  let lat1 := math_radians lat1 in
  let lon2 := math_radians lon2 in
  let lat2 := math_radians lat2 in
  let dlon := (lon2 - lon1)%float in
  let dlat := (lat2 - lat1)%float in
  sin_dlat ← math_1 math_sin (dlat / 2)%float;
  sq_dlat ← float_pow2 sin_dlat;
  cos_lat1 ← math_1 math_cos lat1;
  cos_lat2 ← math_1 math_cos lat2;
  sin_dlon ← math_1 math_sin (dlon / 2)%float;
  sq_dlon ← float_pow2 sin_dlon;
  let a := (sq_dlat + cos_lat1 * cos_lat2 * sq_dlon)%float in
  root ← math_1 PrimFloat.sqrt a;
  angle ← math_1 math_asin root;
  let c := (2 * angle)%float in
  let r := 6371%float in
  Some (c * r)%float.

(** How the body of the loop over [data['features']] ends for one
    feature: with [continue] (a feature without a name), with
    [places.append(place)], or with an exception. *)
Inductive LoopStep :=
  | Skipped
  | Appended (place : RawPlace)
  | BodyRaised.

Definition place_of_props (lat lon : float) (props : Props) : LoopStep :=
  if negb (PyStr.truthy (default "" (props_name props))) then Skipped
  else
    let place_lat := props_lat props in
    let place_lon := props_lon props in
    let dist := (default 0%float (props_distance props) / 1000.0)%float in
    match
      (if PyFloat.eq dist 0 && coord_truthy place_lat && coord_truthy place_lon
       then calculate_distance lat lon (default 0%float place_lat)
              (default 0%float place_lon)
       else Some dist)
    with
    | None => BodyRaised
    | Some dist =>
        let cats := default [] (props_categories props) in
        Appended {| rp_name := props_name props;
                    rp_address := props_formatted props;
                    rp_lat := place_lat;
                    rp_lon := place_lon;
                    rp_categories := cats;
                    rp_kinds := Some (PyStr.join "," cats);
                    rp_distance := Some (PyFloat.round dist 2);
                    rp_rating := Some 0%float |}
    end.

(** The loop: [None] when an exception leaves it. *)
Fixpoint places_loop (lat lon : float) (features : list Props)
  : option (list RawPlace) :=
  match features with
  | [] => Some []
  | props :: rest =>
      match place_of_props lat lon props with
      | Skipped => places_loop lat lon rest
      | Appended place => places ← places_loop lat lon rest; Some (place :: places)
      | BodyRaised => None
      end
  end.

(** The whole body is inside [try]: an exception anywhere, also in
    the loop after places were collected, gives the empty list. *)
Definition fetch_places_from_geoapify
    (api_key : option string) (reply : HttpReply) (lat lon : float) : list RawPlace :=
  match api_key with
  | None => []
  | Some key =>
      if negb (PyStr.truthy key) then []
      else
        match reply with
        | HttpRaised => []
        | HttpAnswer status_code features =>
            if negb (status_code =? 200) then []
            else
              match features with
              | None => []
              | Some fs => default [] (places_loop lat lon fs)
              end
        end
  end.

End WithRuntime.

(** The [properties] of a feature of the geocoder. *)
Record GeoProps := {
  geo_lat : option float;
  geo_lon : option float;
  geo_formatted : option string
}.

(** What the HTTP call to the geocoder gives back: it raises, or it
    answers with a JSON body whose [features] may be absent; a feature
    without [properties] is [None] (reading it raises [KeyError]). *)
Inductive GeocodeReply :=
  | GeocodeRaised
  | GeocodeAnswer (features : option (list (option GeoProps))).

(** [get_coordinates]: the triple [(lat, lon, display_name)]. *)
Definition get_coordinates (reply : GeocodeReply)
  : option float * option float * option string :=
  match reply with
  | GeocodeRaised => (None, None, None)
  | GeocodeAnswer None => (None, None, None)
  | GeocodeAnswer (Some []) => (None, None, None)
  | GeocodeAnswer (Some (None :: _)) => (None, None, None)
  | GeocodeAnswer (Some (Some props :: _)) =>
      (geo_lat props, geo_lon props, geo_formatted props)
  end.

End PlaceService.

(** ** db_service.py *)

Module DatabaseService.

(** The exceptions of the driver, all subclasses of [Exception]. *)
Inductive exn := DriverError (msg : string).

(** How a call ends. *)
Inductive outcome (A : Type) :=
  | Returned (a : A)
  | Raised (e : exn).
Arguments Returned {A} a.
Arguments Raised {A} e.

(** Microseconds, the resolution of [datetime]. *)
Definition timedelta_hours (h : Z) : Z := h * 3600 * 1000000.

(** A [datetime] as the store keeps it: BSON dates count whole
    milliseconds, the driver drops the microseconds below
    ([microsecond // 1000]) when it encodes a document. *)
Definition bson_datetime (t : Z) : Z := t / 1000 * 1000.

Section WithPayload.
Context {Payload : Type}.

(** A document of collection [city_cache]; the unique index on
    [city_name] makes the collection a map from that key. *)
Record CacheDoc := {
  doc_data : option Payload;
  doc_cached_at : option Z
}.

Local Abbreviation Collection := (gmap string CacheDoc).

(** Computations on the collection that may raise. *)
Definition Db (A : Type) : Type := Collection -> outcome A * Collection.

Definition ret {A : Type} (a : A) : Db A := fun c => (Returned a, c).

Definition bind {A B : Type} (m : Db A) (k : A -> Db B) : Db B :=
  fun c =>
    match m c with
    | (Returned a, c') => k a c'
    | (Raised e, c') => (Raised e, c')
    end.

(** [try: body  except Exception as e: handler]. *)
Definition try_except {A : Type} (body : Db A) (handler : exn -> Db A) : Db A :=
  fun c =>
    match body c with
    | (Returned a, c') => (Returned a, c')
    | (Raised e, c') => handler e c'
    end.

(** The driver calls.  [fault] is the error the driver raises for this
    call when the server cannot be reached; a failed call leaves the
    collection as it was.  A call that succeeds returns documents as
    they are stored, and stores them as they were written except for
    the resolution of the timestamp. *)
Definition find_one (fault : option exn) (key : string) : Db (option CacheDoc) :=
  fun c =>
    match fault with
    | Some e => (Raised e, c)
    | None => (Returned (c !! key), c)
    end.

(** [update_one({'city_name': key}, {'$set': entry}, upsert=True)] with
    an [entry] that sets [data] and [cached_at]. *)
Definition update_one_upsert (fault : option exn) (key : string) (entry : CacheDoc)
  : Db unit :=
  fun c =>
    match fault with
    | Some e => (Raised e, c)
    | None =>
        (Returned tt,
         <[key := {| doc_data := doc_data entry;
                     doc_cached_at := option_map bson_datetime (doc_cached_at entry) |}]> c)
    end.

Definition delete_one (fault : option exn) (key : string) : Db unit :=
  fun c =>
    match fault with
    | Some e => (Raised e, c)
    | None => (Returned tt, delete key c)
    end.

Definition delete_many (fault : option exn) : Db unit :=
  fun c =>
    match fault with
    | Some e => (Raised e, c)
    | None => (Returned tt, ∅)
    end.

Context `{PyRuntime}.

(** [now] is the value of [datetime.utcnow()] during the call. *)
Definition get_cached_data (fault : option exn) (now : Z) (city_name : string)
  : Db (option Payload) :=
  try_except
    (let normalized_city := str_strip (str_lower city_name) in
     bind (find_one fault normalized_city) (fun cached =>
       match cached with
       | Some doc =>
           match doc_cached_at doc with
           | Some cached_time =>
               let age := now - cached_time in
               if age <? timedelta_hours 24 then ret (doc_data doc)
               else ret None
           | None => ret (doc_data doc)
           end
       | None => ret None
       end))
    (fun e => ret None).

Definition cache_data (fault : option exn) (now : Z) (city_name : string) (data : Payload)
  : Db unit :=
  try_except
    (let normalized_city := str_strip (str_lower city_name) in
     let cache_entry := {| doc_data := Some data; doc_cached_at := Some now |} in
     update_one_upsert fault normalized_city cache_entry)
    (fun e => ret tt).

Definition clear_cache (fault : option exn) (city_name : option string) : Db unit :=
  try_except
    (match city_name with
     | Some city =>
         if PyStr.truthy city then
           let normalized_city := str_strip (str_lower city) in
           delete_one fault normalized_city
         else delete_many fault
     | None => delete_many fault
     end)
    (fun e => ret tt).

End WithPayload.

Arguments CacheDoc Payload : clear implicits.

(** The collection [city_cache]. *)
Abbreviation Collection Payload := (gmap string (CacheDoc Payload)).

End DatabaseService.

(** ** app.py *)

Module App.

Import AIService PlaceService DatabaseService.

(** The object cached per city and spliced into the response. *)
Record Payload := {
  attractions : list FormattedPlace;
  hotels : list FormattedPlace;
  restaurants : list FormattedPlace
}.

(** The JSON body and status code a handler returns. *)
Record Response := {
  resp_status : Z;
  resp_success : bool;
  resp_error : option string;
  resp_city : option string;
  resp_cached : option bool;
  resp_attractions : list FormattedPlace;
  resp_hotels : list FormattedPlace;
  resp_restaurants : list FormattedPlace
}.

(** What one request finds outside the process: the clock at the cache
    read and at the cache write, the driver errors of both calls, the
    answer of the geocoder and the three answers of the places API. *)
Record Env := {
  env_api_key : option string;
  env_read_fault : option exn;
  env_read_now : Z;
  env_coordinates : option float * option float * option string;
  env_attractions : HttpReply;
  env_hotels : HttpReply;
  env_restaurants : HttpReply;
  env_write_fault : option exn;
  env_write_now : Z
}.

Section WithRuntime.
Context `{PyRuntime}.

(** [category[:-1] if category.endswith('s') else category]. *)
Definition singular (category : string) : string :=
  if PyStr.endswith category "s" then PyStr.drop_last category else category.

(** The [for place in raw_places] loop; the generator state is
    threaded through the calls of [generate_insight]. *)
Fixpoint format_loop (raw_places : list RawPlace) (category : string) (g : rng)
  : list FormattedPlace * rng :=
  match raw_places with
  | [] => ([], g)
  | place :: rest =>
      if negb (PyStr.truthy (default "" (rp_name place))) then
        format_loop rest category g
      else
        let name := default "" (rp_name place) in
        let (insight, g1) :=
          generate_insight name category
            (default "" (rp_kinds place)) (default 0%float (rp_rating place)) g in
        let price_range :=
          estimate_price_range name
            (default "" (rp_kinds place)) (default 0%float (rp_rating place)) in
        let rating := generate_rating name in
        let formatted_place :=
          {| fp_name := name;
             fp_category := singular category;
             fp_rating := Some rating;
             fp_price_range := price_range;
             fp_ai_insight := insight;
             fp_distance := default 0%float (rp_distance place);
             fp_lat := rp_lat place;
             fp_lon := rp_lon place;
             fp_review_count := None |} in
        let (formatted, g2) := format_loop rest category g1 in
        (formatted_place :: formatted, g2)
  end.

Definition format_place_data (raw_places : list RawPlace) (category : string) (g : rng)
  : list FormattedPlace * rng :=
  let (formatted, g') := format_loop raw_places category g in
  (rank_places formatted, g').

Definition failure (status : Z) (msg : string) : Response :=
  {| resp_status := status; resp_success := false; resp_error := Some msg;
     resp_city := None; resp_cached := None;
     resp_attractions := []; resp_hotels := []; resp_restaurants := [] |}.

(** [GET /search?city=...].  Returns the response, the collection and
    the generator state the request leaves behind. *)
Definition search (city_arg : option string) (env : Env)
    (c : Collection Payload) (g : rng) : Response * Collection Payload * rng :=
  let city := str_strip (default "" city_arg) in
  if negb (PyStr.truthy city) then
    (failure 400 "City name is required. Use: /search?city=CityName", c, g)
  else
    match get_cached_data (env_read_fault env) (env_read_now env) city c with
    | (Raised e, c1) => (failure 500 "Internal server error. Please try again later.", c1, g)
    | (Returned (Some cached_data), c1) =>
        ({| resp_status := 200; resp_success := true; resp_error := None;
            resp_city := Some city; resp_cached := Some true;
            resp_attractions := attractions cached_data;
            resp_hotels := hotels cached_data;
            resp_restaurants := restaurants cached_data |}, c1, g)
    | (Returned None, c1) =>
        match env_coordinates env with
        | (Some lat, Some lon, display_name) =>
            let raw_attractions :=
              fetch_places_from_geoapify (env_api_key env) (env_attractions env) lat lon in
            let raw_hotels :=
              fetch_places_from_geoapify (env_api_key env) (env_hotels env) lat lon in
            let raw_restaurants :=
              fetch_places_from_geoapify (env_api_key env) (env_restaurants env) lat lon in
            let (attractions, g1) := format_place_data raw_attractions "attractions" g in
            let (hotels, g2) := format_place_data raw_hotels "hotels" g1 in
            let (restaurants, g3) := format_place_data raw_restaurants "restaurants" g2 in
            let response_data :=
              {| attractions := attractions; hotels := hotels;
                 restaurants := restaurants |} in
            match cache_data (env_write_fault env) (env_write_now env) city response_data c1 with
            | (Raised e, c2) =>
                (failure 500 ("An error occurred while fetching data: " ++
                              match e with DriverError msg => msg end), c2, g3)
            | (Returned _, c2) =>
                ({| resp_status := 200; resp_success := true; resp_error := None;
                    resp_city :=
                      Some (if PyStr.truthy (default "" display_name)
                            then default "" display_name else city);
                    resp_cached := Some false;
                    resp_attractions := attractions;
                    resp_hotels := hotels;
                    resp_restaurants := restaurants |}, c2, g3)
            end
        | _ =>
            (failure 404 ("Could not find coordinates for '" ++ city ++
                          "'. Please check the city name and try again."), c1, g)
        end
    end.




End WithRuntime.

(** The same request with other driver errors. *)
Definition with_faults (read_fault write_fault : option exn) (env : Env) : Env :=
  {| env_api_key := env_api_key env;
     env_read_fault := read_fault;
     env_read_now := env_read_now env;
     env_coordinates := env_coordinates env;
     env_attractions := env_attractions env;
     env_hotels := env_hotels env;
     env_restaurants := env_restaurants env;
     env_write_fault := write_fault;
     env_write_now := env_write_now env |}.

(** The same request with other answers of the geocoder and of the
    places API. *)
Definition with_coordinates
    (coordinates : option float * option float * option string) (env : Env) : Env :=
  {| env_api_key := env_api_key env;
     env_read_fault := env_read_fault env;
     env_read_now := env_read_now env;
     env_coordinates := coordinates;
     env_attractions := env_attractions env;
     env_hotels := env_hotels env;
     env_restaurants := env_restaurants env;
     env_write_fault := env_write_fault env;
     env_write_now := env_write_now env |}.

Definition with_replies (attractions hotels restaurants : HttpReply) (env : Env) : Env :=
  {| env_api_key := env_api_key env;
     env_read_fault := env_read_fault env;
     env_read_now := env_read_now env;
     env_coordinates := env_coordinates env;
     env_attractions := attractions;
     env_hotels := hotels;
     env_restaurants := restaurants;
     env_write_fault := env_write_fault env;
     env_write_now := env_write_now env |}.

(** The body of a response of [POST /clear-cache]. *)
Record ClearResponse := {
  clear_success : bool;
  clear_message : string
}.

Section Endpoints.
Context `{PyRuntime}.

(** [POST /clear-cache?city=...]; [city] is [request.args.get('city')]. *)
Definition clear_cache_endpoint (city : option string) (fault : option exn)
  : Db (Payload := Payload) ClearResponse :=
  bind (clear_cache fault city) (fun _ =>
    ret {| clear_success := true;
           clear_message :=
             "Cache cleared" ++
             (if PyStr.truthy (default "" city)
              then " for " ++ default "" city else " for all cities") |}).

End Endpoints.

End App.

(** ** clear_cache_tool.py *)

Module ClearCacheTool.

Import DatabaseService.

Section WithRuntime.
Context {Payload : Type} `{PyRuntime}.

(** [clear_db_cache]: clears every entry, inside a [try] of its own. *)
Definition clear_db_cache (fault : option exn) : Db (Payload := Payload) unit :=
  try_except (clear_cache fault None) (fun e => ret tt).

End WithRuntime.

End ClearCacheTool.

(** ** Runtimes to execute the model

    [hashlib.md5] is RFC 1321 and is implemented here in full.  The
    built-in [hash] is salted per process and the generator of module
    [random] is a Mersenne twister.  Instance [Reference.runtime] puts
    small stand-ins in their place, which is enough to run the model
    where no property depends on them; [Reference.cpython] is the
    runtime of a CPython process with a given hash seed, with SipHash
    and the Mersenne twister implemented in full. *)

Module MD5.

Definition mask32 (x : Z) : Z := x mod 2 ^ 32.

Definition rotl32 (x s : Z) : Z :=
  mask32 (Z.lor (Z.shiftl x s) (Z.shiftr x (32 - s))).

Definition not32 (x : Z) : Z := 2 ^ 32 - 1 - x.

Definition K : list Z :=
  [ 0xd76aa478; 0xe8c7b756; 0x242070db; 0xc1bdceee;
    0xf57c0faf; 0x4787c62a; 0xa8304613; 0xfd469501;
    0x698098d8; 0x8b44f7af; 0xffff5bb1; 0x895cd7be;
    0x6b901122; 0xfd987193; 0xa679438e; 0x49b40821;
    0xf61e2562; 0xc040b340; 0x265e5a51; 0xe9b6c7aa;
    0xd62f105d; 0x02441453; 0xd8a1e681; 0xe7d3fbc8;
    0x21e1cde6; 0xc33707d6; 0xf4d50d87; 0x455a14ed;
    0xa9e3e905; 0xfcefa3f8; 0x676f02d9; 0x8d2a4c8a;
    0xfffa3942; 0x8771f681; 0x6d9d6122; 0xfde5380c;
    0xa4beea44; 0x4bdecfa9; 0xf6bb4b60; 0xbebfbc70;
    0x289b7ec6; 0xeaa127fa; 0xd4ef3085; 0x04881d05;
    0xd9d4d039; 0xe6db99e5; 0x1fa27cf8; 0xc4ac5665;
    0xf4292244; 0x432aff97; 0xab9423a7; 0xfc93a039;
    0x655b59c3; 0x8f0ccc92; 0xffeff47d; 0x85845dd1;
    0x6fa87e4f; 0xfe2ce6e0; 0xa3014314; 0x4e0811a1;
    0xf7537e82; 0xbd3af235; 0x2ad7d2bb; 0xeb86d391 ].

Definition S : list Z :=
  [ 7; 12; 17; 22; 7; 12; 17; 22; 7; 12; 17; 22; 7; 12; 17; 22;
    5; 9; 14; 20; 5; 9; 14; 20; 5; 9; 14; 20; 5; 9; 14; 20;
    4; 11; 16; 23; 4; 11; 16; 23; 4; 11; 16; 23; 4; 11; 16; 23;
    6; 10; 15; 21; 6; 10; 15; 21; 6; 10; 15; 21; 6; 10; 15; 21 ].

Definition bytes_of_string (s : string) : list Z :=
  map (fun c => Z.of_nat (nat_of_ascii c)) (list_ascii_of_string s).

(** [n] as [k] little-endian bytes. *)
Fixpoint le_bytes (k : nat) (n : Z) : list Z :=
  match k with
  | O => []
  | Datatypes.S k' => n mod 256 :: le_bytes k' (n / 256)
  end.

Definition pad (msg : list Z) : list Z :=
  let len := Z.of_nat (length msg) in
  let zeros := Z.to_nat ((55 - len) mod 64) in
  msg ++ [0x80] ++ repeat 0 zeros ++ le_bytes 8 ((8 * len) mod 2 ^ 64).

(** Little-endian 32-bit words of a byte sequence. *)
Fixpoint words (fuel : nat) (bytes : list Z) : list Z :=
  match fuel, bytes with
  | Datatypes.S fuel', b0 :: b1 :: b2 :: b3 :: rest =>
      (b0 + 256 * b1 + 65536 * b2 + 16777216 * b3) :: words fuel' rest
  | _, _ => []
  end.

Definition step (M : list Z) (st : Z * Z * Z * Z) (i : nat) : Z * Z * Z * Z :=
  let '(A, B, C, D) := st in
  let iz := Z.of_nat i in
  let '(F, g) :=
    if iz <? 16 then (Z.lor (Z.land B C) (Z.land (not32 B) D), iz)
    else if iz <? 32 then (Z.lor (Z.land D B) (Z.land (not32 D) C), (5 * iz + 1) mod 16)
    else if iz <? 48 then (Z.lxor (Z.lxor B C) D, (3 * iz + 5) mod 16)
    else (Z.lxor C (Z.lor B (not32 D)), (7 * iz) mod 16) in
  let F := mask32 (F + A + nth i K 0 + nth (Z.to_nat g) M 0) in
  (D, mask32 (B + rotl32 F (nth i S 0)), B, C).

Definition block (st : Z * Z * Z * Z) (M : list Z) : Z * Z * Z * Z :=
  let '(a0, b0, c0, d0) := st in
  let '(A, B, C, D) := fold_left (step M) (seq 0 64) st in
  (mask32 (a0 + A), mask32 (b0 + B), mask32 (c0 + C), mask32 (d0 + D)).

Fixpoint blocks (fuel : nat) (st : Z * Z * Z * Z) (ws : list Z) : Z * Z * Z * Z :=
  match fuel, ws with
  | Datatypes.S fuel', _ :: _ => blocks fuel' (block st (firstn 16 ws)) (skipn 16 ws)
  | _, _ => st
  end.

Definition digest (msg : list Z) : list Z :=
  let bytes := pad msg in
  let ws := words (length bytes) bytes in
  let '(a, b, c, d) :=
    blocks (length ws) (0x67452301, 0xefcdab89, 0x98badcfe, 0x10325476) ws in
  le_bytes 4 a ++ le_bytes 4 b ++ le_bytes 4 c ++ le_bytes 4 d.

(** [int(hexdigest, 16)]: the digest read as a big-endian number. *)
Definition int_of_digest (bytes : list Z) : Z :=
  fold_left (fun acc b => 256 * acc + b) bytes 0.

Definition md5_int (s : string) : Z := int_of_digest (digest (bytes_of_string s)).

End MD5.

(** ** The built-in [hash] of CPython

    [hash(s)] for a [str] is SipHash-1-3 (CPython 3.11 and later, 64
    bit) over the bytes of the string, one byte per character for
    ASCII text, keyed by a secret drawn once when the process starts:
    at random, or from [PYTHONHASHSEED] when that is set. *)

Module SipHash.

Definition u64 (x : Z) : Z := Z.land x 0xffffffffffffffff.

Definition rotate (x b : Z) : Z := Z.lor (u64 (Z.shiftl x b)) (Z.shiftr x (64 - b)).

Definition half_round (a b c d s t : Z) : Z * Z * Z * Z :=
  let a := u64 (a + b) in
  let c := u64 (c + d) in
  let b := Z.lxor (rotate b s) a in
  let d := Z.lxor (rotate d t) c in
  let a := rotate a 32 in
  (a, b, c, d).

Definition single_round (v : Z * Z * Z * Z) : Z * Z * Z * Z :=
  let '(v0, v1, v2, v3) := v in
  let '(v0, v1, v2, v3) := half_round v0 v1 v2 v3 13 16 in
  let '(v2, v1, v0, v3) := half_round v2 v1 v0 v3 17 21 in
  (v0, v1, v2, v3).

(** A little-endian word. *)
Fixpoint le_word (bytes : list Z) : Z :=
  match bytes with
  | [] => 0
  | b :: rest => b + 256 * le_word rest
  end.

(** The loop over the whole words of the input; the bytes left over
    are returned. *)
Fixpoint absorb (fuel : nat) (v : Z * Z * Z * Z) (src : list Z)
  : (Z * Z * Z * Z) * list Z :=
  match fuel with
  | O => (v, src)
  | S fuel' =>
      if (8 <=? length src)%nat then
        let mi := le_word (firstn 8 src) in
        let '(v0, v1, v2, v3) := v in
        let '(v0, v1, v2, v3) := single_round (v0, v1, v2, Z.lxor v3 mi) in
        absorb fuel' (Z.lxor v0 mi, v1, v2, v3) (skipn 8 src)
      else (v, src)
  end.

Definition siphash13 (k0 k1 : Z) (src : list Z) : Z :=
  let b := u64 (Z.shiftl (Z.of_nat (length src)) 56) in
  let v0 := Z.lxor k0 0x736f6d6570736575 in
  let v1 := Z.lxor k1 0x646f72616e646f6d in
  let v2 := Z.lxor k0 0x6c7967656e657261 in
  let v3 := Z.lxor k1 0x7465646279746573 in
  let '(v, rest) := absorb (length src) (v0, v1, v2, v3) src in
  let b := Z.lor b (le_word rest) in
  let '(v0, v1, v2, v3) := v in
  let '(v0, v1, v2, v3) := single_round (v0, v1, v2, Z.lxor v3 b) in
  let v0 := Z.lxor v0 b in
  let v2 := Z.lxor v2 0xff in
  let '(v0, v1, v2, v3) := single_round (single_round (single_round (v0, v1, v2, v3))) in
  Z.lxor (Z.lxor v0 v1) (Z.lxor v2 v3).

(** The secret of a process started with [PYTHONHASHSEED=hashseed]:
    all zero for the seed 0, else the bytes of a linear congruential
    generator. *)
Fixpoint lcg_urandom (x : Z) (size : nat) : list Z :=
  match size with
  | O => []
  | S size' =>
      let x := Z.land (x * 214013 + 2531011) 0xffffffff in
      Z.land (Z.shiftr x 16) 0xff :: lcg_urandom x size'
  end.

Definition secret (hashseed : Z) : list Z :=
  if hashseed =? 0 then repeat 0 24 else lcg_urandom hashseed 24.

(** [hash(s)]: the empty string hashes to 0, and -1 is replaced by -2. *)
Definition str_hash (hashseed : Z) (s : string) : Z :=
  let k0 := le_word (firstn 8 (secret hashseed)) in
  let k1 := le_word (firstn 8 (skipn 8 (secret hashseed))) in
  match MD5.bytes_of_string s with
  | [] => 0
  | src =>
      let x := siphash13 k0 k1 src in
      let x := if 2 ^ 63 <=? x then x - 2 ^ 64 else x in
      if x =? -1 then -2 else x
  end.

End SipHash.

(** ** The generator of module [random]

    The Mersenne Twister MT19937 as CPython seeds and draws from it:
    [random.seed(a)] for an [int], [getrandbits] and the rejection loop
    of [_randbelow], which [random.choice] uses. *)

Module MT19937.

Definition N : nat := 624.
Definition M : nat := 397.

Definition u32 (x : Z) : Z := Z.land x 0xffffffff.

Fixpoint init_genrand_from (prev mti : Z) (count : nat) : list Z :=
  match count with
  | O => []
  | S count' =>
      let x := u32 (1812433253 * Z.lxor prev (Z.shiftr prev 30) + mti) in
      x :: init_genrand_from x (mti + 1) count'
  end.

Definition init_genrand (s : Z) : list Z :=
  let s := u32 s in s :: init_genrand_from s 1 (N - 1).

(** [if (i >= N) { mt[0] = mt[N-1]; i = 1; }] *)
Definition wrap (mt : list Z) (i : nat) : list Z * nat :=
  if (N <=? i)%nat then (<[0%nat := nth (N - 1) mt 0]> mt, 1%nat) else (mt, i).

Fixpoint key_loop (k : nat) (key : list Z) (i j : nat) (mt : list Z) : list Z * nat :=
  match k with
  | O => (mt, i)
  | S k' =>
      let prev := nth (i - 1) mt 0 in
      let v := u32 (Z.lxor (nth i mt 0) (u32 (Z.lxor prev (Z.shiftr prev 30) * 1664525))
                    + nth j key 0 + Z.of_nat j) in
      let '(mt, i) := wrap (<[i := v]> mt) (S i) in
      let j := if (length key <=? S j)%nat then 0%nat else S j in
      key_loop k' key i j mt
  end.

Fixpoint index_loop (k : nat) (i : nat) (mt : list Z) : list Z :=
  match k with
  | O => mt
  | S k' =>
      let prev := nth (i - 1) mt 0 in
      let v := u32 (Z.lxor (nth i mt 0) (u32 (Z.lxor prev (Z.shiftr prev 30) * 1566083941))
                    - Z.of_nat i) in
      let '(mt, i) := wrap (<[i := v]> mt) (S i) in
      index_loop k' i mt
  end.

Definition init_by_array (key : list Z) : list Z :=
  let mt := init_genrand 19650218 in
  let '(mt, i) := key_loop (Nat.max N (length key)) key 1 0 mt in
  let mt := index_loop (N - 1) i mt in
  <[0%nat := 0x80000000]> mt.

(** The regeneration of the [N] words, in place. *)
Fixpoint twist (count kk : nat) (mt : list Z) : list Z :=
  match count with
  | O => mt
  | S count' =>
      let y := Z.lor (Z.land (nth kk mt 0) 0x80000000)
                     (Z.land (nth ((kk + 1) mod N) mt 0) 0x7fffffff) in
      let v := Z.lxor (Z.lxor (nth ((kk + M) mod N) mt 0) (Z.shiftr y 1))
                      (if Z.odd y then 0x9908b0df else 0) in
      twist count' (S kk) (<[kk := v]> mt)
  end.

(** The words and the index of the next one. *)
Definition State : Type := list Z * nat.

Definition genrand_uint32 (st : State) : Z * State :=
  let '(mt, mti) := st in
  let '(mt, mti) := if (N <=? mti)%nat then (twist N 0 mt, 0%nat) else (mt, mti) in
  let y := nth mti mt 0 in
  let y := Z.lxor y (Z.shiftr y 11) in
  let y := Z.lxor y (Z.land (Z.shiftl y 7) 0x9d2c5680) in
  let y := Z.lxor y (Z.land (Z.shiftl y 15) 0xefc60000) in
  let y := Z.lxor y (Z.shiftr y 18) in
  (y, (mt, S mti)).

(** The 32-bit words of a number, least significant first. *)
Fixpoint words (count : nat) (n : Z) : list Z :=
  match count with
  | O => []
  | S count' => u32 n :: (if n <? 2 ^ 32 then [] else words count' (Z.shiftr n 32))
  end.

(** [random.seed(a)] for an [int]: the key is the absolute value. *)
Definition seed (a : Z) : State :=
  let n := Z.abs a in
  (init_by_array (words (S (Z.to_nat (Z.log2 n))) n), N).

(** [getrandbits(k)] for [0 < k <= 32]. *)
Definition getrandbits (k : Z) (st : State) : Z * State :=
  let '(y, st) := genrand_uint32 st in (Z.shiftr y (32 - k), st).

(** [_randbelow(n)] for [n < 2^32]: draw [n.bit_length()] bits until
    the draw is below [n].  Each draw is below [n] with probability
    above a half; the model gives up after [fuel] draws, with 0. *)
Fixpoint randbelow_loop (fuel : nat) (n k : Z) (st : State) : Z * State :=
  match fuel with
  | O => (0, st)
  | S fuel' =>
      let '(r, st) := getrandbits k st in
      if r <? n then (r, st) else randbelow_loop fuel' n k st
  end.

Definition randbelow (n : Z) (st : State) : Z * State :=
  if n =? 0 then (0, st) else randbelow_loop 128 n (Z.log2 n + 1) st.

End MT19937.

Module Reference.

Definition is_space (c : ascii) : bool :=
  let n := nat_of_ascii c in
  ((n =? 32) || ((9 <=? n) && (n <=? 13)))%nat.

Fixpoint lstrip (s : string) : string :=
  match s with
  | String c rest => if is_space c then lstrip rest else s
  | EmptyString => EmptyString
  end.

Fixpoint rstrip (s : string) : string :=
  match s with
  | String c rest =>
      match rstrip rest with
      | EmptyString => if is_space c then EmptyString else String c EmptyString
      | r => String c r
      end
  | EmptyString => EmptyString
  end.

Definition ascii_strip (s : string) : string := rstrip (lstrip s).

(** Stand-in for the salted [hash]: the sum of the bytes. *)
Definition byte_sum (s : string) : Z :=
  fold_left Z.add (MD5.bytes_of_string s) 0.

(** Stand-in generator: a linear congruential state, the draw is the
    state modulo the length. *)
Definition lcg_below (g : Z) (n : nat) : nat * Z :=
  (Z.to_nat (g mod Z.of_nat n), (1103515245 * g + 12345) mod 2 ^ 31).

(** [math.radians] multiplies by the double nearest to pi / 180.  The
    stand-ins of [sin], [cos] and [asin] are the approximations for
    small arguments, with the domain errors of the library: NaN at the
    infinities, and for [asin] outside [-1, 1]. *)
Definition radians (x : float) : float := (x * 0.017453292519943295)%float.

Definition small_sin (x : float) : float :=
  if PrimFloat.is_infinity x then PrimFloat.nan else x.

Definition small_cos (x : float) : float :=
  if PrimFloat.is_infinity x then PrimFloat.nan else 1%float.

Definition small_asin (x : float) : float :=
  if PrimFloat.ltb 1 (PrimFloat.abs x) then PrimFloat.nan else x.

#[export] Instance runtime : PyRuntime := {|
  str_lower := PyStr.ascii_lower;
  str_strip := ascii_strip;
  md5_int := MD5.md5_int;
  str_hash := byte_sum;
  rng := Z;
  random_seed := fun n => n;
  random_below := lcg_below;
  math_radians := radians;
  math_sin := small_sin;
  math_cos := small_cos;
  math_asin := small_asin
|}.

(** Sample answers of the places API and a sample request. *)

Definition feature (name : option string) (categories : list string) (meters : float)
  : Props :=
  {| props_name := name;
     props_formatted := None;
     props_lat := Some 18.92%float;
     props_lon := Some 72.83%float;
     props_categories := Some categories;
     props_distance := Some meters |}.

Definition sample_attractions : list Props :=
  [ feature (Some "Red Fort") ["tourism.sights"; "tourism.sights.fort"] 900;
    feature (Some "India Gate") ["tourism.sights"; "tourism.sights.memorial"] 1500;
    feature None ["tourism"] 50;
    feature (Some "Marine Drive") ["tourism.attraction"] 2100;
    feature (Some "Gateway of India") ["tourism.sights"] 300 ].

Definition sample_hotels : list Props :=
  [ feature (Some "Taj Mahal Palace Hotel") ["luxury"; "heritage"] 350;
    feature (Some "City Lodge") ["accommodation.hotel"] 800;
    feature (Some "Backpacker Hostel") ["accommodation.hostel"] 1200 ].

Definition sample_restaurants : list Props :=
  [ feature (Some "Trishna") ["catering.restaurant"] 600;
    feature (Some "Leopold Cafe") ["catering.cafe"] 400 ].

Definition sample_env : App.Env :=
  {| App.env_api_key := Some "key";
     App.env_read_fault := None;
     App.env_read_now := 1000;
     App.env_coordinates := (Some 18.93%float, Some 72.83%float, Some "Mumbai, India");
     App.env_attractions := PlaceService.HttpAnswer 200 (Some sample_attractions);
     App.env_hotels := PlaceService.HttpAnswer 200 (Some sample_hotels);
     App.env_restaurants := PlaceService.HttpAnswer 200 (Some sample_restaurants);
     App.env_write_fault := None;
     App.env_write_now := 2000 |}.

(** The places of the sample answers, raw and formatted but not yet
    ranked. *)
Definition sample_raw : list RawPlace :=
  PlaceService.fetch_places_from_geoapify (Some "key")
    (PlaceService.HttpAnswer 200 (Some sample_attractions)) 18.93 72.83.

Definition sample_places : list FormattedPlace :=
  fst (App.format_loop sample_raw "attractions" 0).

(** A second process: the same runtime with another salt of [hash]. *)
Definition salted (salt : Z) : PyRuntime := {|
  str_lower := PyStr.ascii_lower;
  str_strip := ascii_strip;
  md5_int := MD5.md5_int;
  str_hash := fun s => byte_sum s + salt;
  rng := Z;
  random_seed := fun n => n;
  random_below := lcg_below;
  math_radians := radians;
  math_sin := small_sin;
  math_cos := small_cos;
  math_asin := small_asin
|}.

(** The runtime of a CPython 3.11 process (64 bit) started with
    [PYTHONHASHSEED=hashseed], for ASCII text. *)
Definition cpython (hashseed : Z) : PyRuntime := {|
  str_lower := PyStr.ascii_lower;
  str_strip := ascii_strip;
  md5_int := MD5.md5_int;
  str_hash := SipHash.str_hash hashseed;
  rng := MT19937.State;
  random_seed := MT19937.seed;
  random_below := fun st n =>
    let '(r, st) := MT19937.randbelow (Z.of_nat n) st in (Z.to_nat r, st);
  math_radians := radians;
  math_sin := small_sin;
  math_cos := small_cos;
  math_asin := small_asin
|}.

(** The same request a little less than a day later, with the places
    API and the geocoder down; and a request during an outage of the
    places API. *)
Definition sample_env_later : App.Env :=
  {| App.env_api_key := None;
     App.env_read_fault := None;
     App.env_read_now := 2000 + 23 * 3600 * 1000000;
     App.env_coordinates := (None, None, None);
     App.env_attractions := PlaceService.HttpRaised;
     App.env_hotels := PlaceService.HttpRaised;
     App.env_restaurants := PlaceService.HttpRaised;
     App.env_write_fault := None;
     App.env_write_now := 3000 + 23 * 3600 * 1000000 |}.

Definition outage_env : App.Env :=
  App.with_replies PlaceService.HttpRaised (PlaceService.HttpAnswer 503 None)
    PlaceService.HttpRaised sample_env.

(** An answer whose last feature comes without distance and with a
    latitude that is no finite number, and an answer with distances
    that are no whole hundredths of a kilometre. *)
Definition stray_feature : Props :=
  {| props_name := Some "Nowhere";
     props_formatted := None;
     props_lat := Some PrimFloat.infinity;
     props_lon := Some 72.83%float;
     props_categories := Some ["tourism"];
     props_distance := None |}.

Definition sample_with_stray : list Props := sample_attractions ++ [stray_feature].

Definition sample_walk : list Props :=
  [ feature (Some "Colaba Causeway") ["commercial.marketplace"] 1234.5678;
    feature None ["tourism"] 10;
    feature (Some "Flora Fountain") ["tourism.sights"] 2675;
    feature (Some "Kala Ghoda") ["tourism.attraction"] 4 ].

(** The sample places ranked, and a history of cache writes. *)
Definition sample_ranked : list FormattedPlace := AIService.rank_places sample_places.

Definition sample_writes : list (Z * string * nat) :=
  [ (10, "Paris", 1%nat); (20, " Rome ", 2%nat); (30, "PARIS", 3%nat) ].

(** One hour in microseconds, and a sample cache at time [t0]. *)
Definition hour : Z := 3600 * 1000000.

Definition paris_cache (t0 : Z) (P : nat)
  : DatabaseService.Collection nat :=
  {[ "paris" := {| DatabaseService.doc_data := Some P;
                   DatabaseService.doc_cached_at := Some t0 |} ]}.

Definition legacy_cache (P : nat) : DatabaseService.Collection nat :=
  {[ "paris" := {| DatabaseService.doc_data := Some P;
                   DatabaseService.doc_cached_at := None |} ]}.

End Reference.

(** ** Vocabulary of the further properties *)

Module Vocabulary.

Import AIService PlaceService DatabaseService App.

(** The feature, or the raw place, has a name that is not empty. *)
Definition props_named (props : Props) : bool :=
  PyStr.truthy (default "" (props_name props)).

Definition raw_named (place : RawPlace) : bool :=
  PyStr.truthy (default "" (rp_name place)).

Definition raw_name (place : RawPlace) : string := default "" (rp_name place).

(** The feature comes with a distance that is not zero kilometres. *)
Definition has_distance (props : Props) : bool :=
  negb (PyFloat.eq (default 0%float (props_distance props) / 1000.0)%float 0).

(** The fields of a place other than its distance, and what they are
    for a place made from a feature: the name, address, coordinates
    and categories of the feature, the categories joined by commas,
    and the rating 0. *)
Definition place_fields (place : RawPlace) :=
  (rp_name place, rp_address place, rp_lat place, rp_lon place,
   rp_categories place, rp_kinds place, rp_rating place).

Definition feature_fields (props : Props) :=
  (props_name props, props_formatted props, props_lat props, props_lon props,
   default [] (props_categories props),
   Some (PyStr.join "," (default [] (props_categories props))),
   Some 0%float).

(** [r] is [x] rounded to two decimals: the double nearest to
    [n / 100], for an integer [n] nearest to [100 x] (of magnitude [n],
    with the sign of [x]).  A value so large that [n] is no exact
    double has no fraction digits and stays as it is, like zero, the
    infinities and NaN. *)
Definition hundredths (x r : float) : Prop :=
  match Prim2SF x with
  | S754_finite s m e =>
      exists n : Z,
        0 <= n /\
        (if 0 <=? e then (n = 100 * (Z.pos m * 2 ^ e))
         else (2 * Z.abs (100 * Z.pos m - n * 2 ^ (- e)) <= 2 ^ (- e))) /\
        (n < 2 ^ 53 ->
         r = if s then (- (PyFloat.of_int n / 100))%float
             else (PyFloat.of_int n / 100)%float) /\
        (2 ^ 53 <= n -> r = x)
  | _ => r = x
  end.

(** The raw place as the places service builds it: named, with its
    kinds the comma-joined categories and with rating 0. *)
Definition raw_well_formed (place : RawPlace) : Prop :=
  raw_named place = true /\
  rp_kinds place = Some (PyStr.join "," (rp_categories place)) /\
  rp_rating place = Some 0%float.

Section WithRuntime.
Context `{PyRuntime}.

(** The key under which a city is cached. *)
Definition city_key (city_name : string) : string := str_strip (str_lower city_name).

(** Processing the feature raises an exception. *)
Definition raises (lat lon : float) (props : Props) : Prop :=
  place_of_props lat lon props = BodyRaised.

(** The fields of an enriched place that every formatted place has. *)
Definition well_formed (category : string) (fp : FormattedPlace) : Prop :=
  fp_name fp <> "" /\
  fp_category fp = singular category /\
  (exists r, fp_rating fp = Some r /\ In r RATING_VALUES) /\
  In (fp_price_range fp) PRICE_SYMBOLS /\
  fp_ai_insight fp <> "" /\
  fp_review_count fp = None.

(** The response of a search served from the cache. *)
Definition cached_response (city : string) (data : Payload) : Response :=
  {| resp_status := 200; resp_success := true; resp_error := None;
     resp_city := Some city; resp_cached := Some true;
     resp_attractions := attractions data;
     resp_hotels := hotels data;
     resp_restaurants := restaurants data |}.

(** The payload a response carries. *)
Definition payload_of (resp : Response) : Payload :=
  {| attractions := resp_attractions resp;
     hotels := resp_hotels resp;
     restaurants := resp_restaurants resp |}.

End WithRuntime.

(** The call to the places API failed: it raised, or the status was
    not 200. *)
Definition reply_failed (reply : HttpReply) : Prop :=
  reply = HttpRaised \/
  exists status features, reply = HttpAnswer status features /\ status <> 200.

(** The geocoder gave no place: the call raised, the body had no
    features, or the first feature had no properties. *)
Definition geocode_failed (reply : GeocodeReply) : Prop :=
  reply = GeocodeRaised \/ reply = GeocodeAnswer None \/
  reply = GeocodeAnswer (Some []) \/
  exists rest, reply = GeocodeAnswer (Some (None :: rest)).

End Vocabulary.

(** * Properties *)

(** ** Order of floats *)

Section FloatOrder.

Import PyFloat.

Ltac lex3_cases :=
  unfold lex3, t3_lt; simpl;
  repeat match goal with
         | |- context [?u ?= ?v] => destruct (Z.compare_spec u v)
         end;
  try (split; intros; try discriminate; try lia; try congruence);
  try reflexivity.

Lemma lex3_Lt (a b : Z * Z * Z) : lex3 a b = Lt <-> t3_lt a b.
Proof. destruct a as [[a1 a2] a3], b as [[b1 b2] b3]. lex3_cases. Qed.

Lemma lex3_Gt (a b : Z * Z * Z) : lex3 a b = Gt <-> t3_lt b a.
Proof. destruct a as [[a1 a2] a3], b as [[b1 b2] b3]. lex3_cases. Qed.

Lemma lex3_Eq (a b : Z * Z * Z) : lex3 a b = Eq <-> a = b.
Proof.
  destruct a as [[a1 a2] a3], b as [[b1 b2] b3]. lex3_cases;
    match goal with
    | Hx : (_, _, _) = (_, _, _) |- _ => inversion Hx; lia
    end.
Qed.

Lemma SFcompare_lex (f1 f2 : spec_float) :
  sf_is_nan f1 = false -> sf_is_nan f2 = false ->
  SFcompare f1 f2 = Some (lex3 (sf_key f1) (sf_key f2)).
Proof.
  destruct f1 as [s1|s1| |s1 m1 e1], f2 as [s2|s2| |s2 m2 e2];
    simpl; intros Hn1 Hn2; try discriminate;
    try destruct s1; try destruct s2; try reflexivity.
  - unfold lex3. rewrite Z.compare_refl, Z.compare_opp, (Z.compare_antisym e1 e2).
    destruct (e1 ?= e2); reflexivity.
Qed.

Lemma is_nan_sf (x : float) :
  PrimFloat.is_nan x = false -> sf_is_nan (Prim2SF x) = false.
Proof.
  unfold PrimFloat.is_nan. rewrite FloatAxioms.eqb_spec. unfold SFeqb.
  destruct (Prim2SF x); simpl; intros Hx; try reflexivity; discriminate.
Qed.

Lemma SFcompare_some (f1 f2 : spec_float) (c : comparison) :
  SFcompare f1 f2 = Some c -> sf_is_nan f1 = false /\ sf_is_nan f2 = false.
Proof.
  destruct f1, f2; simpl; intros Hc; try discriminate; split; reflexivity.
Qed.

Lemma lt_true (x y : float) :
  lt x y = true <->
  sf_is_nan (Prim2SF x) = false /\ sf_is_nan (Prim2SF y) = false /\
  t3_lt (fkey x) (fkey y).
Proof.
  unfold lt, fkey. rewrite FloatAxioms.ltb_spec. unfold SFltb. split.
  - destruct (SFcompare (Prim2SF x) (Prim2SF y)) as [c|] eqn:Hc; [|discriminate].
    destruct (SFcompare_some _ _ _ Hc) as [H1 H2].
    rewrite (SFcompare_lex _ _ H1 H2) in Hc. injection Hc as <-.
    intros Hlt. repeat split; trivial. apply lex3_Lt.
    destruct (lex3 _ _); trivial; discriminate.
  - intros (H1 & H2 & Hlt). rewrite (SFcompare_lex _ _ H1 H2).
    apply lex3_Lt in Hlt. now rewrite Hlt.
Qed.

Lemma eq_true (x y : float) :
  eq x y = true <->
  sf_is_nan (Prim2SF x) = false /\ sf_is_nan (Prim2SF y) = false /\
  fkey x = fkey y.
Proof.
  unfold eq, fkey. rewrite FloatAxioms.eqb_spec. unfold SFeqb. split.
  - destruct (SFcompare (Prim2SF x) (Prim2SF y)) as [c|] eqn:Hc; [|discriminate].
    destruct (SFcompare_some _ _ _ Hc) as [H1 H2].
    rewrite (SFcompare_lex _ _ H1 H2) in Hc. injection Hc as <-.
    intros Heq. repeat split; trivial. apply lex3_Eq.
    destruct (lex3 _ _); trivial; discriminate.
  - intros (H1 & H2 & Heq). rewrite (SFcompare_lex _ _ H1 H2).
    apply lex3_Eq in Heq. now rewrite Heq.
Qed.

Lemma ge_true (x y : float) :
  ge x y = true <->
  sf_is_nan (Prim2SF x) = false /\ sf_is_nan (Prim2SF y) = false /\
  ~ t3_lt (fkey x) (fkey y).
Proof.
  unfold ge, fkey. rewrite FloatAxioms.leb_spec. unfold SFleb. split.
  - destruct (SFcompare (Prim2SF y) (Prim2SF x)) as [c|] eqn:Hc; [|discriminate].
    destruct (SFcompare_some _ _ _ Hc) as [H1 H2].
    rewrite (SFcompare_lex _ _ H1 H2) in Hc. injection Hc as <-.
    intros Hle. repeat split; trivial. intros Hlt. apply lex3_Gt in Hlt.
    rewrite Hlt in Hle. discriminate.
  - intros (H1 & H2 & Hge). rewrite (SFcompare_lex _ _ H2 H1).
    destruct (lex3 _ _) eqn:Hc; trivial.
    apply lex3_Gt in Hc. contradiction.
Qed.

(** [x < y] excludes [x >= y]. *)
Lemma lt_not_ge (x y : float) : lt x y = true -> ge x y = false.
Proof.
  intros Hlt. apply lt_true in Hlt as (_ & _ & Hlt).
  destruct (ge x y) eqn:Hge; trivial.
  apply ge_true in Hge as (_ & _ & Hge). contradiction.
Qed.

(** Away from NaN, [x >= y] fails only when [x < y]. *)
Lemma not_ge_lt (x y : float) :
  PrimFloat.is_nan x = false -> PrimFloat.is_nan y = false ->
  ge x y = false -> lt x y = true.
Proof.
  intros Hx%is_nan_sf Hy%is_nan_sf Hge. apply lt_true. repeat split; trivial.
  destruct (lex3 (fkey x) (fkey y)) eqn:Hc.
  - exfalso. apply lex3_Eq in Hc.
    assert (ge x y = true); [|congruence].
    apply ge_true. repeat split; trivial. rewrite Hc.
    destruct (fkey y) as [[a b] c]. unfold t3_lt. simpl. lia.
  - now apply lex3_Lt.
  - exfalso. apply lex3_Gt in Hc.
    assert (ge x y = true); [|congruence].
    apply ge_true. repeat split; trivial.
    destruct (fkey x) as [[a b] c], (fkey y) as [[a' b'] c'].
    unfold t3_lt in *. simpl in *. lia.
Qed.

End FloatOrder.

(** ** Substring search *)

Section Strings.

Import PyStr.

Lemma prefix_true (kw text : string) :
  String.prefix kw text = true <-> exists post, text = kw ++ post.
Proof.
  revert text. induction kw as [|a kw IH]; intros text.
  - split; [intros _; now exists text | intros _; now destruct text].
  - destruct text as [|b text]; simpl.
    + split; [discriminate | intros [post Hp]; discriminate].
    + destruct (ascii_dec a b) as [->|Hne].
      * rewrite IH. split; intros [post Hp]; exists post.
        -- now rewrite Hp.
        -- now injection Hp.
      * split; [discriminate | intros [post Hp]; injection Hp; congruence].
Qed.

Lemma contains_unfold (kw text : string) :
  contains kw text =
  String.prefix kw text ||
  match text with
  | EmptyString => false
  | String _ rest => contains kw rest
  end.
Proof. destruct text; reflexivity. Qed.

Lemma contains_true (kw text : string) :
  contains kw text = true <-> substring_of kw text.
Proof.
  unfold substring_of. split.
  - induction text as [|c text IH]; rewrite contains_unfold; intros Hc.
    + apply orb_true_iff in Hc as [Hp|Hf]; [|discriminate].
      apply prefix_true in Hp as [post Hp]. now exists "", post.
    + apply orb_true_iff in Hc as [Hp|Hr].
      * apply prefix_true in Hp as [post Hp]. now exists "", post.
      * destruct (IH Hr) as (pre & post & ->). now exists (String c pre), post.
  - intros (pre & post & ->). induction pre as [|c pre IH];
      rewrite contains_unfold; apply orb_true_iff.
    + left. apply prefix_true. now exists post.
    + right. exact IH.
Qed.

Lemma any_in_true (keywords : list string) (text : string) :
  any_in keywords text = true <-> has_keyword keywords text.
Proof.
  unfold any_in, has_keyword. rewrite existsb_exists.
  split; intros (k & Hin & Hk); exists k; split; trivial; now apply contains_true.
Qed.

Lemma any_in_false (keywords : list string) (text : string) :
  any_in keywords text = false <-> ~ has_keyword keywords text.
Proof.
  rewrite <- any_in_true. destruct (any_in keywords text); split; congruence.
Qed.

End Strings.

(** ** Comparisons with the rating thresholds *)

Section Thresholds.

Import PyFloat.

Lemma lt_trans (x y z : float) : lt x y = true -> lt y z = true -> lt x z = true.
Proof.
  intros (Hx & _ & Hxy)%lt_true (_ & Hz & Hyz)%lt_true.
  apply lt_true. repeat split; trivial.
  destruct (fkey x) as [[x1 x2] x3], (fkey y) as [[y1 y2] y3], (fkey z) as [[z1 z2] z3].
  unfold t3_lt in *. simpl in *. lia.
Qed.

Lemma below_4_not_ge_45 (r : float) : lt r 4.0 = true -> ge r 4.5 = false.
Proof.
  intros Hr. apply lt_not_ge. apply (lt_trans r 4.0 4.5 Hr). reflexivity.
Qed.

Lemma distinct_floats (a b : float) : PrimFloat.eqb a a = true -> PrimFloat.eqb a b = false -> a <> b.
Proof. intros Ha Hb ->. congruence. Qed.

End Thresholds.

(** ** Rating and price *)

Section RatingAndPrice.

Context `{PyRuntime}.
Import AIService PyStr.

Lemma rating_of_nibble (k : Z) :
  0 <= k < 16 ->
  nth_error RATING_VALUES (Z.to_nat k) =
  Some (PyFloat.round (3.5 + PyFloat.of_int k / 10.0)%float 1).
Proof.
  intros Hk.
  assert (Hc : k = 0 \/ k = 1 \/ k = 2 \/ k = 3 \/ k = 4 \/ k = 5 \/ k = 6 \/ k = 7 \/
               k = 8 \/ k = 9 \/ k = 10 \/ k = 11 \/ k = 12 \/ k = 13 \/ k = 14 \/ k = 15)
    by lia.
  repeat (destruct Hc as [-> | Hc]; [vm_compute; reflexivity|]).
  subst k. vm_compute. reflexivity.
Qed.

Lemma rating_values_nodup : NoDup RATING_VALUES.
Proof.
  unfold RATING_VALUES.
  repeat (constructor;
          [ rewrite list_elem_of_In; simpl; intros Hin;
            repeat (destruct Hin as [Hin | Hin];
                    [ revert Hin; apply distinct_floats; vm_compute; reflexivity |]);
            exact Hin |]).
  constructor.
Qed.

(** C1: [generate_rating name] is [round(3.5 + (h mod 16) / 10.0, 1)]
    for [h] the MD5 digest of the name read as an integer; it is the
    [(h mod 16)]-th of the sixteen distinct values 3.5, 3.6, ..., 5.0;
    and calls on the same name (more generally, on names whose digests
    agree modulo 16) return the same value. *)
Theorem generate_rating_spec (name : string) :
  let h := md5_int name in
  generate_rating name = PyFloat.round (3.5 + PyFloat.of_int (h mod 16) / 10.0)%float 1 /\
  nth_error RATING_VALUES (Z.to_nat (h mod 16)) = Some (generate_rating name) /\
  In (generate_rating name) RATING_VALUES /\
  NoDup RATING_VALUES /\ length RATING_VALUES = 16%nat /\
  (forall name', name' = name -> generate_rating name' = generate_rating name) /\
  (forall name', md5_int name' mod 16 = h mod 16 ->
                 generate_rating name' = generate_rating name).
Proof.
  intros h.
  assert (Hnth : nth_error RATING_VALUES (Z.to_nat (h mod 16)) = Some (generate_rating name)).
  { apply rating_of_nibble. apply Z.mod_pos_bound. lia. }
  repeat split.
  - exact Hnth.
  - eapply nth_error_In. exact Hnth.
  - exact rating_values_nodup.
  - intros name' ->. reflexivity.
  - intros name' Heq. unfold generate_rating. fold h. now rewrite Heq.
Qed.

Lemma price_symbols_nodup : NoDup PRICE_SYMBOLS.
Proof.
  unfold PRICE_SYMBOLS.
  repeat (constructor;
          [ rewrite list_elem_of_In; simpl; intros Hin;
            repeat (destruct Hin as [Hin | Hin]; [discriminate |]); exact Hin |]).
  constructor.
Qed.

(** C2: [estimate_price_range] returns one of the three distinct
    symbols; a luxury keyword in the lowercased text gives the top tier
    whatever else the text or the rating says; failing that a budget
    keyword gives the lowest tier; failing that a moderate keyword
    gives the middle tier; failing that the rating decides: at least
    4.5 the top tier, from 4.0 up to 4.5 the middle tier, below 4.0 the
    lowest tier. *)
Theorem estimate_price_range_spec (name kinds : string) (rating : float) :
  let text := str_lower (name ++ " " ++ kinds) in
  let price := estimate_price_range name kinds rating in
  In price PRICE_SYMBOLS /\ NoDup PRICE_SYMBOLS /\
  (has_keyword LUXURY_KEYWORDS text -> price = "₹₹₹") /\
  (~ has_keyword LUXURY_KEYWORDS text ->
   has_keyword BUDGET_KEYWORDS text -> price = "₹") /\
  (~ has_keyword LUXURY_KEYWORDS text -> ~ has_keyword BUDGET_KEYWORDS text ->
   has_keyword MODERATE_KEYWORDS text -> price = "₹₹") /\
  (~ has_keyword LUXURY_KEYWORDS text -> ~ has_keyword BUDGET_KEYWORDS text ->
   ~ has_keyword MODERATE_KEYWORDS text ->
     (PyFloat.ge rating 4.5 = true -> price = "₹₹₹") /\
     (PyFloat.ge rating 4.0 = true -> PyFloat.lt rating 4.5 = true -> price = "₹₹") /\
     (PyFloat.lt rating 4.0 = true -> price = "₹")).
Proof.
  intros text price. subst price. unfold estimate_price_range. fold text.
  split; [|split; [exact price_symbols_nodup|]].
  - unfold PRICE_SYMBOLS.
    destruct (any_in LUXURY_KEYWORDS text), (any_in BUDGET_KEYWORDS text),
      (any_in MODERATE_KEYWORDS text), (PyFloat.ge rating 4.5), (PyFloat.ge rating 4.0);
      simpl; auto.
  - split; [|split; [|split]].
    + intros Hl%any_in_true. now rewrite Hl.
    + intros Hl%any_in_false Hb%any_in_true. now rewrite Hl, Hb.
    + intros Hl%any_in_false Hb%any_in_false Hm%any_in_true. now rewrite Hl, Hb, Hm.
    + intros Hl%any_in_false Hb%any_in_false Hm%any_in_false.
      rewrite Hl, Hb, Hm. split; [|split].
      * intros Hr. now rewrite Hr.
      * intros Hr Hlt. now rewrite Hr, (lt_not_ge _ _ Hlt).
      * intros Hlt. now rewrite (below_4_not_ge_45 _ Hlt), (lt_not_ge _ _ Hlt).
Qed.

End RatingAndPrice.

(** ** Classification *)

Section Classification.

Context `{PyRuntime}.
Import AIService Classifier PyStr.

Lemma first_match_default (rules : list rule) (text : string) :
  Forall (no_match text) rules -> first_match rules text = "default".
Proof.
  unfold first_match. induction 1 as [|r rules Hr _ IH]; simpl; [reflexivity|].
  apply any_in_false in Hr. now rewrite Hr.
Qed.

Lemma first_match_precedence (rules before after : list rule) (text lab : string)
    (kws : list string) :
  rules = (before ++ (lab, kws) :: after)%list ->
  Forall (no_match text) before -> has_keyword kws text ->
  first_match rules text = lab.
Proof.
  intros -> Hb Hk. unfold first_match.
  induction Hb as [|r before Hr _ IH]; simpl.
  - apply any_in_true in Hk. now rewrite Hk.
  - apply any_in_false in Hr. now rewrite Hr.
Qed.

Lemma first_match_label (rules : list rule) (text : string) :
  In (first_match rules text) (labels rules).
Proof.
  unfold first_match, labels.
  destruct (find (fun r => any_in (snd r) text) rules) as [r|] eqn:Hf; apply in_or_app.
  - left. apply find_some in Hf as [Hin _]. now apply in_map.
  - right. now left.
Qed.

Ltac split_ifs :=
  repeat match goal with
         | |- context [if ?b then _ else _] => destruct b
         end; try reflexivity.

Lemma categorize_attraction_type_rules (kinds : string) :
  categorize_attraction_type kinds = first_match ATTRACTION_RULES (str_lower kinds).
Proof.
  unfold categorize_attraction_type, first_match, ATTRACTION_RULES.
  cbn [find snd fst]. split_ifs.
Qed.

Lemma categorize_hotel_type_rules (name kinds : string) :
  categorize_hotel_type name kinds =
  first_match HOTEL_RULES (str_lower (name ++ " " ++ kinds)).
Proof.
  unfold categorize_hotel_type, first_match, HOTEL_RULES.
  cbn [find snd fst]. split_ifs.
Qed.

Lemma categorize_restaurant_type_rules (name kinds : string) :
  categorize_restaurant_type name kinds =
  first_match RESTAURANT_RULES (str_lower (name ++ " " ++ kinds)).
Proof.
  unfold categorize_restaurant_type, first_match, RESTAURANT_RULES.
  cbn [find snd fst]. split_ifs.
Qed.

(** The dispatch of [generate_insight] as a case analysis. *)
Lemma category_cases (category : string) :
  category = "attractions" \/ category = "hotels" \/ category = "restaurants" \/
  (String.eqb category "attractions" = false /\ String.eqb category "hotels" = false /\
   String.eqb category "restaurants" = false).
Proof.
  destruct (String.eqb_spec category "attractions"); [now left|].
  destruct (String.eqb_spec category "hotels"); [now right; left|].
  destruct (String.eqb_spec category "restaurants"); [now right; right; left|].
  now right; right; right.
Qed.

Lemma classify_rules (category name kinds : string) (rules : list rule) :
  rules_of category = Some rules ->
  classify category name kinds =
    Some (first_match rules (classify_text category name kinds)) /\
  select_insights name category kinds =
    Some (pool_get (table_of category)
            (first_match rules (classify_text category name kinds))).
Proof.
  unfold rules_of, classify, classify_text, select_insights, table_of.
  destruct (category_cases category) as [-> | [-> | [-> | (H1 & H2 & H3)]]]; simpl.
  - intros [= <-]. now rewrite categorize_attraction_type_rules.
  - intros [= <-]. now rewrite categorize_hotel_type_rules.
  - intros [= <-]. now rewrite categorize_restaurant_type_rules.
  - rewrite H1, H2, H3. discriminate.
Qed.

Lemma classify_unknown (category name kinds : string) :
  rules_of category = None ->
  classify category name kinds = None /\
  select_insights name category kinds = None /\
  category <> "attractions" /\ category <> "hotels" /\ category <> "restaurants".
Proof.
  unfold rules_of, classify, select_insights.
  destruct (category_cases category) as [-> | [-> | [-> | (H1 & H2 & H3)]]]; simpl;
    try discriminate.
  rewrite H1, H2, H3. intros _.
  apply String.eqb_neq in H1, H2, H3. auto.
Qed.

(** C7 (amended): for each of the three place kinds the classifier is
    a total function that returns the label of the first rule, in the
    order of the rule table, one of whose keywords occurs in the
    searched text, and ["default"] when no rule has one; the label is
    always in the closed label set of the kind, and it selects the
    template pool.  A place kind outside the three is not classified:
    no label is computed and [generate_insight] returns its fixed
    sentence. *)
Theorem classify_spec (category name kinds : string) :
  let text := classify_text category name kinds in
  match rules_of category with
  | Some rules =>
      exists label,
        classify category name kinds = Some label /\
        label = first_match rules text /\
        In label (labels rules) /\
        (forall before lab kws after,
            rules = (before ++ (lab, kws) :: after)%list ->
            Forall (no_match text) before -> has_keyword kws text -> label = lab) /\
        (Forall (no_match text) rules -> label = "default") /\
        select_insights name category kinds = Some (pool_get (table_of category) label)
  | None =>
      classify category name kinds = None /\
      category <> "attractions" /\ category <> "hotels" /\ category <> "restaurants" /\
      forall rating g,
        fst (generate_insight name category kinds rating g) =
        "A great place to visit and explore."
  end.
Proof.
  intros text. destruct (rules_of category) as [rules|] eqn:Hr.
  - destruct (classify_rules category name kinds rules Hr) as [Hc Hs].
    exists (first_match rules text). fold text in Hc, Hs.
    split; [exact Hc|]. split; [reflexivity|]. split; [apply first_match_label|].
    split; [|split; [apply first_match_default | exact Hs]].
    intros before lab kws after Heq Hb Hk.
    exact (first_match_precedence rules before after text lab kws Heq Hb Hk).
  - destruct (classify_unknown category name kinds Hr) as (Hc & Hs & Hn).
    split; [exact Hc|]. destruct Hn as (N1 & N2 & N3). repeat (split; trivial).
    intros rating g. unfold generate_insight. now rewrite Hs.
Qed.

End Classification.

(** ** Insight templates *)

Section Insights.

Context `{PyRuntime}.
Import AIService Classifier PyStr.

Lemma string_length_append (a b : string) :
  String.length (a ++ b) = (String.length a + String.length b)%nat.
Proof.
  induction a as [|c a IH]; [reflexivity|].
  change (S (String.length (a ++ b)) = S (String.length a + String.length b)).
  now rewrite IH.
Qed.

Lemma string_append_cancel_r (a b s : string) : a ++ s = b ++ s -> a = b.
Proof.
  revert b. induction a as [|c a IH]; intros [|d b] Heq.
  - reflexivity.
  - change (s = String d (b ++ s)) in Heq.
    apply (f_equal String.length) in Heq.
    change (String.length s = S (String.length (b ++ s))) in Heq.
    rewrite (string_length_append b s) in Heq. lia.
  - change (String c (a ++ s) = s) in Heq.
    apply (f_equal String.length) in Heq.
    change (S (String.length (a ++ s)) = String.length s) in Heq.
    rewrite (string_length_append a s) in Heq. lia.
  - change (String c (a ++ s) = String d (b ++ s)) in Heq.
    injection Heq as -> Heq. f_equal. now apply IH.
Qed.

Lemma pool_get_entries (entries : list (string * list string)) (key : string) :
  is_Some (list_to_map (M := gmap string (list string)) entries !! "default") ->
  pool_get (list_to_map entries) key ∈ entries.*2.
Proof.
  intros [dflt Hd]. unfold pool_get. rewrite Hd. simpl.
  destruct (list_to_map (M := gmap string (list string)) entries !! key) as [v|] eqn:Hk; simpl.
  - apply elem_of_list_to_map_2 in Hk. apply list_elem_of_fmap. now exists (key, v).
  - apply elem_of_list_to_map_2 in Hd. apply list_elem_of_fmap. now exists ("default", dflt).
Qed.

Ltac pool_cases Hin :=
  revert Hin;
  match goal with
  | |- ?p ∈ _ -> _ => generalize p
  end;
  intros pool Hin; cbn in Hin;
  repeat match type of Hin with
         | _ ∈ _ :: _ => apply elem_of_cons in Hin as [-> | Hin]
         | _ ∈ [] => apply elem_of_nil in Hin; contradiction
         end;
  (split; [reflexivity | compute_done]).

Lemma attraction_pools_ok (key : string) : pool_ok (pool_get ATTRACTION_INSIGHTS key).
Proof.
  unfold ATTRACTION_INSIGHTS.
  match goal with
  | |- pool_ok (pool_get (list_to_map ?l) _) =>
      assert (Hin := pool_get_entries l key ltac:(vm_compute; eauto))
  end.
  pool_cases Hin.
Qed.

Lemma hotel_pools_ok (key : string) : pool_ok (pool_get HOTEL_INSIGHTS key).
Proof.
  unfold HOTEL_INSIGHTS.
  match goal with
  | |- pool_ok (pool_get (list_to_map ?l) _) =>
      assert (Hin := pool_get_entries l key ltac:(vm_compute; eauto))
  end.
  pool_cases Hin.
Qed.

Lemma restaurant_pools_ok (key : string) : pool_ok (pool_get RESTAURANT_INSIGHTS key).
Proof.
  unfold RESTAURANT_INSIGHTS.
  match goal with
  | |- pool_ok (pool_get (list_to_map ?l) _) =>
      assert (Hin := pool_get_entries l key ltac:(vm_compute; eauto))
  end.
  pool_cases Hin.
Qed.

Lemma select_insights_pool (name category kinds : string) (insights : list string) :
  select_insights name category kinds = Some insights -> pool_ok insights.
Proof.
  unfold select_insights.
  destruct (String.eqb category "attractions"); [intros [= <-]; apply attraction_pools_ok|].
  destruct (String.eqb category "hotels"); [intros [= <-]; apply hotel_pools_ok|].
  destruct (String.eqb category "restaurants");
    [intros [= <-]; apply restaurant_pools_ok | discriminate].
Qed.

End Insights.

Section InsightSelection.

Context `{PyRuntime}.
Import AIService Classifier PyStr.

(** The sentence is the template at the index drawn from the seed of
    the name, followed by the rating suffix, whatever state the
    generator was in. *)
Lemma generate_insight_base (name category kinds : string) (rating : float)
    (insights : list string) :
  rng_in_range ->
  select_insights name category kinds = Some insights ->
  exists base,
    insights !! fst (random_below (random_seed (str_hash name mod 10000)) 3) = Some base /\
    forall g, fst (generate_insight name category kinds rating g)
              = base ++ rating_suffix rating.
Proof.
  intros Hrng Hsel.
  destruct (select_insights_pool _ _ _ _ Hsel) as [Hlen _].
  pose proof (Hrng (random_seed (str_hash name mod 10000)) 3%nat ltac:(lia)) as Hlt.
  destruct (lookup_lt_is_Some_2 insights
              (fst (random_below (random_seed (str_hash name mod 10000)) 3)))
    as [base Hb]; [rewrite Hlen; exact Hlt|].
  exists base. split; [exact Hb|]. intros g.
  unfold generate_insight. rewrite Hsel, Hlen.
  destruct (random_below (random_seed (str_hash name mod 10000)) 3) as [i g2].
  simpl in *. now rewrite (nth_lookup_Some _ _ _ _ Hb).
Qed.

(** Within one interpreter process, where [hash] is one function:
    [generate_insight] reseeds the generator from the hash of the
    name before it draws, so its result does not depend on the state
    the generator was in: two calls with the same name, category, kinds
    and rating return the same sentence (and leave the same generator
    state).  The base sentence is the template of the selected pool at
    the index drawn from that seed, followed by the rating suffix; and
    two names that select the same pool but draw different indices get
    different sentences. *)
Theorem generate_insight_deterministic
    (name category kinds : string) (rating : float) (g g' : rng) :
  rng_in_range ->
  generate_insight name category kinds rating g =
  generate_insight name category kinds rating g' /\
  (forall insights,
      select_insights name category kinds = Some insights ->
      let i := fst (random_below (random_seed (str_hash name mod 10000))
                      (length insights)) in
      exists base,
        insights !! i = Some base /\
        fst (generate_insight name category kinds rating g) = base ++ rating_suffix rating) /\
  (forall name2 insights,
      select_insights name category kinds = Some insights ->
      select_insights name2 category kinds = Some insights ->
      fst (random_below (random_seed (str_hash name mod 10000)) 3) <>
      fst (random_below (random_seed (str_hash name2 mod 10000)) 3) ->
      fst (generate_insight name category kinds rating g) <>
      fst (generate_insight name2 category kinds rating g')).
Proof.
  intros Hrng. split; [reflexivity|]. split.
  - intros insights Hsel i. subst i.
    destruct (select_insights_pool _ _ _ _ Hsel) as [Hlen _]. rewrite Hlen.
    destruct (generate_insight_base name category kinds rating insights Hrng Hsel)
      as (base & Hb & Hg).
    exists base. split; [exact Hb | apply Hg].
  - intros name2 insights Hsel Hsel2 Hne Heq.
    destruct (select_insights_pool _ _ _ _ Hsel) as [_ Hnd].
    destruct (generate_insight_base name category kinds rating insights Hrng Hsel)
      as (b1 & Hb1 & Hg1).
    destruct (generate_insight_base name2 category kinds rating insights Hrng Hsel2)
      as (b2 & Hb2 & Hg2).
    rewrite Hg1, Hg2 in Heq. apply string_append_cancel_r in Heq. subst b2.
    apply Hne. exact (NoDup_lookup _ _ _ _ Hnd Hb1 Hb2).
Qed.

End InsightSelection.

(** ** Sorting *)

Section StableSort.

Import PyList.
Variable A : Type.
Variable lt : A -> A -> bool.

Lemma insert_desc_perm (x : A) (l : list A) : Permutation (insert_desc lt x l) (x :: l).
Proof.
  induction l as [|y l IH]; simpl; [reflexivity|].
  destruct (lt x y); [|reflexivity].
  rewrite IH. apply perm_swap.
Qed.

Lemma sorted_reverse_perm (l : list A) : Permutation (sorted_reverse lt l) l.
Proof.
  induction l as [|x l IH]; simpl; [reflexivity|].
  rewrite insert_desc_perm. now apply perm_skip.
Qed.

Lemma sorted_reverse_In (x : A) (l : list A) : In x (sorted_reverse lt l) -> In x l.
Proof. apply Permutation_in, sorted_reverse_perm. Qed.

(** Insertion never moves [x] past an element it is not smaller than:
    a class [f] whose members are never smaller than one another keeps
    its order. *)
Lemma insert_desc_filter (f : A -> bool) (x : A) (l : list A) :
  (forall y, In y l -> f x = true -> f y = true -> lt x y = false) ->
  List.filter f (insert_desc lt x l) = List.filter f (x :: l).
Proof.
  induction l as [|y l IH]; intros Hf; [reflexivity|].
  cbn [insert_desc]. destruct (lt x y) eqn:Hxy; [|reflexivity].
  cbn [List.filter] in *. rewrite IH by (intros z Hz; apply Hf; now right).
  destruct (f x) eqn:Hx; [|reflexivity].
  destruct (f y) eqn:Hy; [|reflexivity].
  rewrite (Hf y (or_introl eq_refl) eq_refl Hy) in Hxy. discriminate.
Qed.

Lemma sorted_reverse_stable (f : A -> bool) (l : list A) :
  (forall x y, In x l -> In y l -> f x = true -> f y = true -> lt x y = false) ->
  same_order_on f (sorted_reverse lt l) l.
Proof.
  unfold same_order_on. induction l as [|x l IH]; intros Hf; [reflexivity|].
  cbn [sorted_reverse fold_right]. fold (sorted_reverse lt l).
  rewrite insert_desc_filter.
  - cbn [List.filter]. rewrite IH; [reflexivity|].
    intros a b Ha Hb. apply Hf; now right.
  - intros y Hy. apply Hf; [now left | right; now apply sorted_reverse_In].
Qed.

Variable P : A -> Prop.
Hypothesis lt_asym : forall x y, P x -> P y -> lt x y = true -> lt y x = false.
Hypothesis lt_negtrans :
  forall x y z, P x -> P y -> P z -> lt x y = false -> lt y z = false -> lt x z = false.

Lemma insert_desc_Forall (Q : A -> Prop) (x : A) (l : list A) :
  Q x -> Forall Q l -> Forall Q (insert_desc lt x l).
Proof.
  intros Hx Hl. eapply Permutation_Forall; [symmetry; apply insert_desc_perm|].
  now constructor.
Qed.

Lemma insert_desc_sorted (x : A) (l : list A) :
  P x -> Forall P l -> non_increasing lt l -> non_increasing lt (insert_desc lt x l).
Proof.
  unfold non_increasing. intros Px Pl Hs. induction Hs as [|y l Hs IH Hy]; simpl.
  - constructor; constructor.
  - inversion Pl as [|? ? Py Pl']; subst.
    destruct (lt x y) eqn:Hxy.
    + constructor; [now apply IH|].
      apply insert_desc_Forall; [now apply lt_asym | exact Hy].
    + constructor; [now constructor|].
      constructor; [exact Hxy|].
      rewrite Forall_forall in Hy, Pl' |- *. intros z Hz.
      apply (lt_negtrans x y z); auto.
Qed.

Lemma sorted_reverse_sorted (l : list A) :
  Forall P l -> non_increasing lt (sorted_reverse lt l).
Proof.
  induction 1 as [|x l Px Pl IH]; simpl; [constructor|].
  apply insert_desc_sorted; trivial.
  eapply Permutation_Forall; [symmetry; apply sorted_reverse_perm | exact Pl].
Qed.

(** The result is the only list with these properties, so it does not
    matter by which algorithm a stable sort produces it. *)

Lemma lt_irrefl (x : A) : P x -> lt x x = false.
Proof.
  intros Px. destruct (lt x x) eqn:Hx; [|reflexivity].
  now rewrite (lt_asym x x Px Px Hx) in Hx.
Qed.

Lemma same_key_refl (x : A) : P x -> same_key lt x x = true.
Proof. intros Px. unfold same_key. now rewrite lt_irrefl. Qed.

Lemma same_key_sym (x y : A) : same_key lt x y = same_key lt y x.
Proof. unfold same_key. apply andb_comm. Qed.

Lemma stable_sorted_unique (l1 l2 : list A) :
  Forall P l1 -> Forall P l2 ->
  non_increasing lt l1 -> non_increasing lt l2 ->
  (forall x, P x -> same_order_on (same_key lt x) l1 l2) ->
  l1 = l2.
Proof.
  unfold non_increasing, same_order_on. revert l2.
  induction l1 as [|x l1 IH]; intros [|y l2] P1 P2 S1 S2 Hst; trivial.
  - inversion P2 as [|? ? Py _]; subst.
    specialize (Hst y Py). cbn [List.filter] in Hst.
    rewrite same_key_refl in Hst by trivial. discriminate.
  - inversion P1 as [|? ? Px _]; subst.
    specialize (Hst x Px). cbn [List.filter] in Hst.
    rewrite same_key_refl in Hst by trivial. discriminate.
  - inversion P1 as [|? ? Px P1']; inversion P2 as [|? ? Py P2']; subst.
    inversion S1 as [|? ? S1' F1]; inversion S2 as [|? ? S2' F2]; subst.
    assert (Hxy : x = y).
    { pose proof (Hst x Px) as Hx. pose proof (Hst y Py) as Hy.
      cbn [List.filter] in Hx, Hy.
      rewrite same_key_refl in Hx, Hy by trivial.
      rewrite (same_key_sym y x) in Hy.
      destruct (same_key lt x y) eqn:Hk; [now injection Hx|]. exfalso.
      assert (Hin2 : In x l2).
      { eapply (proj1 (filter_In _ _ _)). rewrite <- Hx. now left. }
      assert (Hin1 : In y l1).
      { eapply (proj1 (filter_In _ _ _)). rewrite Hy. now left. }
      rewrite Forall_forall in F1, F2.
      apply list_elem_of_In in Hin1, Hin2.
      unfold same_key in Hk. now rewrite (F1 y Hin1), (F2 x Hin2) in Hk. }
    subst y. f_equal. apply IH; trivial.
    intros z Pz. specialize (Hst z Pz). cbn [List.filter] in Hst.
    destruct (same_key lt z x); [now injection Hst | exact Hst].
Qed.

Lemma same_key_class (x a b : A) :
  P x -> P a -> P b ->
  same_key lt x a = true -> same_key lt x b = true -> lt a b = false.
Proof.
  unfold same_key. intros Px Pa Pb [Hxa Hax]%andb_true_iff [Hxb Hbx]%andb_true_iff.
  apply negb_true_iff in Hxa, Hax, Hxb, Hbx.
  now apply (lt_negtrans a x b).
Qed.

Lemma sorted_reverse_unique (l l' : list A) :
  Forall P l -> Forall P l' ->
  non_increasing lt l' ->
  (forall x, P x -> same_order_on (same_key lt x) l' l) ->
  l' = sorted_reverse lt l.
Proof.
  intros Pl Pl' Hs Hst.
  apply stable_sorted_unique; trivial.
  - eapply Permutation_Forall; [symmetry; apply sorted_reverse_perm | exact Pl].
  - now apply sorted_reverse_sorted.
  - intros x Px. unfold same_order_on in *. rewrite (Hst x Px).
    symmetry. apply sorted_reverse_stable.
    rewrite Forall_forall in Pl.
    intros a b Ha%list_elem_of_In Hb%list_elem_of_In.
    apply (same_key_class x a b); auto.
Qed.

End StableSort.

(** ** Ranking *)

Section Ranking.

Import AIService PyList PyFloat.

Ltac triples :=
  repeat match goal with
         | |- context [fkey ?x] =>
             let a := fresh "a" in let b := fresh "b" in let c := fresh "c" in
             destruct (fkey x) as [[a b] c]
         | Hx : context [fkey ?x] |- _ =>
             let a := fresh "a" in let b := fresh "b" in let c := fresh "c" in
             destruct (fkey x) as [[a b] c]
         end;
  unfold t3_lt in *; simpl in *; rewrite ?pair_equal_spec in *.

Lemma key_lt_true (a b : float * Z) :
  PrimFloat.is_nan (fst a) = false -> PrimFloat.is_nan (fst b) = false ->
  key_lt a b = true <-> key_below a b.
Proof.
  intros Ha%is_nan_sf Hb%is_nan_sf. unfold key_lt, key_below.
  destruct (PyFloat.eq (fst a) (fst b)) eqn:He.
  - apply eq_true in He as (_ & _ & He). rewrite He, Z.ltb_lt.
    split; [intros Hlt; now right | intros [Hlt | [_ Hlt]]; [|exact Hlt]].
    exfalso. triples. lia.
  - assert (Hne : fkey (fst a) <> fkey (fst b)).
    { intros Heq. assert (PyFloat.eq (fst a) (fst b) = true); [|congruence].
      apply eq_true. auto. }
    rewrite lt_true. split.
    + intros (_ & _ & Hlt). now left.
    + intros [Hlt | [Heq _]]; [auto | contradiction].
Qed.

Lemma key_lt_asym (x y : FormattedPlace) :
  rating_is_number x -> rating_is_number y ->
  key_lt (rank_key x) (rank_key y) = true -> key_lt (rank_key y) (rank_key x) = false.
Proof.
  unfold rating_is_number. intros Hx Hy Hxy.
  destruct (key_lt (rank_key y) (rank_key x)) eqn:Hyx; [exfalso | reflexivity].
  apply key_lt_true in Hxy, Hyx; trivial.
  unfold key_below in *. triples. lia.
Qed.

Lemma key_lt_negtrans (x y z : FormattedPlace) :
  rating_is_number x -> rating_is_number y -> rating_is_number z ->
  key_lt (rank_key x) (rank_key y) = false ->
  key_lt (rank_key y) (rank_key z) = false ->
  key_lt (rank_key x) (rank_key z) = false.
Proof.
  unfold rating_is_number. intros Hx Hy Hz Hxy Hyz.
  destruct (key_lt (rank_key x) (rank_key z)) eqn:Hxz; [exfalso | reflexivity].
  apply key_lt_true in Hxz; trivial.
  assert (Nxy : ~ key_below (rank_key x) (rank_key y)).
  { intros Hc. apply key_lt_true in Hc; trivial. congruence. }
  assert (Nyz : ~ key_below (rank_key y) (rank_key z)).
  { intros Hc. apply key_lt_true in Hc; trivial. congruence. }
  unfold key_below in *. triples. lia.
Qed.

Lemma key_eq_not_lt (a b k : float * Z) :
  key_eq a k = true -> key_eq b k = true -> key_lt a b = false.
Proof.
  unfold key_eq, key_lt.
  intros [Ha Ha2]%andb_true_iff [Hb Hb2]%andb_true_iff.
  apply Z.eqb_eq in Ha2, Hb2.
  apply eq_true in Ha as (Na & _ & Ha), Hb as (Nb & _ & Hb).
  assert (He : PyFloat.eq (fst a) (fst b) = true).
  { apply eq_true. repeat split; trivial. congruence. }
  rewrite He. apply Z.ltb_ge. lia.
Qed.

Lemma key_lt_false_rating (a b : float * Z) :
  key_lt a b = false -> PyFloat.lt (fst a) (fst b) = false.
Proof.
  unfold key_lt. destruct (PyFloat.eq (fst a) (fst b)) eqn:He; [intros _ | trivial].
  apply eq_true in He as (_ & _ & He).
  destruct (PyFloat.lt (fst a) (fst b)) eqn:Hlt; [exfalso | reflexivity].
  apply lt_true in Hlt as (_ & _ & Hlt). rewrite He in Hlt. triples. lia.
Qed.

Lemma StronglySorted_impl {A : Type} (R R' : A -> A -> Prop) (l : list A) :
  (forall a b, R a b -> R' a b) -> StronglySorted R l -> StronglySorted R' l.
Proof.
  intros HR. induction 1 as [|x l Hs IH Hx]; constructor; trivial.
  rewrite Forall_forall in Hx |- *. intros b Hb. apply HR. now apply Hx.
Qed.

(** C6: on enriched places (whose ratings are numbers) [rank_places]
    returns a permutation of its input in which no place is followed by
    one with a larger key [(rating, review_count or 0)] (in particular
    the ratings never increase), and the places of any one key keep the
    order they had in the input. *)
Theorem rank_places_spec (places : list FormattedPlace) :
  Forall rating_is_number places ->
  Permutation (rank_places places) places /\
  non_increasing (fun x y => key_lt (rank_key x) (rank_key y)) (rank_places places) /\
  StronglySorted (fun x y => ~ key_below (rank_key x) (rank_key y)) (rank_places places) /\
  StronglySorted
    (fun x y => PyFloat.lt (fst (rank_key x)) (fst (rank_key y)) = false)
    (rank_places places) /\
  (forall k, same_order_on (fun p => key_eq (rank_key p) k) (rank_places places) places).
Proof.
  intros Hnum. unfold rank_places.
  assert (Hperm := sorted_reverse_perm FormattedPlace
                     (fun x y => key_lt (rank_key x) (rank_key y)) places).
  assert (Hs := sorted_reverse_sorted FormattedPlace
                  (fun x y => key_lt (rank_key x) (rank_key y)) rating_is_number
                  key_lt_asym key_lt_negtrans places Hnum).
  assert (Hnum' : Forall rating_is_number
                    (sorted_reverse (fun x y => key_lt (rank_key x) (rank_key y)) places)).
  { eapply Permutation_Forall; [symmetry; exact Hperm | exact Hnum]. }
  split; [exact Hperm|]. split; [exact Hs|]. split; [|split].
  - clear Hperm. unfold non_increasing in Hs.
    induction Hs as [|x l Hs IH Hx]; constructor.
    + apply IH. now inversion Hnum'.
    + inversion Hnum' as [|? ? Nx Nl]; subst.
      rewrite Forall_forall in Hx, Nl |- *. intros y Hy Hc.
      apply key_lt_true in Hc; [|exact Nx | exact (Nl y Hy)].
      rewrite (Hx y Hy) in Hc. discriminate.
  - eapply StronglySorted_impl; [|exact Hs].
    intros a b. apply key_lt_false_rating.
  - intros k. apply sorted_reverse_stable.
    intros x y _ _ Hx Hy. exact (key_eq_not_lt _ _ k Hx Hy).
Qed.

(** X9: the ranking is determined by its two properties: any
    arrangement of places with number ratings in which no place is
    followed by one with a larger key, and in which places of equal
    key keep the order of the input, is the list [rank_places]
    returns. *)
Lemma rank_places_unique (places ranked : list FormattedPlace) :
  Forall rating_is_number places -> Forall rating_is_number ranked ->
  non_increasing (fun x y => key_lt (rank_key x) (rank_key y)) ranked ->
  (forall x, rating_is_number x ->
             same_order_on (same_key (fun x y => key_lt (rank_key x) (rank_key y)) x)
               ranked places) ->
  ranked = rank_places places.
Proof.
  intros Hp Hr Hs Hst. unfold rank_places.
  exact (sorted_reverse_unique FormattedPlace
           (fun x y => key_lt (rank_key x) (rank_key y)) rating_is_number
           key_lt_asym key_lt_negtrans places ranked Hp Hr Hs Hst).
Qed.

End Ranking.

(** ** Cache policy *)

Section Cache.

Context {Payload : Type} `{PyRuntime}.
Import DatabaseService.

Lemma ttl_microseconds : timedelta_hours 24 = 86400000000.
Proof. reflexivity. Qed.

Lemma get_cached_data_found (c : Collection Payload) (city : string) (now : Z)
    (doc : CacheDoc Payload) :
  c !! str_strip (str_lower city) = Some doc ->
  get_cached_data None now city c =
  (Returned match doc_cached_at doc with
            | Some cached_time =>
                if now - cached_time <? timedelta_hours 24 then doc_data doc else None
            | None => doc_data doc
            end, c).
Proof.
  intros Hdoc. unfold get_cached_data, try_except, bind, find_one, ret.
  rewrite Hdoc. destruct (doc_cached_at doc) as [t|]; [|reflexivity].
  destruct (now - t <? timedelta_hours 24); reflexivity.
Qed.

Lemma get_cached_data_absent (c : Collection Payload) (city : string) (now : Z) :
  c !! str_strip (str_lower city) = None ->
  get_cached_data None now city c = (Returned None, c).
Proof.
  intros Hdoc. unfold get_cached_data, try_except, bind, find_one, ret.
  now rewrite Hdoc.
Qed.

Lemma get_cached_data_keeps (fault : option exn) (c : Collection Payload)
    (city : string) (now : Z) :
  snd (get_cached_data fault now city c) = c.
Proof.
  unfold get_cached_data, try_except, bind, find_one, ret.
  destruct fault as [e|]; [reflexivity|].
  destruct (c !! str_strip (str_lower city)) as [doc|]; [|reflexivity].
  destruct (doc_cached_at doc) as [t|]; [|reflexivity].
  destruct (now - t <? timedelta_hours 24); reflexivity.
Qed.

Lemma bson_datetime_bounds (t : Z) :
  t - 1000 < bson_datetime t <= t /\ bson_datetime (bson_datetime t) = bson_datetime t.
Proof.
  unfold bson_datetime. pose proof (Z.div_mod t 1000 ltac:(lia)) as Hdm.
  pose proof (Z.mod_pos_bound t 1000 ltac:(lia)) as Hb.
  split; [lia|]. rewrite Z.div_mul by lia. reflexivity.
Qed.

Lemma cache_data_stores (c : Collection Payload) (city : string) (data : Payload)
    (now : Z) :
  cache_data None now city data c =
  (Returned tt,
   <[str_strip (str_lower city) :=
       {| doc_data := Some data; doc_cached_at := Some (bson_datetime now) |}]> c).
Proof. reflexivity. Qed.

(** C4 (amended): the write is an upsert: the entry of the city key is
    created or replaced and no other entry changes.  The stored
    [cached_at] is the time of the write at the resolution of the
    store, that is truncated to whole milliseconds.  A read of the same
    city returns the payload written when less than 24 hours have
    passed since the stored [cached_at], hence whenever at most 24
    hours less one millisecond have passed since the write.  A read of
    a city whose key has no entry is a miss. *)
Theorem cache_then_get (c : Collection Payload) (city : string) (data : Payload)
    (t_write t_read : Z) :
  t_read - bson_datetime t_write < timedelta_hours 24 ->
  let key := str_strip (str_lower city) in
  let c1 := snd (cache_data None t_write city data c) in
  cache_data None t_write city data c = (Returned tt, c1) /\
  c1 !! key =
    Some {| doc_data := Some data; doc_cached_at := Some (bson_datetime t_write) |} /\
  t_write - 1000 < bson_datetime t_write <= t_write /\
  (forall k, k <> key -> c1 !! k = c !! k) /\
  get_cached_data None t_read city c1 = (Returned (Some data), c1) /\
  (forall t, t - t_write <= timedelta_hours 24 - 1000 ->
             get_cached_data None t city c1 = (Returned (Some data), c1)) /\
  (forall city' now,
      c !! str_strip (str_lower city') = None ->
      get_cached_data None now city' c = (Returned None, c)).
Proof.
  intros Hfresh key c1. subst c1. rewrite cache_data_stores. cbn [snd]. fold key.
  pose proof (bson_datetime_bounds t_write) as [Hb _].
  assert (Hread : forall t, t - bson_datetime t_write < timedelta_hours 24 ->
            get_cached_data None t city
              (<[key := {| doc_data := Some data;
                           doc_cached_at := Some (bson_datetime t_write) |}]> c) =
            (Returned (Some data),
             <[key := {| doc_data := Some data;
                         doc_cached_at := Some (bson_datetime t_write) |}]> c)).
  { intros t Ht.
    rewrite (get_cached_data_found _ city t
               {| doc_data := Some data; doc_cached_at := Some (bson_datetime t_write) |})
      by apply lookup_insert_eq.
    cbn [doc_cached_at doc_data]. apply Z.ltb_lt in Ht. now rewrite Ht. }
  split; [reflexivity|]. split; [apply lookup_insert_eq|]. split; [exact Hb|].
  split; [intros k Hk; now apply lookup_insert_ne|].
  split; [now apply Hread|]. split.
  - intros t Ht. apply Hread. lia.
  - intros city' now. apply get_cached_data_absent.
Qed.

(** C5: for a stored entry with payload and timestamp, a read returns
    the payload exactly when less than 24 hours have passed since
    [cached_at]; from 24 hours on every read is a miss; and no read,
    hit, miss or failed, changes the collection. *)
Theorem get_cached_data_ttl (c : Collection Payload) (city : string)
    (doc : CacheDoc Payload) (data : Payload) (cached_at now : Z) :
  c !! str_strip (str_lower city) = Some doc ->
  doc_data doc = Some data ->
  doc_cached_at doc = Some cached_at ->
  (fst (get_cached_data None now city c) = Returned (Some data) <->
   now - cached_at < timedelta_hours 24) /\
  (timedelta_hours 24 <= now - cached_at ->
   fst (get_cached_data None now city c) = Returned None) /\
  (forall fault now' city', snd (get_cached_data fault now' city' c) = c) /\
  snd (get_cached_data None now city c) !! str_strip (str_lower city) = Some doc.
Proof.
  intros Hdoc Hdata Hat.
  rewrite (get_cached_data_found c city now doc Hdoc), Hat, Hdata. simpl.
  destruct (Z.ltb_spec (now - cached_at) (timedelta_hours 24)) as [Hlt | Hge].
  - split; [split; [intros _; exact Hlt | reflexivity]|].
    split; [intros Hc; lia|]. split; [|exact Hdoc].
    intros fault now' city'. apply get_cached_data_keeps.
  - split; [split; [discriminate | intros Hc; lia]|].
    split; [reflexivity|]. split; [|exact Hdoc].
    intros fault now' city'. apply get_cached_data_keeps.
Qed.

(** C9: an entry without [cached_at] never expires: every read returns
    its payload, whatever the time of the read. *)
Theorem get_cached_data_no_timestamp (c : Collection Payload) (city : string)
    (doc : CacheDoc Payload) :
  c !! str_strip (str_lower city) = Some doc ->
  doc_cached_at doc = None ->
  forall now, get_cached_data None now city c = (Returned (doc_data doc), c).
Proof.
  intros Hdoc Hat now.
  rewrite (get_cached_data_found c city now doc Hdoc). now rewrite Hat.
Qed.

(** A body wrapped in [try ... except Exception] whose handler returns
    a value cannot raise, whatever the body does. *)
Lemma try_except_returns {A : Type} (body : Db A) (v : A) (c : Collection Payload) :
  exists r, fst (try_except body (fun _ => ret v) c) = Returned r.
Proof.
  unfold try_except, ret. destruct (body c) as [[a | e] c']; eauto.
Qed.

Lemma cache_data_returns (fault : option exn) (now : Z) (city : string) (data : Payload)
    (c : Collection Payload) :
  fst (cache_data fault now city data c) = Returned tt.
Proof.
  unfold cache_data.
  match goal with
  | |- fst (try_except ?body _ c) = _ =>
      destruct (try_except_returns body tt c) as [[] Hr]
  end.
  exact Hr.
Qed.

Lemma get_cached_data_returns (fault : option exn) (now : Z) (city : string)
    (c : Collection Payload) :
  exists r, fst (get_cached_data fault now city c) = Returned r.
Proof. unfold get_cached_data. apply try_except_returns. Qed.

(** X13: after any history of writes, starting from an empty
    collection, the read of a city whose key none of the writes used
    is a miss, at any time. *)
Lemma never_written_is_miss (writes : list (Z * string * Payload)) (city : string)
    (now : Z) :
  Forall (fun w => str_strip (str_lower w.1.2) <> str_strip (str_lower city)) writes ->
  let c := fold_left (fun c w => snd (cache_data None w.1.1 w.1.2 w.2 c)) writes ∅ in
  get_cached_data None now city c = (Returned None, c).
Proof.
  intros Hw c. apply get_cached_data_absent. subst c.
  assert (Hgen : forall c0 : Collection Payload,
             c0 !! str_strip (str_lower city) = None ->
             fold_left (fun c w => snd (cache_data None w.1.1 w.1.2 w.2 c)) writes c0
               !! str_strip (str_lower city) = None).
  { induction Hw as [|w writes Hne _ IH]; intros c0 Hc0; [exact Hc0|].
    cbn [fold_left]. apply IH.
    unfold cache_data, try_except, update_one_upsert. cbn [snd].
    rewrite lookup_insert_ne by exact Hne. exact Hc0. }
  apply Hgen. apply lookup_empty.
Qed.

(** Clearing one city removes its entry; clearing without a city
    removes every entry; reads are misses afterwards. *)
Lemma clear_cache_city (c : Collection Payload) (city : string) (now : Z) :
  PyStr.truthy city = true ->
  let c' := snd (clear_cache None (Some city) c) in
  c' = delete (str_strip (str_lower city)) c /\
  get_cached_data None now city c' = (Returned None, c').
Proof.
  intros Ht c'. subst c'. unfold clear_cache, try_except, delete_one. rewrite Ht.
  cbn [snd]. split; [reflexivity|].
  apply get_cached_data_absent. apply lookup_delete_eq.
Qed.

Lemma clear_cache_all (c : Collection Payload) (city : string) (now : Z) :
  let c' := snd (clear_cache None None c) in
  c' = ∅ /\ get_cached_data None now city c' = (Returned None, c').
Proof.
  intros c'. subst c'. unfold clear_cache, try_except, delete_many. cbn [snd].
  split; [reflexivity|]. apply get_cached_data_absent. apply lookup_empty.
Qed.

End Cache.

(** ** The enrichment pipeline *)

Section Pipeline.

Context `{PyRuntime}.
Import AIService Classifier PlaceService DatabaseService App PyStr.






Lemma places_loop_Forall (P : RawPlace -> Prop) (lat lon : float) :
  (forall props p, place_of_props lat lon props = Appended p -> P p) ->
  forall fs places, places_loop lat lon fs = Some places -> Forall P places.
Proof.
  intros HP. induction fs as [|props fs IH]; intros places; cbn [places_loop].
  - intros [= <-]. constructor.
  - destruct (place_of_props lat lon props) as [|p|] eqn:Hp; [apply IH| |discriminate].
    destruct (places_loop lat lon fs) as [rest|]; [|discriminate].
    intros [= <-]. constructor; [exact (HP props p Hp) | now apply IH].
Qed.

Lemma fetch_Forall (P : RawPlace -> Prop) (api_key : option string) (reply : HttpReply)
    (lat lon : float) :
  (forall props p, place_of_props lat lon props = Appended p -> P p) ->
  Forall P (fetch_places_from_geoapify api_key reply lat lon).
Proof.
  intros HP. unfold fetch_places_from_geoapify.
  destruct api_key as [key|]; [|constructor].
  destruct (negb (truthy key)); [constructor|].
  destruct reply as [|status features]; [constructor|].
  destruct (negb (status =? 200)); [constructor|].
  destruct features as [fs|]; [|constructor].
  destruct (places_loop lat lon fs) as [places|] eqn:Hl; [|constructor].
  exact (places_loop_Forall P lat lon HP fs places Hl).
Qed.




Lemma generate_rating_is_number (name : string) :
  PrimFloat.is_nan (generate_rating name) = false.
Proof.
  assert (Hin : In (generate_rating name) RATING_VALUES).
  { eapply nth_error_In. apply rating_of_nibble. apply Z.mod_pos_bound. lia. }
  revert Hin. generalize (generate_rating name). intros r Hin.
  unfold RATING_VALUES in Hin. simpl in Hin.
  repeat (destruct Hin as [<- | Hin]; [reflexivity|]). contradiction.
Qed.

Lemma format_loop_ratings (raw : list RawPlace) (category : string) (g : rng) :
  Forall rating_is_number (fst (format_loop raw category g)).
Proof.
  revert g. induction raw as [|place rest IH]; intros g; [constructor|].
  cbn [format_loop].
  destruct (negb (truthy (default "" (rp_name place)))); [apply IH|].
  destruct (generate_insight _ _ _ _ g) as [insight g1].
  specialize (IH g1). destruct (format_loop rest category g1) as [formatted g2].
  cbn [fst] in *. constructor; [|exact IH].
  apply generate_rating_is_number.
Qed.

(** What [format_place_data] returns is ranked, whatever it is given. *)
Lemma format_place_data_ranked (raw : list RawPlace) (category : string) (g : rng) :
  PyList.non_increasing (fun x y => key_lt (rank_key x) (rank_key y))
    (fst (format_place_data raw category g)).
Proof.
  unfold format_place_data.
  pose proof (format_loop_ratings raw category g) as Hn.
  destruct (format_loop raw category g) as [formatted g']. cbn [fst] in *.
  exact (sorted_reverse_sorted FormattedPlace
           (fun x y => key_lt (rank_key x) (rank_key y)) rating_is_number
           key_lt_asym key_lt_negtrans formatted Hn).
Qed.

End Pipeline.

(** ** The search request *)

Section Search.

Context `{PyRuntime}.
Import AIService Classifier PlaceService DatabaseService App PyStr.

Lemma cache_data_outcome {P : Type} (fault : option exn) (now : Z) (city : string)
    (data : P) (c : Collection P) :
  exists c', cache_data fault now city data c = (Returned tt, c') /\
             (fault <> None -> c' = c).
Proof.
  unfold cache_data, try_except, update_one_upsert, ret.
  destruct fault as [e|]; eexists; (split; [reflexivity|]); [reflexivity | congruence].
Qed.

Lemma get_cached_data_fault {P : Type} (e : exn) (now : Z) (city : string)
    (c : Collection P) :
  get_cached_data (Some e) now city c = (Returned None, c).
Proof. reflexivity. Qed.

Ltac search_step :=
  match goal with
  | |- context [get_cached_data ?f ?n ?city ?c] =>
      let r := fresh "r" in let Hr := fresh "Hr" in
      destruct (get_cached_data_returns f n city c) as [r Hr];
      destruct (get_cached_data f n city c) as [? ?]; cbn [fst] in Hr; subst;
      destruct r
  | |- context [cache_data ?f ?n ?city ?d ?c] =>
      let c' := fresh "c" in let Hc := fresh "Hc" in
      destruct (cache_data_outcome f n city d c) as (c' & Hc & _); rewrite Hc
  | |- context [format_place_data ?raw ?cat ?g] =>
      destruct (format_place_data raw cat g) as [? ?]
  | |- context [env_coordinates ?env] =>
      destruct (env_coordinates env) as [[[?|] [?|]] ?]
  | |- context [negb (truthy ?s)] => destruct (negb (truthy s))
  end.

Lemma search_status (city_arg : option string) (env : Env)
    (c : Collection Payload) (g : rng) :
  In (resp_status (search city_arg env c g).1.1) [200; 400; 404].
Proof.
  unfold search, failure. repeat search_step; simpl; auto.
Qed.

Lemma search_write_fault (city_arg : option string) (env : Env)
    (c : Collection Payload) (g : rng) (rf wf wf' : option exn) :
  (search city_arg (with_faults rf wf env) c g).1.1 =
  (search city_arg (with_faults rf wf' env) c g).1.1.
Proof.
  unfold search, failure, with_faults.
  cbn [env_api_key env_read_fault env_read_now env_coordinates env_attractions
       env_hotels env_restaurants env_write_fault env_write_now].
  repeat search_step; reflexivity.
Qed.

Lemma search_read_fault (city_arg : option string) (env : Env)
    (c : Collection Payload) (g : rng) (e : exn) (wf : option exn) :
  (search city_arg (with_faults (Some e) wf env) c g).1.1 =
  (search city_arg (with_faults None wf env) ∅ g).1.1.
Proof.
  unfold search, failure, with_faults.
  cbn [env_api_key env_read_fault env_read_now env_coordinates env_attractions
       env_hotels env_restaurants env_write_fault env_write_now].
  rewrite get_cached_data_fault, get_cached_data_absent by apply lookup_empty.
  repeat search_step; reflexivity.
Qed.



(** C10: [cache_data] returns normally whatever the driver does, and
    leaves the collection alone when the driver fails; a read on which
    the driver fails is a miss, and no read raises.  Hence [search]
    never answers 500 because of the cache: its response does not
    depend on the failure of the write, and with a failed read it is
    the response of a search that finds the cache empty. *)
Theorem cache_failures_isolated {P : Type} (fault : option exn) (now : Z)
    (city : string) (data : P) (c : Collection P) :
  fst (cache_data fault now city data c) = Returned tt /\
  (forall e, fault = Some e -> snd (cache_data fault now city data c) = c) /\
  (forall e, get_cached_data (Some e) now city c = (Returned None, c)) /\
  (exists r, fst (get_cached_data fault now city c) = Returned r) /\
  (forall city_arg env (cc : Collection Payload) g,
      In (resp_status (search city_arg env cc g).1.1) [200; 400; 404] /\
      (search city_arg (with_faults (env_read_fault env) fault env) cc g).1.1 =
      (search city_arg (with_faults (env_read_fault env) None env) cc g).1.1 /\
      (forall e,
          (search city_arg (with_faults (Some e) fault env) cc g).1.1 =
          (search city_arg (with_faults None fault env) ∅ g).1.1)).
Proof.
  split; [apply cache_data_returns|].
  split.
  { intros e ->. reflexivity. }
  split; [intros e; reflexivity|].
  split; [apply get_cached_data_returns|].
  intros city_arg env cc g.
  split; [apply search_status|].
  split; [apply search_write_fault|].
  intros e. apply search_read_fault.
Qed.

End Search.

(** ** The model at work *)

Section Scenarios.

Import Reference AIService Classifier PlaceService DatabaseService App PyStr.

(** The test suite of RFC 1321. *)
Example md5_empty : MD5.md5_int "" = 0xd41d8cd98f00b204e9800998ecf8427e.
Proof. vm_compute. reflexivity. Qed.

Example md5_a : MD5.md5_int "a" = 0x0cc175b9c0f1b6a831c399e269772661.
Proof. vm_compute. reflexivity. Qed.

Example md5_abc : MD5.md5_int "abc" = 0x900150983cd24fb0d6963f7d28e17f72.
Proof. vm_compute. reflexivity. Qed.

Example md5_message_digest :
  MD5.md5_int "message digest" = 0xf96b697d7cb7938d525a2f31aaf161d0.
Proof. vm_compute. reflexivity. Qed.

Example md5_alphabet :
  MD5.md5_int "abcdefghijklmnopqrstuvwxyz" = 0xc3fcd3d76192e4007dfb496cca67e13b.
Proof. vm_compute. reflexivity. Qed.

Example md5_digits :
  MD5.md5_int
    "12345678901234567890123456789012345678901234567890123456789012345678901234567890"
  = 0x57edf4a22be3c955ac49da2e2107b67a.
Proof. vm_compute. reflexivity. Qed.

(** [round] on the usual examples of the Python documentation. *)
Example round_examples :
  PyFloat.round 2.675 2 = 2.67%float /\ PyFloat.round 0.125 2 = 0.12%float /\
  PyFloat.round 2.5 0 = 2%float /\ PyFloat.round 4.6 1 = 4.6%float.
Proof. repeat split; vm_compute; reflexivity. Qed.

Lemma reference_rng_in_range : @rng_in_range runtime.
Proof.
  intros g n Hn. unfold random_below, runtime, lcg_below. cbn [fst].
  pose proof (Z.mod_pos_bound g (Z.of_nat n)). lia.
Qed.

Lemma salted_rng_in_range (salt : Z) : @rng_in_range (salted salt).
Proof.
  intros g n Hn. unfold random_below, salted, lcg_below. cbn [fst].
  pose proof (Z.mod_pos_bound g (Z.of_nat n)). lia.
Qed.

(** Two names whose digests agree modulo 16 get the same rating. *)
Lemma generate_rating_spec_witness :
  md5_int "Leopold Cafe" mod 16 = md5_int "India Gate" mod 16 /\
  generate_rating "Leopold Cafe" = generate_rating "India Gate" /\
  generate_rating "India Gate" = 5%float.
Proof.
  assert (Hd : md5_int "Leopold Cafe" mod 16 = md5_int "India Gate" mod 16)
    by (vm_compute; reflexivity).
  split; [exact Hd|]. split.
  - exact (proj2 (proj2 (proj2 (proj2 (proj2 (proj2
            (generate_rating_spec "India Gate")))))) "Leopold Cafe" Hd).
  - vm_compute. reflexivity.
Defined.

(** The Taj Mahal Palace Hotel: the luxury keyword gives the top tier
    although the raw rating is 0. *)
Lemma estimate_price_range_spec_witness :
  has_keyword LUXURY_KEYWORDS (str_lower ("Taj Mahal Palace Hotel" ++ " " ++ "luxury,heritage")) /\
  estimate_price_range "Taj Mahal Palace Hotel" "luxury,heritage" 0 = "₹₹₹".
Proof.
  assert (Hk : has_keyword LUXURY_KEYWORDS
                 (str_lower ("Taj Mahal Palace Hotel" ++ " " ++ "luxury,heritage"))).
  { apply any_in_true. vm_compute. reflexivity. }
  split; [exact Hk|].
  exact (proj1 (proj2 (proj2
           (estimate_price_range_spec "Taj Mahal Palace Hotel" "luxury,heritage" 0))) Hk).
Defined.


(** Written at 1.999 ms and stored as 1 ms: a read at the last
    microsecond before 1 ms + 24 h is a hit. *)
Lemma cache_then_get_witness :
  (1000 + 24 * hour - 1) - bson_datetime 1999 < timedelta_hours 24 /\
  snd (cache_data None 1999 " Paris" 42%nat ∅) !! "paris" =
    Some {| doc_data := Some 42%nat; doc_cached_at := Some 1000 |} /\
  get_cached_data None (1000 + 24 * hour - 1) "paris"
    (snd (cache_data None 1999 " Paris" 42%nat ∅)) =
  (Returned (Some 42%nat), snd (cache_data None 1999 " Paris" 42%nat ∅)).
Proof.
  assert (Hf : (1000 + 24 * hour - 1) - bson_datetime 1999 < timedelta_hours 24)
    by (vm_compute; reflexivity).
  split; [exact Hf|].
  destruct (cache_then_get (∅ : Collection nat) " Paris" 42%nat 1999
              (1000 + 24 * hour - 1) Hf)
    as (_ & Hdoc & _ & _ & Hget & _).
  split; [exact Hdoc | exact Hget].
Defined.

(** C4 as stated fails in the last fraction of a millisecond: the entry
    written at 1.999 ms carries the timestamp 1 ms, not the time of the
    write, and a read 24 hours less one microsecond after the write,
    which is within 24 hours of it, is a miss. *)
Lemma cache_then_get_last_millisecond_counterexample :
  (1999 + 24 * hour - 1) - 1999 < timedelta_hours 24 /\
  snd (cache_data None 1999 "Paris" 42%nat ∅) !! "paris" =
    Some {| doc_data := Some 42%nat; doc_cached_at := Some 1000 |} /\
  get_cached_data None (1999 + 24 * hour - 1) "Paris"
    (snd (cache_data None 1999 "Paris" 42%nat ∅)) =
  (Returned None, snd (cache_data None 1999 "Paris" 42%nat ∅)).
Proof.
  split; [vm_compute; reflexivity|]. split; [vm_compute; reflexivity|].
  rewrite (get_cached_data_found _ "Paris" (1999 + 24 * hour - 1)
             {| doc_data := Some 42%nat; doc_cached_at := Some 1000 |})
    by (vm_compute; reflexivity).
  reflexivity.
Qed.

(** ["paris"] cached at [t0]: a hit at [t0 + 23h], a miss at
    [t0 + 25h], and the entry is still stored. *)
Lemma get_cached_data_ttl_witness :
  paris_cache 5 42%nat !! str_strip (str_lower "Paris") =
    Some {| doc_data := Some 42%nat; doc_cached_at := Some 5 |} /\
  fst (get_cached_data None (5 + 23 * hour) "Paris" (paris_cache 5 42%nat)) =
    Returned (Some 42%nat) /\
  fst (get_cached_data None (5 + 25 * hour) "Paris" (paris_cache 5 42%nat)) =
    Returned None /\
  snd (get_cached_data None (5 + 25 * hour) "Paris" (paris_cache 5 42%nat)) =
    paris_cache 5 42%nat.
Proof.
  assert (Hdoc : paris_cache 5 42%nat !! str_strip (str_lower "Paris") =
                 Some {| doc_data := Some 42%nat; doc_cached_at := Some 5 |})
    by (vm_compute; reflexivity).
  split; [exact Hdoc|]. split; [|split].
  - apply (proj1 (get_cached_data_ttl _ "Paris" _ 42%nat 5 (5 + 23 * hour)
                    Hdoc eq_refl eq_refl)).
    vm_compute. reflexivity.
  - apply (proj1 (proj2 (get_cached_data_ttl _ "Paris" _ 42%nat 5 (5 + 25 * hour)
                           Hdoc eq_refl eq_refl))).
    vm_compute. discriminate.
  - apply (proj1 (proj2 (proj2 (get_cached_data_ttl _ "Paris" _ 42%nat 5 (5 + 25 * hour)
                                  Hdoc eq_refl eq_refl)))).
Defined.

(** Red Fort and Marine Drive share the rating 3.9 and keep their
    order. *)
Lemma rank_places_spec_witness :
  Forall rating_is_number sample_places /\
  Permutation (rank_places sample_places) sample_places /\
  map fp_name sample_places = ["Red Fort"; "India Gate"; "Marine Drive"; "Gateway of India"] /\
  map fp_name (rank_places sample_places) =
    ["India Gate"; "Gateway of India"; "Red Fort"; "Marine Drive"].
Proof.
  assert (Hn : Forall rating_is_number sample_places).
  { let l := eval vm_compute in sample_places in change sample_places with l.
    repeat (constructor; [vm_compute; reflexivity|]). constructor. }
  split; [exact Hn|]. split; [exact (proj1 (rank_places_spec sample_places Hn))|].
  split; vm_compute; reflexivity.
Defined.

(** The Taj Mahal Palace Hotel is a luxury hotel: the rule of that
    label comes first, although a boutique keyword occurs too. *)
Lemma classify_spec_witness :
  has_keyword ["boutique"; "heritage"; "charming"; "unique"]
    (classify_text "hotels" "Taj Mahal Palace Hotel" "luxury,heritage") /\
  classify "hotels" "Taj Mahal Palace Hotel" "luxury,heritage" = Some "luxury".
Proof.
  split; [apply any_in_true; vm_compute; reflexivity|].
  pose proof (classify_spec "hotels" "Taj Mahal Palace Hotel" "luxury,heritage") as Hs.
  cbn [rules_of String.eqb Ascii.eqb Bool.eqb] in Hs.
  destruct Hs as (label & Hc & _ & _ & Hprec & _).
  rewrite Hc. f_equal.
  apply (Hprec [] "luxury" ["luxury"; "premium"; "5-star"; "resort"; "palace"; "spa"]
           [("boutique", ["boutique"; "heritage"; "charming"; "unique"]);
            ("budget", ["hostel"; "budget"; "economy"; "cheap"])]).
  - reflexivity.
  - constructor.
  - apply any_in_true. vm_compute. reflexivity.
Defined.

(** C7 as stated fails: for a place kind that is not one of the three,
    no label is computed at all, and the sentence returned is not a
    template of any ["default"] pool. *)
Lemma classify_unknown_kind_counterexample :
  rules_of "museums" = None /\
  classify "museums" "City Museum" "tourism" <> Some "default" /\
  (forall rating g,
      fst (generate_insight "City Museum" "museums" "tourism" rating g) =
      "A great place to visit and explore.") /\
  ~ In "A great place to visit and explore."
      (pool_get ATTRACTION_INSIGHTS "default" ++ pool_get HOTEL_INSIGHTS "default" ++
       pool_get RESTAURANT_INSIGHTS "default")%list.
Proof.
  split; [reflexivity|]. split; [vm_compute; discriminate|].
  split; [intros rating g; reflexivity|].
  vm_compute. intros Hin.
  repeat (destruct Hin as [Hin | Hin]; [discriminate|]). exact Hin.
Qed.

(** Red Fort and India Gate select the same pool and draw different
    indices. *)
Lemma generate_insight_deterministic_witness :
  @rng_in_range runtime /\
  generate_insight "Red Fort" "attractions" "tourism.sights" 0 0 =
  generate_insight "Red Fort" "attractions" "tourism.sights" 0 77 /\
  fst (generate_insight "Red Fort" "attractions" "tourism.sights" 0 0) <>
  fst (generate_insight "India Gate" "attractions" "tourism.sights" 0 77).
Proof.
  destruct (@generate_insight_deterministic runtime "Red Fort" "attractions"
              "tourism.sights" 0 0 77 reference_rng_in_range) as (Hsame & _ & Hdiff).
  split; [exact reference_rng_in_range|]. split; [exact Hsame|].
  apply (Hdiff "India Gate" (pool_get ATTRACTION_INSIGHTS "default")).
  - vm_compute. reflexivity.
  - vm_compute. reflexivity.
  - vm_compute. discriminate.
Defined.

(** The first output of the reference implementation of MT19937 for
    its test key, and values of [hash] and [random] of CPython 3.11:
    with [PYTHONHASHSEED=0], [hash('a')] and [hash('Gateway of India')];
    after [random.seed(0)], [getrandbits(32)] and five draws of
    [random.choice] on three elements. *)
Example mt19937_reference :
  fst (MT19937.genrand_uint32
         (MT19937.init_by_array [0x123; 0x234; 0x345; 0x456], MT19937.N)) = 1067595299.
Proof. vm_compute. reflexivity. Qed.

Example cpython_values :
  SipHash.str_hash 0 "a" = 4644417185603328019 /\
  SipHash.str_hash 0 "Gateway of India" = -1372047999208243923 /\
  SipHash.str_hash 0 "" = 0 /\
  fst (MT19937.getrandbits 32 (MT19937.seed 0)) = 3626764237 /\
  (let '(r1, st1) := MT19937.randbelow 3 (MT19937.seed 0) in
   let '(r2, st2) := MT19937.randbelow 3 st1 in
   let '(r3, st3) := MT19937.randbelow 3 st2 in
   let '(r4, st4) := MT19937.randbelow 3 st3 in
   let '(r5, st5) := MT19937.randbelow 3 st4 in
   [r1; r2; r3; r4; r5]) = [1; 1; 0; 1; 2].
Proof. repeat split; vm_compute; reflexivity. Qed.

Lemma cpython_rng_in_range (hashseed : Z) : @rng_in_range (cpython hashseed).
Proof.
  intros g n Hn. unfold random_below, cpython, MT19937.randbelow.
  assert (Hloop : forall fuel k st,
             fst (MT19937.randbelow_loop fuel (Z.of_nat n) k st) < Z.of_nat n).
  { induction fuel as [|fuel IH]; intros k st; cbn [MT19937.randbelow_loop].
    - cbn [fst]. lia.
    - destruct (MT19937.getrandbits k st) as [r st'].
      destruct (Z.ltb_spec r (Z.of_nat n)) as [Hlt|Hge]; [exact Hlt | apply IH]. }
  destruct (Z.of_nat n =? 0) eqn:Hz; [apply Z.eqb_eq in Hz; lia|].
  specialize (Hloop 128%nat (Z.log2 (Z.of_nat n) + 1) g).
  destruct (MT19937.randbelow_loop 128 (Z.of_nat n) (Z.log2 (Z.of_nat n) + 1) g)
    as [r st]. cbn [fst] in *. lia.
Qed.

(** C8: evaluation at the failing input.  In a process started with
    [PYTHONHASHSEED=1] the hash of ["Red Fort"] seeds the generator
    with 5927 and the third template of the pool is drawn; in a process
    started with [PYTHONHASHSEED=2] the seed is 8518 and the second
    template is drawn: the same name does not always yield the same
    base sentence.  [generate_rating], which derives its number from
    MD5, returns the same rating in both processes. *)
Theorem generate_insight_differs_between_processes :
  (@str_hash (cpython 1) "Red Fort") mod 10000 = 5927 /\
  (@str_hash (cpython 2) "Red Fort") mod 10000 = 8518 /\
  (forall g,
      fst (@generate_insight (cpython 1) "Red Fort" "attractions" "tourism.sights.fort" 0 g) =
      "Step back in time and experience the heritage of this magnificent site.") /\
  (forall g,
      fst (@generate_insight (cpython 2) "Red Fort" "attractions" "tourism.sights.fort" 0 g) =
      "A testament to the region's glorious past. Don't miss the architectural details.") /\
  (@generate_rating (cpython 1) "Red Fort") = 3.9%float /\
  (@generate_rating (cpython 2) "Red Fort") = 3.9%float.
Proof.
  split; [vm_compute; reflexivity|]. split; [vm_compute; reflexivity|].
  split; [intros g; vm_compute; reflexivity|].
  split; [intros g; vm_compute; reflexivity|].
  split; vm_compute; reflexivity.
Qed.

(** The same in the abstract: the template depends on the hash, so with
    another salt another template may be drawn. *)
Lemma insight_depends_on_hash_salt :
  fst (@generate_insight (salted 0) "Red Fort" "attractions" "tourism.sights" 0 0) <>
  fst (@generate_insight (salted 1) "Red Fort" "attractions" "tourism.sights" 0 0).
Proof. vm_compute. discriminate. Qed.

(** An entry without timestamp is returned after any time. *)
Lemma get_cached_data_no_timestamp_witness :
  legacy_cache 42%nat !! str_strip (str_lower "Paris") =
    Some {| doc_data := Some 42%nat; doc_cached_at := None |} /\
  get_cached_data None (5 + 25000 * hour) "Paris" (legacy_cache 42%nat) =
    (Returned (Some 42%nat), legacy_cache 42%nat).
Proof.
  assert (Hdoc : legacy_cache 42%nat !! str_strip (str_lower "Paris") =
                 Some {| doc_data := Some 42%nat; doc_cached_at := None |})
    by (vm_compute; reflexivity).
  split; [exact Hdoc|].
  exact (get_cached_data_no_timestamp _ "Paris" _ Hdoc eq_refl (5 + 25000 * hour)).
Defined.

(** With the driver down for the read and for the write the search
    still answers 200 with fresh places. *)
Lemma cache_failures_isolated_witness :
  fst (cache_data (Some (DriverError "timed out")) 5 "Paris" 42%nat (paris_cache 0 7%nat)) =
    Returned tt /\
  snd (cache_data (Some (DriverError "timed out")) 5 "Paris" 42%nat (paris_cache 0 7%nat)) =
    paris_cache 0 7%nat /\
  resp_status
    (search (Some "Mumbai")
       (with_faults (Some (DriverError "timed out")) (Some (DriverError "timed out"))
          sample_env) ∅ 0).1.1 = 200.
Proof.
  destruct (cache_failures_isolated (Some (DriverError "timed out")) 5 "Paris" 42%nat
              (paris_cache 0 7%nat)) as (Hret & Hkeep & _).
  split; [exact Hret|]. split; [exact (Hkeep _ eq_refl)|].
  vm_compute. reflexivity.
Defined.

End Scenarios.

(** * Further properties of the code *)

(** ** The places service and the formatting loop *)

Section Places.

Context `{PyRuntime}.
Import AIService PlaceService App PyStr Vocabulary.

Lemma place_of_props_cases (lat lon : float) (props : Props) :
  match place_of_props lat lon props with
  | Skipped => props_named props = false
  | Appended p =>
      props_named props = true /\ place_fields p = feature_fields props /\
      raw_well_formed p
  | BodyRaised =>
      props_named props = true /\ has_distance props = false /\
      coord_truthy (props_lat props) = true /\ coord_truthy (props_lon props) = true /\
      calculate_distance lat lon (default 0%float (props_lat props))
        (default 0%float (props_lon props)) = None
  end.
Proof.
  unfold place_of_props, props_named, has_distance, raw_well_formed, raw_named.
  destruct (truthy (default "" (props_name props))) eqn:Hn; cbn [negb]; [|reflexivity].
  destruct (PyFloat.eq (default 0%float (props_distance props) / 1000.0) 0) eqn:Hd;
    cbn [andb negb].
  - destruct (coord_truthy (props_lat props)) eqn:Hlat; cbn [andb];
      [destruct (coord_truthy (props_lon props)) eqn:Hlon; cbn [andb]|].
    + destruct (calculate_distance _ _ _ _) eqn:Hc.
      * cbn [rp_name rp_kinds rp_categories rp_rating].
        split; [reflexivity|]. split; [reflexivity|]. auto.
      * auto.
    + cbn [rp_name rp_kinds rp_categories rp_rating].
      split; [reflexivity|]. split; [reflexivity|]. auto.
    + cbn [rp_name rp_kinds rp_categories rp_rating].
      split; [reflexivity|]. split; [reflexivity|]. auto.
  - cbn [rp_name rp_kinds rp_categories rp_rating].
    split; [reflexivity|]. split; [reflexivity|]. auto.
Qed.

Lemma fetch_answer (key : string) (fs : list Props) (lat lon : float) :
  truthy key = true ->
  fetch_places_from_geoapify (Some key) (HttpAnswer 200 (Some fs)) lat lon =
  default [] (places_loop lat lon fs).
Proof. unfold fetch_places_from_geoapify. now intros ->. Qed.

Lemma places_loop_spec (lat lon : float) (fs : list Props) :
  match places_loop lat lon fs with
  | None => Exists (raises lat lon) fs
  | Some places =>
      Forall (fun props => ~ raises lat lon props) fs /\
      map place_fields places = map feature_fields (List.filter props_named fs) /\
      Forall raw_well_formed places /\ (length places <= length fs)%nat
  end.
Proof.
  induction fs as [|props fs IH]; cbn [places_loop List.filter].
  - repeat split; constructor.
  - pose proof (place_of_props_cases lat lon props) as Hc. unfold raises at 1 2.
    destruct (place_of_props lat lon props) as [|p|] eqn:Hp.
    + rewrite Hc. destruct (places_loop lat lon fs) as [places|].
      * destruct IH as (Hno & Hf & Hw & Hl).
        split; [constructor; [unfold raises; congruence | exact Hno]|].
        split; [exact Hf|]. split; [exact Hw | cbn [length]; lia].
      * now apply Exists_cons_tl.
    + destruct Hc as (-> & Hf1 & Hw1).
      destruct (places_loop lat lon fs) as [places|]; cbn [mbind option_bind].
      * destruct IH as (Hno & Hf & Hw & Hl).
        split; [constructor; [unfold raises; congruence | exact Hno]|].
        cbn [map length]. rewrite Hf1, Hf.
        split; [reflexivity|]. split; [now constructor | lia].
      * now apply Exists_cons_tl.
    + apply Exists_cons_hd. exact Hp.
Qed.

Lemma Forall_not_Exists {A : Type} (P : A -> Prop) (l : list A) :
  Forall (fun x => ~ P x) l -> Exists P l -> False.
Proof.
  induction 1 as [|x l Hx _ IH]; intros He; inversion He; subst; auto.
Qed.

(** X1: an answer of the places API is turned into places feature by
    feature.  When no feature makes the loop raise, the result lists,
    in the order of the answer, exactly the features whose name is
    present and not empty, each with the name, address, coordinates and
    categories of its feature, the categories joined by commas as
    kinds, and the rating 0.  When a feature makes the loop raise, the
    result is the empty list, whatever the other features are; only a
    named feature that has both coordinates and no distance other than
    zero can do so, through [calculate_distance]. *)
Theorem fetch_places_named (key : string) (fs : list Props) (lat lon : float) :
  truthy key = true ->
  let places := fetch_places_from_geoapify (Some key) (HttpAnswer 200 (Some fs)) lat lon in
  (Forall (fun props => ~ raises lat lon props) fs ->
   map place_fields places = map feature_fields (List.filter props_named fs)) /\
  (Exists (raises lat lon) fs -> places = []) /\
  (forall props,
      raises lat lon props ->
      props_named props = true /\ has_distance props = false /\
      coord_truthy (props_lat props) = true /\ coord_truthy (props_lon props) = true /\
      calculate_distance lat lon (default 0%float (props_lat props))
        (default 0%float (props_lon props)) = None) /\
  Forall raw_well_formed places /\
  (length places <= length fs)%nat.
Proof.
  intros Hk places. subst places. rewrite (fetch_answer key fs lat lon Hk).
  pose proof (places_loop_spec lat lon fs) as Hs.
  destruct (places_loop lat lon fs) as [places|]; cbn [default].
  - destruct Hs as (Hno & Hf & Hw & Hl).
    split; [intros _; exact Hf|].
    split; [intros He; destruct (Forall_not_Exists _ _ Hno He)|].
    split; [|split; [exact Hw | exact Hl]].
    intros props Hr. pose proof (place_of_props_cases lat lon props) as Hc.
    unfold raises in Hr. now rewrite Hr in Hc.
  - split; [intros Hno; destruct (Forall_not_Exists _ _ Hno Hs)|].
    split; [reflexivity|].
    split; [|split; [constructor | cbn [length]; lia]].
    intros props Hr. pose proof (place_of_props_cases lat lon props) as Hc.
    unfold raises in Hr. now rewrite Hr in Hc.
Qed.

Lemma format_loop_names (raw : list RawPlace) (category : string) (g : rng) :
  map fp_name (fst (format_loop raw category g)) =
  map raw_name (List.filter raw_named raw).
Proof.
  revert g. induction raw as [|place rest IH]; intros g; [reflexivity|].
  cbn [format_loop List.filter]. unfold raw_named at 1.
  destruct (truthy (default "" (rp_name place))); cbn [negb]; [|apply IH].
  destruct (generate_insight _ _ _ _ g) as [insight g1].
  specialize (IH g1). destruct (format_loop rest category g1) as [formatted g2].
  cbn [fst map] in *. now rewrite IH.
Qed.

(** X2: [format_place_data] formats exactly the raw places that have a
    non-empty name: the names of its result are a rearrangement of
    those names, one formatted place per named raw place, and a raw
    place without name leaves no trace. *)
Theorem format_place_data_names (raw : list RawPlace) (category : string) (g : rng) :
  let formatted := fst (format_place_data raw category g) in
  Permutation (map fp_name formatted) (map raw_name (List.filter raw_named raw)) /\
  length formatted = length (List.filter raw_named raw) /\
  (Forall (fun place => raw_named place = false) raw -> formatted = []).
Proof.
  intros formatted. subst formatted. unfold format_place_data.
  pose proof (format_loop_names raw category g) as Hn.
  destruct (format_loop raw category g) as [l g']. cbn [fst] in *.
  assert (Hp : Permutation (map fp_name (rank_places l))
                 (map raw_name (List.filter raw_named raw))).
  { rewrite <- Hn. apply Permutation_map. apply sorted_reverse_perm. }
  split; [exact Hp|]. split.
  - apply Permutation_length in Hp. now rewrite !length_map in Hp.
  - intros Hall.
    assert (Hnil : List.filter raw_named raw = []).
    { clear -Hall. induction Hall as [|p raw Hp _ IH]; [reflexivity|].
      cbn [List.filter]. now rewrite Hp. }
    rewrite Hnil in Hn. destruct l; [reflexivity | discriminate].
Qed.

Lemma fetch_named (api_key : option string) (reply : HttpReply) (lat lon : float) :
  Forall (fun place => raw_named place = true)
         (fetch_places_from_geoapify api_key reply lat lon).
Proof.
  apply fetch_Forall. intros props p Hp.
  pose proof (place_of_props_cases lat lon props) as Hc. rewrite Hp in Hc.
  destruct Hc as (_ & _ & Hw & _). exact Hw.
Qed.

(** X3: nothing the places service returns is lost in formatting:
    whatever the API key and the answer of the places API are, the
    formatted list has one place per place fetched, with the same
    names. *)
Theorem fetch_then_format_keeps_all (api_key : option string) (reply : HttpReply)
    (lat lon : float) (category : string) (g : rng) :
  let places := fetch_places_from_geoapify api_key reply lat lon in
  let formatted := fst (format_place_data places category g) in
  length formatted = length places /\
  Permutation (map fp_name formatted) (map raw_name places).
Proof.
  intros places formatted. subst formatted.
  assert (Hf : List.filter raw_named places = places).
  { pose proof (fetch_named api_key reply lat lon) as Hn. fold places in Hn.
    clearbody places. induction Hn as [|p l Hp _ IH]; [reflexivity|].
    cbn [List.filter]. now rewrite Hp, IH. }
  unfold format_place_data.
  pose proof (format_loop_names places category g) as Hn.
  destruct (format_loop places category g) as [l g'].
  cbn [fst] in *. rewrite Hf in Hn. split.
  - unfold rank_places. rewrite (Permutation_length (sorted_reverse_perm _ _ l)).
    rewrite <- (length_map fp_name l), Hn. apply length_map.
  - rewrite <- Hn. apply Permutation_map. apply sorted_reverse_perm.
Qed.

End Places.

(** ** Enrichment *)

Section EnrichmentFacts.

Context `{PyRuntime}.
Import AIService Classifier PlaceService App PyStr Vocabulary.

Lemma estimate_price_range_symbol (name kinds : string) (rating : float) :
  In (estimate_price_range name kinds rating) PRICE_SYMBOLS.
Proof.
  unfold estimate_price_range, PRICE_SYMBOLS.
  repeat match goal with
         | |- context [if ?b then _ else _] => destruct b
         end; simpl; auto.
Qed.

Ltac template_cases Hin :=
  revert Hin;
  match goal with
  | |- ?p ∈ _ -> _ => generalize p
  end;
  intros pool Hin; cbn in Hin;
  repeat match type of Hin with
         | _ ∈ _ :: _ => apply elem_of_cons in Hin as [-> | Hin]
         | _ ∈ [] => apply elem_of_nil in Hin; contradiction
         end;
  repeat (constructor; [discriminate|]); constructor.

Lemma attraction_templates_nonempty (key : string) :
  Forall (fun t => t <> "") (pool_get ATTRACTION_INSIGHTS key).
Proof.
  unfold ATTRACTION_INSIGHTS.
  match goal with
  | |- Forall _ (pool_get (list_to_map ?l) _) =>
      assert (Hin := pool_get_entries l key ltac:(vm_compute; eauto))
  end.
  template_cases Hin.
Qed.

Lemma hotel_templates_nonempty (key : string) :
  Forall (fun t => t <> "") (pool_get HOTEL_INSIGHTS key).
Proof.
  unfold HOTEL_INSIGHTS.
  match goal with
  | |- Forall _ (pool_get (list_to_map ?l) _) =>
      assert (Hin := pool_get_entries l key ltac:(vm_compute; eauto))
  end.
  template_cases Hin.
Qed.

Lemma restaurant_templates_nonempty (key : string) :
  Forall (fun t => t <> "") (pool_get RESTAURANT_INSIGHTS key).
Proof.
  unfold RESTAURANT_INSIGHTS.
  match goal with
  | |- Forall _ (pool_get (list_to_map ?l) _) =>
      assert (Hin := pool_get_entries l key ltac:(vm_compute; eauto))
  end.
  template_cases Hin.
Qed.

Lemma select_insights_nonempty (name category kinds : string) (insights : list string) :
  select_insights name category kinds = Some insights ->
  Forall (fun t => t <> "") insights.
Proof.
  unfold select_insights.
  destruct (String.eqb category "attractions");
    [intros [= <-]; apply attraction_templates_nonempty|].
  destruct (String.eqb category "hotels");
    [intros [= <-]; apply hotel_templates_nonempty|].
  destruct (String.eqb category "restaurants");
    [intros [= <-]; apply restaurant_templates_nonempty | discriminate].
Qed.

Lemma generate_insight_nonempty (name category kinds : string) (rating : float) (g : rng) :
  rng_in_range -> fst (generate_insight name category kinds rating g) <> "".
Proof.
  intros Hrng.
  destruct (select_insights name category kinds) as [insights|] eqn:Hsel.
  - destruct (generate_insight_base name category kinds rating insights Hrng Hsel)
      as (base & Hb & Hg).
    rewrite Hg.
    pose proof (select_insights_nonempty _ _ _ _ Hsel) as Hne.
    rewrite Forall_forall in Hne.
    specialize (Hne base (list_elem_of_lookup_2 _ _ _ Hb)).
    destruct base as [|c base]; [contradiction|]. discriminate.
  - unfold generate_insight. rewrite Hsel. discriminate.
Qed.

Lemma truthy_nonempty (s : string) : truthy s = true -> s <> "".
Proof. destruct s; [discriminate | intros _; discriminate]. Qed.

Lemma format_loop_well_formed (raw : list RawPlace) (category : string) (g : rng) :
  rng_in_range ->
  Forall (well_formed category) (fst (format_loop raw category g)).
Proof.
  intros Hrng. revert g. induction raw as [|place rest IH]; intros g; [constructor|].
  cbn [format_loop].
  destruct (truthy (default "" (rp_name place))) eqn:Hn; cbn [negb]; [|apply IH].
  pose proof (generate_insight_nonempty (default "" (rp_name place)) category
                (default "" (rp_kinds place)) (default 0%float (rp_rating place)) g Hrng)
    as Hi.
  destruct (generate_insight _ _ _ _ g) as [insight g1].
  specialize (IH g1). destruct (format_loop rest category g1) as [formatted g2].
  cbn [fst] in *. constructor; [|exact IH].
  unfold well_formed.
  cbn [fp_name fp_category fp_rating fp_price_range fp_ai_insight fp_review_count].
  split; [now apply truthy_nonempty|]. split; [reflexivity|].
  split.
  { eexists. split; [reflexivity|].
    eapply nth_error_In. apply rating_of_nibble. apply Z.mod_pos_bound. lia. }
  split; [apply estimate_price_range_symbol|]. split; [exact Hi | reflexivity].
Qed.

(** X4: whatever raw places and category it is given,
    [format_place_data] returns enriched places only: each has a
    non-empty name, the category without its plural ending, one of the
    sixteen ratings, one of the three price symbols, a non-empty
    insight and no review count; and the list is ranked, ratings never
    increasing. *)
Theorem format_place_data_well_formed (raw : list RawPlace) (category : string) (g : rng) :
  rng_in_range ->
  Forall (well_formed category) (fst (format_place_data raw category g)) /\
  PyList.non_increasing (fun x y => key_lt (rank_key x) (rank_key y))
    (fst (format_place_data raw category g)) /\
  StronglySorted
    (fun x y => PyFloat.lt (fst (rank_key x)) (fst (rank_key y)) = false)
    (fst (format_place_data raw category g)).
Proof.
  intros Hrng.
  pose proof (format_place_data_ranked raw category g) as Hs.
  split; [|split; [exact Hs|]].
  - unfold format_place_data.
    pose proof (format_loop_well_formed raw category g Hrng) as Hw.
    destruct (format_loop raw category g) as [l g']. cbn [fst] in *.
    eapply Permutation_Forall; [|exact Hw]. symmetry. apply sorted_reverse_perm.
  - eapply StronglySorted_impl; [|exact Hs].
    intros a b. apply key_lt_false_rating.
Qed.

Lemma hotel_luxury_keywords (k : string) :
  In k ["luxury"; "premium"; "5-star"; "resort"; "palace"; "spa"] ->
  In k LUXURY_KEYWORDS.
Proof.
  unfold LUXURY_KEYWORDS. simpl.
  intros [<- | [<- | [<- | [<- | [<- | [<- | []]]]]]]; tauto.
Qed.

(** X5: the hotel classifier and the price estimate agree on luxury:
    a hotel that [categorize_hotel_type] labels ["luxury"] gets the top
    price tier from [estimate_price_range], whatever its rating. *)
Theorem luxury_hotel_top_price (name kinds : string) (rating : float) :
  categorize_hotel_type name kinds = "luxury" ->
  estimate_price_range name kinds rating = "₹₹₹".
Proof.
  unfold categorize_hotel_type, estimate_price_range.
  set (text := str_lower (name ++ " " ++ kinds)).
  destruct (any_in ["luxury"; "premium"; "5-star"; "resort"; "palace"; "spa"] text) eqn:Hl.
  - intros _. apply any_in_true in Hl as (k & Hin & Hk).
    assert (Hlux : any_in LUXURY_KEYWORDS text = true).
    { apply any_in_true. exists k. split; [now apply hotel_luxury_keywords | exact Hk]. }
    now rewrite Hlux.
  - destruct (any_in ["boutique"; "heritage"; "charming"; "unique"] text);
      [discriminate|].
    destruct (any_in ["hostel"; "budget"; "economy"; "cheap"] text); discriminate.
Qed.

Lemma ge_45_ge_4 (r : float) : PyFloat.ge r 4.5 = true -> PyFloat.ge r 4.0 = true.
Proof.
  intros (Hr & _ & Hge)%ge_true. apply ge_true. repeat split; trivial.
  intros Hlt. apply Hge.
  assert (H45 : PyFloat.t3_lt (PyFloat.fkey 4.0) (PyFloat.fkey 4.5))
    by (apply lex3_Lt; vm_compute; reflexivity).
  destruct (PyFloat.fkey r) as [[a b] c], (PyFloat.fkey 4.0) as [[a1 b1] c1],
    (PyFloat.fkey 4.5) as [[a2 b2] c2].
  unfold PyFloat.t3_lt in *. simpl in *. lia.
Qed.

(** X6: for a rating that is not at least 4.0 (the pipeline always
    passes 0) the price tier is decided by the keywords alone: the top
    tier exactly when a luxury keyword occurs, the middle tier exactly
    when a moderate keyword occurs and neither a luxury nor a budget
    keyword does, the lowest tier otherwise. *)
Theorem price_by_keywords (name kinds : string) (rating : float) :
  PyFloat.ge rating 4.0 = false ->
  let text := str_lower (name ++ " " ++ kinds) in
  let price := estimate_price_range name kinds rating in
  (price = "₹₹₹" <-> has_keyword LUXURY_KEYWORDS text) /\
  (price = "₹₹" <->
   ~ has_keyword LUXURY_KEYWORDS text /\ ~ has_keyword BUDGET_KEYWORDS text /\
   has_keyword MODERATE_KEYWORDS text) /\
  (price = "₹" <->
   ~ has_keyword LUXURY_KEYWORDS text /\
   (has_keyword BUDGET_KEYWORDS text \/ ~ has_keyword MODERATE_KEYWORDS text)).
Proof.
  intros H4 text price. subst price. unfold estimate_price_range. fold text.
  assert (H45 : PyFloat.ge rating 4.5 = false).
  { destruct (PyFloat.ge rating 4.5) eqn:Hc; [|reflexivity].
    apply ge_45_ge_4 in Hc. congruence. }
  rewrite H4, H45.
  rewrite <- !any_in_false, <- !any_in_true.
  destruct (any_in LUXURY_KEYWORDS text), (any_in BUDGET_KEYWORDS text),
    (any_in MODERATE_KEYWORDS text);
    (split; [|split]); split; try discriminate; try tauto;
    intros; repeat match goal with
                   | Hx : _ /\ _ |- _ => destruct Hx
                   | Hx : _ \/ _ |- _ => destruct Hx
                   end; congruence.
Qed.

End EnrichmentFacts.

(** ** The category label and the ranking *)

Section LabelAndRank.

Context `{PyRuntime}.
Import AIService App PyStr PyList Vocabulary.

Lemma substring_full (s : string) : String.substring 0 (String.length s) s = s.
Proof. induction s as [|c s IH]; [reflexivity|]. simpl. now rewrite IH. Qed.

Lemma substring_split (s : string) (m : nat) :
  (m <= String.length s)%nat ->
  String.substring 0 m s ++ String.substring m (String.length s - m) s = s.
Proof.
  revert m. induction s as [|c s IH]; intros [|m] Hm; simpl in Hm.
  - reflexivity.
  - lia.
  - change (String.substring 0 (String.length (String c s)) (String c s) = String c s).
    apply substring_full.
  - change (String c (String.substring 0 m s ++
                      String.substring m (String.length s - m) s) = String c s).
    rewrite IH by lia. reflexivity.
Qed.

(** X7: the category label of a formatted place is the category with
    one final ["s"] removed: a category that ends in ["s"] is its
    [singular] followed by ["s"], any other category is left as it
    is. *)
Theorem singular_spec (category : string) :
  (endswith category "s" = true ->
   category = singular category ++ "s" /\
   String.length category = S (String.length (singular category))) /\
  (endswith category "s" = false -> singular category = category).
Proof.
  unfold singular. destruct (endswith category "s") eqn:He; split; try discriminate;
    [|reflexivity].
  intros _. unfold endswith in He.
  apply andb_true_iff in He as [Hlen Hs].
  apply Nat.leb_le in Hlen. apply String.eqb_eq in Hs. cbn [String.length] in Hlen, Hs.
  assert (Hsplit : category = drop_last category ++ "s").
  { unfold drop_last.
    pose proof (substring_split category (String.length category - 1) ltac:(lia)) as Hx.
    replace (String.length category - (String.length category - 1))%nat with 1%nat
      in Hx by lia.
    rewrite Hs in Hx. now symmetry. }
  split; [exact Hsplit|].
  rewrite Hsplit at 1. rewrite string_length_append. cbn [String.length]. lia.
Qed.

Lemma sorted_reverse_fixed {A : Type} (lt : A -> A -> bool) (l : list A) :
  non_increasing lt l -> sorted_reverse lt l = l.
Proof.
  unfold non_increasing. induction 1 as [|x l Hs IH Hx]; [reflexivity|].
  cbn [sorted_reverse fold_right]. fold (sorted_reverse lt l). rewrite IH.
  destruct l as [|y l]; [reflexivity|].
  cbn [insert_desc]. inversion Hx as [|? ? Hxy _]; subst. now rewrite Hxy.
Qed.

(** X8: ranking is idempotent: a list that is already ranked is
    returned unchanged, so ranking the result of [rank_places] once
    more changes nothing; and ranking never changes the number of
    places. *)
Theorem rank_places_idempotent (places : list FormattedPlace) :
  Forall rating_is_number places ->
  rank_places (rank_places places) = rank_places places /\
  length (rank_places places) = length places /\
  (non_increasing (fun x y => key_lt (rank_key x) (rank_key y)) places ->
   rank_places places = places).
Proof.
  intros Hn. unfold rank_places. split; [|split].
  - apply sorted_reverse_fixed.
    exact (sorted_reverse_sorted FormattedPlace
             (fun x y => key_lt (rank_key x) (rank_key y)) rating_is_number
             key_lt_asym key_lt_negtrans places Hn).
  - apply Permutation_length, sorted_reverse_perm.
  - apply sorted_reverse_fixed.
Qed.

End LabelAndRank.

(** ** The cache *)

Section CacheFacts.

Context {Payload : Type} `{PyRuntime}.
Import DatabaseService Vocabulary.

(** What a read returns depends on the entry of the key alone. *)
Lemma get_cached_data_lookup (c1 c2 : Collection Payload) (city : string) (now : Z) :
  c1 !! str_strip (str_lower city) = c2 !! str_strip (str_lower city) ->
  fst (get_cached_data None now city c1) = fst (get_cached_data None now city c2).
Proof.
  intros Heq. destruct (c2 !! str_strip (str_lower city)) as [doc|] eqn:Hdoc.
  - now rewrite (get_cached_data_found c1 city now doc Heq),
                (get_cached_data_found c2 city now doc Hdoc).
  - now rewrite (get_cached_data_absent c1 city now Heq),
                (get_cached_data_absent c2 city now Hdoc).
Qed.

(** X10: a read returns a payload only if the driver worked, the key of
    the city has an entry holding that payload, and the entry either
    has no timestamp or is younger than 24 hours. *)
Theorem get_cached_data_hit (fault : option exn) (now : Z) (city : string)
    (c : Collection Payload) (data : Payload) :
  fst (get_cached_data fault now city c) = Returned (Some data) ->
  fault = None /\
  exists doc,
    c !! city_key city = Some doc /\ doc_data doc = Some data /\
    (doc_cached_at doc = None \/
     exists cached_at, doc_cached_at doc = Some cached_at /\
                       now - cached_at < timedelta_hours 24).
Proof.
  unfold city_key. destruct fault as [e|]; [discriminate|].
  destruct (c !! str_strip (str_lower city)) as [doc|] eqn:Hdoc.
  - rewrite (get_cached_data_found c city now doc Hdoc). cbn [fst].
    intros Hr. split; [reflexivity|]. exists doc. split; [reflexivity|].
    destruct (doc_cached_at doc) as [t|]; [|split; [congruence | now left]].
    destruct (Z.ltb_spec (now - t) (timedelta_hours 24)) as [Hlt|Hge]; [|discriminate].
    split; [congruence|]. right. now exists t.
  - rewrite (get_cached_data_absent c city now Hdoc). discriminate.
Qed.

(** X11: two spellings of a city with the same key share one entry and
    the last write wins: after two writes the collection is what the
    second write alone gives, and a read returns the second payload
    when less than 24 hours have passed since the stored timestamp of
    the second write (its time truncated to milliseconds), hence
    whenever at most 24 hours less one millisecond have passed since
    that write; from 24 hours after the stored timestamp on, the read
    is a miss. *)
Theorem cache_data_last_write_wins (c : Collection Payload) (city1 city2 : string)
    (data1 data2 : Payload) (t1 t2 now : Z) :
  city_key city1 = city_key city2 ->
  let c2 := snd (cache_data None t2 city2 data2 (snd (cache_data None t1 city1 data1 c))) in
  c2 = snd (cache_data None t2 city2 data2 c) /\
  (now - bson_datetime t2 < timedelta_hours 24 ->
   get_cached_data None now city1 c2 = (Returned (Some data2), c2)) /\
  (now - t2 <= timedelta_hours 24 - 1000 ->
   get_cached_data None now city1 c2 = (Returned (Some data2), c2)) /\
  (timedelta_hours 24 <= now - bson_datetime t2 ->
   get_cached_data None now city1 c2 = (Returned None, c2)).
Proof.
  intros Hk c2. subst c2. unfold city_key in Hk.
  rewrite !cache_data_stores. cbn [snd].
  rewrite Hk, insert_insert_eq. split; [reflexivity|].
  pose proof (bson_datetime_bounds t2) as [Hb _].
  rewrite (get_cached_data_found _ city1 now
             {| doc_data := Some data2; doc_cached_at := Some (bson_datetime t2) |})
    by (rewrite Hk; apply lookup_insert_eq).
  cbn [doc_cached_at doc_data].
  destruct (Z.ltb_spec (now - bson_datetime t2) (timedelta_hours 24)) as [Hlt|Hge].
  - split; [reflexivity|]. split; [reflexivity | lia].
  - split; [lia|]. split; [lia | reflexivity].
Qed.

(** X12: cities with different keys do not interfere: their writes
    commute, and a write for one city leaves what a read for the other
    returns as it was. *)
Theorem cache_data_other_city (c : Collection Payload) (city1 city2 : string)
    (data1 data2 : Payload) (t1 t2 now : Z) :
  city_key city1 <> city_key city2 ->
  snd (cache_data None t2 city2 data2 (snd (cache_data None t1 city1 data1 c))) =
  snd (cache_data None t1 city1 data1 (snd (cache_data None t2 city2 data2 c))) /\
  fst (get_cached_data None now city2 (snd (cache_data None t1 city1 data1 c))) =
  fst (get_cached_data None now city2 c).
Proof.
  unfold city_key. intros Hk.
  rewrite !cache_data_stores. cbn [snd]. split.
  - now apply insert_insert_ne.
  - apply get_cached_data_lookup. now apply lookup_insert_ne.
Qed.

(** X14: clearing one city removes the entry of its key and no other:
    a read of the city is then a miss at any time, reads of cities with
    other keys return what they returned before, and when the driver
    fails the call returns normally and nothing is removed. *)
Theorem clear_cache_one_city (c : Collection Payload) (city : string) (now : Z) :
  PyStr.truthy city = true ->
  let c' := snd (clear_cache None (Some city) c) in
  clear_cache None (Some city) c = (Returned tt, c') /\
  get_cached_data None now city c' = (Returned None, c') /\
  (forall other, city_key other <> city_key city ->
                 fst (get_cached_data None now other c') =
                 fst (get_cached_data None now other c)) /\
  (forall e, clear_cache (Some e) (Some city) c = (Returned tt, c)).
Proof.
  intros Ht c'. subst c'. unfold city_key.
  unfold clear_cache, try_except, delete_one, ret. rewrite Ht. cbn [snd].
  split; [reflexivity|]. split; [|split].
  - apply get_cached_data_absent. apply lookup_delete_eq.
  - intros other Hk. apply get_cached_data_lookup.
    apply lookup_delete_ne. congruence.
  - intros e. reflexivity.
Qed.

(** X15: clearing without a city, or with the empty string as city,
    removes every entry, as does the clearing tool: afterwards the read
    of any city is a miss. *)
Theorem clear_cache_everything (c : Collection Payload) (city : option string)
    (other : string) (now : Z) :
  city = None \/ city = Some "" ->
  snd (clear_cache None city c) = ∅ /\
  snd (ClearCacheTool.clear_db_cache None c) = ∅ /\
  get_cached_data None now other (snd (clear_cache None city c)) =
    (Returned None, snd (clear_cache None city c)).
Proof.
  intros Hc.
  assert (He : snd (clear_cache None city c) = ∅) by (destruct Hc as [-> | ->]; reflexivity).
  split; [exact He|]. split; [reflexivity|].
  rewrite He. apply get_cached_data_absent. apply lookup_empty.
Qed.

End CacheFacts.

(** ** The search handler and the cache *)

Section SearchFacts.

Context `{PyRuntime}.
Import AIService PlaceService DatabaseService App PyStr Vocabulary.

Lemma format_loop_rng (raw : list RawPlace) (category : string) (g g' : rng) :
  fst (format_loop raw category g) = fst (format_loop raw category g').
Proof.
  revert g g'. induction raw as [|place rest IH]; intros g g'; [reflexivity|].
  cbn [format_loop].
  destruct (negb (truthy (default "" (rp_name place)))); [apply IH | reflexivity].
Qed.

Lemma format_place_data_rng (raw : list RawPlace) (category : string) (g g' : rng) :
  fst (format_place_data raw category g) = fst (format_place_data raw category g').
Proof.
  unfold format_place_data. pose proof (format_loop_rng raw category g g') as Hl.
  destruct (format_loop raw category g), (format_loop raw category g').
  cbn [fst] in *. now rewrite Hl.
Qed.

(** The response of a search that finds no fresh entry and gets
    coordinates. *)
Lemma search_miss (city_arg : option string) (env : Env) (c : Collection Payload)
    (g ga gh gr : rng) (lat lon : float) (display_name : option string) :
  let city := str_strip (default "" city_arg) in
  truthy city = true ->
  fst (get_cached_data (env_read_fault env) (env_read_now env) city c) = Returned None ->
  env_coordinates env = (Some lat, Some lon, display_name) ->
  let fetch reply := fetch_places_from_geoapify (env_api_key env) reply lat lon in
  let resp :=
    {| resp_status := 200; resp_success := true; resp_error := None;
       resp_city := Some (if truthy (default "" display_name)
                          then default "" display_name else city);
       resp_cached := Some false;
       resp_attractions :=
         fst (format_place_data (fetch (env_attractions env)) "attractions" ga);
       resp_hotels := fst (format_place_data (fetch (env_hotels env)) "hotels" gh);
       resp_restaurants :=
         fst (format_place_data (fetch (env_restaurants env)) "restaurants" gr) |} in
  (search city_arg env c g).1.1 = resp /\
  (search city_arg env c g).1.2 =
    snd (cache_data (env_write_fault env) (env_write_now env) city (payload_of resp) c).
Proof.
  intros city Ht Hmiss Hco fetch resp. subst resp fetch. unfold search. fold city.
  rewrite Ht. cbn [negb].
  pose proof (get_cached_data_keeps (env_read_fault env) c city (env_read_now env)) as Hk.
  destruct (get_cached_data (env_read_fault env) (env_read_now env) city c) as [r c1].
  cbn [fst snd] in Hmiss, Hk. subst r c1. rewrite Hco.
  match goal with
  | |- context [format_place_data ?raw "attractions" g] =>
      pose proof (format_place_data_rng raw "attractions" g ga) as Ha;
      destruct (format_place_data raw "attractions" g) as [la g1]
  end.
  match goal with
  | |- context [format_place_data ?raw "hotels" g1] =>
      pose proof (format_place_data_rng raw "hotels" g1 gh) as Hh;
      destruct (format_place_data raw "hotels" g1) as [lh g2]
  end.
  match goal with
  | |- context [format_place_data ?raw "restaurants" g2] =>
      pose proof (format_place_data_rng raw "restaurants" g2 gr) as Hr;
      destruct (format_place_data raw "restaurants" g2) as [lr g3]
  end.
  cbn [fst] in Ha, Hh, Hr. rewrite <- Ha, <- Hh, <- Hr. unfold payload_of.
  cbn [resp_attractions resp_hotels resp_restaurants].
  pose proof (cache_data_returns (env_write_fault env) (env_write_now env) city
                {| attractions := la; hotels := lh; restaurants := lr |} c) as Hw.
  destruct (cache_data (env_write_fault env) (env_write_now env) city
              {| attractions := la; hotels := lh; restaurants := lr |} c) as [w c2].
  cbn [fst snd] in *. subst w. split; reflexivity.
Qed.

(** The response of a search that finds a fresh entry. *)
Lemma search_hit (city_arg : option string) (env : Env) (c : Collection Payload)
    (g : rng) (data : Payload) :
  let city := str_strip (default "" city_arg) in
  truthy city = true ->
  fst (get_cached_data (env_read_fault env) (env_read_now env) city c) =
    Returned (Some data) ->
  search city_arg env c g = (cached_response city data, c, g).
Proof.
  intros city Ht Hhit. unfold search. fold city. rewrite Ht. cbn [negb].
  pose proof (get_cached_data_keeps (env_read_fault env) c city (env_read_now env)) as Hk.
  destruct (get_cached_data (env_read_fault env) (env_read_now env) city c) as [r c1].
  cbn [fst snd] in Hhit, Hk. subst r c1. reflexivity.
Qed.

(** A search whose response is not served from the cache went through
    the whole pipeline and wrote its payload. *)
Lemma search_fresh_inv (city_arg : option string) (env : Env) (c : Collection Payload)
    (g : rng) :
  resp_cached (search city_arg env c g).1.1 = Some false ->
  let city := str_strip (default "" city_arg) in
  truthy city = true /\
  resp_status (search city_arg env c g).1.1 = 200 /\
  (search city_arg env c g).1.2 =
    snd (cache_data (env_write_fault env) (env_write_now env) city
           (payload_of (search city_arg env c g).1.1) c).
Proof.
  intros Hf city. revert Hf. unfold search. fold city.
  destruct (truthy city) eqn:Ht; cbn [negb]; [|discriminate].
  pose proof (get_cached_data_keeps (env_read_fault env) c city (env_read_now env)) as Hk.
  destruct (get_cached_data_returns (env_read_fault env) (env_read_now env) city c)
    as [r Hr].
  destruct (get_cached_data (env_read_fault env) (env_read_now env) city c) as [r' c1].
  cbn [fst snd] in Hr, Hk. subst r' c1.
  destruct r as [data|]; [discriminate|].
  destruct (env_coordinates env) as [[[lat|] [lon|]] dn]; try discriminate.
  destruct (format_place_data _ "attractions" g) as [la g1].
  destruct (format_place_data _ "hotels" g1) as [lh g2].
  destruct (format_place_data _ "restaurants" g2) as [lr g3].
  pose proof (cache_data_returns (env_write_fault env) (env_write_now env) city
                {| attractions := la; hotels := lh; restaurants := lr |} c) as Hw.
  destruct (cache_data (env_write_fault env) (env_write_now env) city
              {| attractions := la; hotels := lh; restaurants := lr |} c) as [w c2] eqn:Hc.
  cbn [fst snd] in *. subst w. intros _.
  split; [reflexivity|]. split; [reflexivity|].
  unfold payload_of. cbn [fst snd resp_attractions resp_hotels resp_restaurants].
  now rewrite Hc.
Qed.

End SearchFacts.

Section SearchProperties.

Context `{PyRuntime}.
Import AIService PlaceService DatabaseService App PyStr Vocabulary.

(** The four ways a search ends. *)
Lemma search_cases (city_arg : option string) (env : Env) (c : Collection Payload)
    (g : rng) :
  let city := str_strip (default "" city_arg) in
  (truthy city = false /\
   search city_arg env c g =
     (failure 400 "City name is required. Use: /search?city=CityName", c, g)) \/
  (truthy city = true /\
   exists data,
     fst (get_cached_data (env_read_fault env) (env_read_now env) city c) =
       Returned (Some data) /\
     search city_arg env c g = (cached_response city data, c, g)) \/
  (truthy city = true /\
   fst (get_cached_data (env_read_fault env) (env_read_now env) city c) = Returned None /\
   ((env_coordinates env).1.1 = None \/ (env_coordinates env).1.2 = None) /\
   search city_arg env c g =
     (failure 404 ("Could not find coordinates for '" ++ city ++
                   "'. Please check the city name and try again."), c, g)) \/
  (truthy city = true /\
   fst (get_cached_data (env_read_fault env) (env_read_now env) city c) = Returned None /\
   exists lat lon display_name,
     env_coordinates env = (Some lat, Some lon, display_name)).
Proof.
  intros city. destruct (truthy city) eqn:Ht.
  - right.
    destruct (get_cached_data_returns (env_read_fault env) (env_read_now env) city c)
      as [[data|] Hr].
    + left. split; [reflexivity|]. exists data. split; [exact Hr|].
      now apply search_hit.
    + right. destruct (env_coordinates env) as [[[lat|] [lon|]] dn] eqn:Hco.
      * right. split; [reflexivity|]. split; [exact Hr|]. now exists lat, lon, dn.
      * left. split; [reflexivity|]. split; [exact Hr|]. split; [now right|].
        unfold search. fold city. rewrite Ht. cbn [negb].
        pose proof (get_cached_data_keeps (env_read_fault env) c city (env_read_now env))
          as Hk.
        destruct (get_cached_data (env_read_fault env) (env_read_now env) city c)
          as [r c1].
        cbn [fst snd] in Hr, Hk. subst r c1. now rewrite Hco.
      * left. split; [reflexivity|]. split; [exact Hr|]. split; [now left|].
        unfold search. fold city. rewrite Ht. cbn [negb].
        pose proof (get_cached_data_keeps (env_read_fault env) c city (env_read_now env))
          as Hk.
        destruct (get_cached_data (env_read_fault env) (env_read_now env) city c)
          as [r c1].
        cbn [fst snd] in Hr, Hk. subst r c1. now rewrite Hco.
      * left. split; [reflexivity|]. split; [exact Hr|]. split; [now left|].
        unfold search. fold city. rewrite Ht. cbn [negb].
        pose proof (get_cached_data_keeps (env_read_fault env) c city (env_read_now env))
          as Hk.
        destruct (get_cached_data (env_read_fault env) (env_read_now env) city c)
          as [r c1].
        cbn [fst snd] in Hr, Hk. subst r c1. now rewrite Hco.
  - left. split; [reflexivity|]. unfold search. fold city. now rewrite Ht.
Qed.

(** X16: the cache is read through: after a search that was not served
    from the cache and whose write succeeded, a search for a city with
    the same key, less than 24 hours after the stored timestamp of that
    write (its time truncated to milliseconds), is served from the
    cache: it returns the three lists of the first response with
    [cached] true and the city as requested, whatever the geocoder and
    the places API would answer now, and changes neither the collection
    nor the generator. *)
Theorem search_read_through (arg1 arg2 : option string) (env1 env2 : Env)
    (c : Collection Payload) (g1 g2 : rng) :
  resp_cached (search arg1 env1 c g1).1.1 = Some false ->
  env_write_fault env1 = None ->
  env_read_fault env2 = None ->
  env_read_now env2 - bson_datetime (env_write_now env1) < timedelta_hours 24 ->
  truthy (str_strip (default "" arg2)) = true ->
  city_key (str_strip (default "" arg2)) = city_key (str_strip (default "" arg1)) ->
  search arg2 env2 (search arg1 env1 c g1).1.2 g2 =
  (cached_response (str_strip (default "" arg2)) (payload_of (search arg1 env1 c g1).1.1),
   (search arg1 env1 c g1).1.2, g2).
Proof.
  intros Hf Hw Hr Hfresh Ht Hk.
  destruct (search_fresh_inv arg1 env1 c g1 Hf) as (_ & _ & Hc).
  apply search_hit; [exact Ht|]. rewrite Hr, Hc, Hw.
  unfold city_key in Hk.
  rewrite (get_cached_data_found _ (str_strip (default "" arg2)) (env_read_now env2)
             {| doc_data := Some (payload_of (search arg1 env1 c g1).1.1);
                doc_cached_at := Some (bson_datetime (env_write_now env1)) |}).
  - cbn [fst doc_cached_at doc_data]. apply Z.ltb_lt in Hfresh. now rewrite Hfresh.
  - rewrite Hk, cache_data_stores. cbn [snd]. apply lookup_insert_eq.
Qed.

Lemma fetch_failed (api_key : option string) (reply : HttpReply) (lat lon : float) :
  reply_failed reply -> fetch_places_from_geoapify api_key reply lat lon = [].
Proof.
  unfold fetch_places_from_geoapify.
  intros [-> | (status & features & -> & Hs)];
    destruct api_key as [key|]; trivial; destruct (negb (truthy key)); trivial.
  apply Z.eqb_neq in Hs. now rewrite Hs.
Qed.

(** X17: an outage of the places API is cached: when the three calls
    fail, the search still answers 200 with three empty lists, stores
    that empty result, and until 24 hours after the stored timestamp
    (the time of the write truncated to milliseconds) searches for the
    city are served the empty lists from the cache, even if the API
    works again. *)
Theorem outage_is_cached (city_arg : option string) (env : Env)
    (c : Collection Payload) (g : rng) (lat lon : float) (display_name : option string) :
  let city := str_strip (default "" city_arg) in
  truthy city = true ->
  fst (get_cached_data (env_read_fault env) (env_read_now env) city c) = Returned None ->
  env_coordinates env = (Some lat, Some lon, display_name) ->
  reply_failed (env_attractions env) -> reply_failed (env_hotels env) ->
  reply_failed (env_restaurants env) ->
  let resp := (search city_arg env c g).1.1 in
  resp_status resp = 200 /\ resp_cached resp = Some false /\
  resp_attractions resp = [] /\ resp_hotels resp = [] /\ resp_restaurants resp = [] /\
  (env_write_fault env = None ->
   forall env2 g2,
     env_read_fault env2 = None ->
     env_read_now env2 - bson_datetime (env_write_now env) < timedelta_hours 24 ->
     (search city_arg env2 (search city_arg env c g).1.2 g2).1.1 =
     cached_response city {| attractions := []; hotels := []; restaurants := [] |}).
Proof.
  intros city Ht Hmiss Hco Fa Fh Fr resp. subst resp.
  destruct (search_miss city_arg env c g g g g lat lon display_name Ht Hmiss Hco)
    as [Hresp Hcoll].
  rewrite !fetch_failed in Hresp, Hcoll by assumption.
  rewrite Hresp. cbn [resp_status resp_cached resp_attractions resp_hotels
                      resp_restaurants format_place_data format_loop fst].
  repeat (split; [reflexivity|]).
  intros Hw env2 g2 Hr2 Hfresh.
  rewrite (search_hit city_arg env2 _ g2
             {| attractions := []; hotels := []; restaurants := [] |} Ht); [reflexivity|].
  rewrite Hr2, Hcoll, Hw. fold city.
  rewrite (get_cached_data_found _ city (env_read_now env2)
             {| doc_data := Some {| attractions := []; hotels := []; restaurants := [] |};
                doc_cached_at := Some (bson_datetime (env_write_now env)) |}).
  - cbn [fst doc_cached_at doc_data]. apply Z.ltb_lt in Hfresh. now rewrite Hfresh.
  - rewrite cache_data_stores. cbn [snd]. apply lookup_insert_eq.
Qed.

(** X18: a search writes at most the entry of its own city: every
    entry under another key is left as it was, and nothing at all is
    written unless the response is a fresh one ([cached] false) and the
    driver accepts the write. *)
Theorem search_writes_own_key (city_arg : option string) (env : Env)
    (c : Collection Payload) (g : rng) :
  let c' := (search city_arg env c g).1.2 in
  (forall k, k <> city_key (str_strip (default "" city_arg)) -> c' !! k = c !! k) /\
  (resp_cached (search city_arg env c g).1.1 <> Some false -> c' = c) /\
  (env_write_fault env <> None -> c' = c).
Proof.
  intros c'. subst c'.
  destruct (search_cases city_arg env c g)
    as [[_ ->] | [(_ & data & _ & ->) | [(_ & _ & _ & ->) | (Ht & Hmiss & lat & lon & dn & Hco)]]];
    cbn [fst snd]; try (split; [reflexivity | split; reflexivity]).
  destruct (search_miss city_arg env c g g g g lat lon dn Ht Hmiss Hco) as [Hresp ->].
  rewrite Hresp. cbn [resp_cached].
  unfold cache_data, try_except, update_one_upsert, city_key.
  destruct (env_write_fault env) as [e|]; cbn [snd].
  - split; [reflexivity|]. split; reflexivity.
  - split; [|split]; [| congruence | congruence].
    intros k Hk. apply lookup_insert_ne. congruence.
Qed.

(** X19: the shape of every response, by status: a request is refused
    with 400 exactly when it has no city or a blank one, and then the
    collection and the generator are left as they were; a response
    with status 400 or 404 is a failure with an error message, no city,
    no [cached] flag and three empty lists; a response with status 200
    is a success with no error message, a city and a [cached] flag. *)
Theorem search_response_shape (city_arg : option string) (env : Env)
    (c : Collection Payload) (g : rng) :
  let city := str_strip (default "" city_arg) in
  let resp := (search city_arg env c g).1.1 in
  (resp_status resp = 400 <-> truthy city = false) /\
  (truthy city = false -> search city_arg env c g = (resp, c, g)) /\
  (resp_status resp = 400 \/ resp_status resp = 404 ->
   resp_success resp = false /\
   is_Some (resp_error resp) /\ resp_city resp = None /\ resp_cached resp = None /\
   resp_attractions resp = [] /\ resp_hotels resp = [] /\ resp_restaurants resp = []) /\
  (resp_status resp = 200 ->
   resp_success resp = true /\ resp_error resp = None /\
   is_Some (resp_city resp) /\ is_Some (resp_cached resp)).
Proof.
  intros city resp. subst city resp.
  destruct (search_cases city_arg env c g)
    as [[Ht ->] | [(Ht & data & _ & ->) | [(Ht & _ & _ & ->) | (Ht & Hmiss & lat & lon & dn & Hco)]]];
    cbn [fst snd failure cached_response resp_success resp_status resp_error resp_city
         resp_cached resp_attractions resp_hotels resp_restaurants].
  - split; [split; [intros _; exact Ht | reflexivity]|].
    split; [reflexivity|]. split; [intros _; repeat split; eauto | discriminate].
  - split; [split; [discriminate | congruence]|].
    split; [congruence|]. split; [intros [?|?]; discriminate|].
    intros _. repeat split; eauto.
  - split; [split; [discriminate | congruence]|].
    split; [congruence|]. split; [intros _; repeat split; eauto | discriminate].
  - destruct (search_miss city_arg env c g g g g lat lon dn Ht Hmiss Hco) as [-> _].
    cbn [resp_success resp_status resp_error resp_city resp_cached].
    split; [split; [discriminate | congruence]|].
    split; [congruence|]. split; [intros [?|?]; discriminate|].
    intros _. repeat split; eauto.
Qed.

(** X20: the response does not depend on the state in which earlier
    requests left the global random generator: for the same request,
    environment and collection the response and the collection are the
    same from any generator state. *)
Theorem search_ignores_generator (city_arg : option string) (env : Env)
    (c : Collection Payload) (g g' : rng) :
  (search city_arg env c g).1 = (search city_arg env c g').1.
Proof.
  destruct (search_cases city_arg env c g)
    as [[Ht Hs] | [(Ht & data & Hhit & Hs) | [(Ht & Hmiss & Hno & Hs) | (Ht & Hmiss & lat & lon & dn & Hco)]]].
  - rewrite Hs. unfold search. now rewrite Ht.
  - rewrite Hs. now rewrite (search_hit city_arg env c g' data Ht Hhit).
  - rewrite Hs.
    destruct (search_cases city_arg env c g')
      as [[Ht' _] | [(_ & data & Hhit & _) | [(_ & _ & _ & ->) | (_ & _ & lat & lon & dn & Hco)]]].
    + congruence.
    + congruence.
    + reflexivity.
    + rewrite Hco in Hno. cbn in Hno. destruct Hno; discriminate.
  - destruct (search_miss city_arg env c g g g g lat lon dn Ht Hmiss Hco) as [H1 H2].
    destruct (search_miss city_arg env c g' g g g lat lon dn Ht Hmiss Hco) as [H1' H2'].
    destruct (search city_arg env c g) as [[r1 c1] g1].
    destruct (search city_arg env c g') as [[r2 c2] g2].
    cbn [fst snd] in *. congruence.
Qed.

End SearchProperties.

Section SearchAndServices.

Context `{PyRuntime}.
Import AIService PlaceService DatabaseService App PyStr Vocabulary.

Lemma search_blank (city_arg : option string) (env : Env) (c : Collection Payload)
    (g : rng) :
  truthy (str_strip (default "" city_arg)) = false ->
  search city_arg env c g =
    (failure 400 "City name is required. Use: /search?city=CityName", c, g).
Proof. intros Ht. unfold search. now rewrite Ht. Qed.

Lemma search_not_found (city_arg : option string) (env : Env) (c : Collection Payload)
    (g : rng) :
  let city := str_strip (default "" city_arg) in
  truthy city = true ->
  fst (get_cached_data (env_read_fault env) (env_read_now env) city c) = Returned None ->
  (env_coordinates env).1.1 = None \/ (env_coordinates env).1.2 = None ->
  search city_arg env c g =
    (failure 404 ("Could not find coordinates for '" ++ city ++
                  "'. Please check the city name and try again."), c, g).
Proof.
  intros city Ht Hmiss Hno. unfold search. fold city. rewrite Ht. cbn [negb].
  pose proof (get_cached_data_keeps (env_read_fault env) c city (env_read_now env)) as Hk.
  destruct (get_cached_data (env_read_fault env) (env_read_now env) city c) as [r c1].
  cbn [fst snd] in Hmiss, Hk. subst r c1.
  destruct (env_coordinates env) as [[[lat|] [lon|]] dn]; cbn in Hno; trivial.
  destruct Hno; discriminate.
Qed.

(** X21: the three lists are built independently: what the answer of
    the places API for one kind of place is has no effect on the lists
    of the other two kinds, so a failed call empties its own list
    only. *)
Theorem search_buckets_independent (city_arg : option string) (env : Env)
    (c : Collection Payload) (g : rng) (a h r a' h' r' : HttpReply) :
  resp_attractions (search city_arg (with_replies a h r env) c g).1.1 =
  resp_attractions (search city_arg (with_replies a h' r' env) c g).1.1 /\
  resp_hotels (search city_arg (with_replies a h r env) c g).1.1 =
  resp_hotels (search city_arg (with_replies a' h r' env) c g).1.1 /\
  resp_restaurants (search city_arg (with_replies a h r env) c g).1.1 =
  resp_restaurants (search city_arg (with_replies a' h' r env) c g).1.1 /\
  resp_status (search city_arg (with_replies a h r env) c g).1.1 =
  resp_status (search city_arg (with_replies a' h' r' env) c g).1.1.
Proof.
  set (city := str_strip (default "" city_arg)).
  destruct (truthy city) eqn:Ht.
  - destruct (get_cached_data_returns (env_read_fault env) (env_read_now env) city c)
      as [[data|] Hr].
    + assert (Hall : forall x y z,
                 search city_arg (with_replies x y z env) c g =
                 (cached_response city data, c, g)).
      { intros x y z.
        exact (search_hit city_arg (with_replies x y z env) c g data Ht Hr). }
      rewrite !Hall. repeat split.
    + destruct (env_coordinates env) as [[[lat|] [lon|]] dn] eqn:Hco.
      * assert (Hall : forall x y z,
                   (search city_arg (with_replies x y z env) c g).1.1 =
                   {| resp_status := 200; resp_success := true; resp_error := None;
                      resp_city :=
                        Some (if truthy (default "" dn) then default "" dn else city);
                      resp_cached := Some false;
                      resp_attractions :=
                        fst (format_place_data
                               (fetch_places_from_geoapify (env_api_key env) x lat lon)
                               "attractions" g);
                      resp_hotels :=
                        fst (format_place_data
                               (fetch_places_from_geoapify (env_api_key env) y lat lon)
                               "hotels" g);
                      resp_restaurants :=
                        fst (format_place_data
                               (fetch_places_from_geoapify (env_api_key env) z lat lon)
                               "restaurants" g) |}).
        { intros x y z.
          exact (proj1 (search_miss city_arg (with_replies x y z env) c g g g g
                          lat lon dn Ht Hr Hco)). }
        rewrite !Hall. repeat split.
      * assert (Hall : forall x y z,
                   search city_arg (with_replies x y z env) c g =
                   (failure 404 ("Could not find coordinates for '" ++ city ++
                                 "'. Please check the city name and try again."), c, g)).
        { intros x y z.
          apply (search_not_found city_arg (with_replies x y z env) c g Ht Hr).
          cbn [with_replies env_coordinates]. rewrite Hco. now right. }
        rewrite !Hall. repeat split.
      * assert (Hall : forall x y z,
                   search city_arg (with_replies x y z env) c g =
                   (failure 404 ("Could not find coordinates for '" ++ city ++
                                 "'. Please check the city name and try again."), c, g)).
        { intros x y z.
          apply (search_not_found city_arg (with_replies x y z env) c g Ht Hr).
          cbn [with_replies env_coordinates]. rewrite Hco. now left. }
        rewrite !Hall. repeat split.
      * assert (Hall : forall x y z,
                   search city_arg (with_replies x y z env) c g =
                   (failure 404 ("Could not find coordinates for '" ++ city ++
                                 "'. Please check the city name and try again."), c, g)).
        { intros x y z.
          apply (search_not_found city_arg (with_replies x y z env) c g Ht Hr).
          cbn [with_replies env_coordinates]. rewrite Hco. now left. }
        rewrite !Hall. repeat split.
  - assert (Hall : forall x y z,
               search city_arg (with_replies x y z env) c g =
               (failure 400 "City name is required. Use: /search?city=CityName", c, g)).
    { intros x y z. now apply search_blank. }
    rewrite !Hall. repeat split.
Qed.

(** X22: a search that finds no fresh entry and gets no place from the
    geocoder answers 404 with a message naming the city and three empty
    lists, and leaves the collection and the generator as they were;
    [get_coordinates] gives no coordinates when its call raises, when
    the body has no features, and when the first feature has no
    properties, and it never looks beyond the first feature. *)
Theorem geocode_failure_is_404 (reply : GeocodeReply) (city_arg : option string)
    (env : Env) (c : Collection Payload) (g : rng) :
  let city := str_strip (default "" city_arg) in
  truthy city = true ->
  fst (get_cached_data (env_read_fault env) (env_read_now env) city c) = Returned None ->
  (get_coordinates reply).1.1 = None \/ (get_coordinates reply).1.2 = None ->
  search city_arg (with_coordinates (get_coordinates reply) env) c g =
    (failure 404 ("Could not find coordinates for '" ++ city ++
                  "'. Please check the city name and try again."), c, g) /\
  (geocode_failed reply -> get_coordinates reply = (None, None, None)) /\
  (forall props rest rest',
      get_coordinates (GeocodeAnswer (Some (Some props :: rest))) =
      get_coordinates (GeocodeAnswer (Some (Some props :: rest')))).
Proof.
  intros city Ht Hmiss Hno. split; [|split].
  - exact (search_not_found city_arg (with_coordinates (get_coordinates reply) env) c g
             Ht Hmiss Hno).
  - intros [-> | [-> | [-> | [rest ->]]]]; reflexivity.
  - reflexivity.
Qed.

(** X23: after [POST /clear-cache] without a city (or with an empty
    one) the handler reports success for all cities, the collection is
    empty, and no search is served from the cache until a search has
    written again. *)
Theorem clear_endpoint_then_search (city : option string) (c : Collection Payload)
    (city_arg : option string) (env : Env) (g : rng) :
  city = None \/ city = Some "" ->
  clear_cache_endpoint city None c =
    (Returned {| clear_success := true;
                 clear_message := "Cache cleared for all cities" |}, ∅) /\
  resp_cached (search city_arg env (clear_cache_endpoint city None c).2 g).1.1
    <> Some true.
Proof.
  intros Hc.
  assert (He : clear_cache_endpoint city None c =
               (Returned {| clear_success := true;
                            clear_message := "Cache cleared for all cities" |}, ∅))
    by (destruct Hc as [-> | ->]; reflexivity).
  split; [exact He|]. rewrite He. cbn [snd].
  destruct (search_cases city_arg env ∅ g)
    as [[_ ->] | [(_ & data & Hhit & _) | [(_ & _ & _ & ->) | (Ht & Hmiss & lat & lon & dn & Hco)]]];
    try discriminate.
  - exfalso. destruct (env_read_fault env) as [e|].
    + rewrite get_cached_data_fault in Hhit. discriminate.
    + rewrite get_cached_data_absent in Hhit by apply lookup_empty. discriminate.
  - destruct (search_miss city_arg env ∅ g g g g lat lon dn Ht Hmiss Hco) as [-> _].
    discriminate.
Qed.

End SearchAndServices.

(** ** Distances *)

Section Distances.

Context `{PyRuntime}.

Import AIService PlaceService App PyStr Vocabulary.

Lemma round_half_even_near (num den : Z) :
  0 <= num -> 0 < den ->
  0 <= PyFloat.round_half_even num den /\
  2 * Z.abs (num - PyFloat.round_half_even num den * den) <= den.
Proof.
  intros Hnum Hden. unfold PyFloat.round_half_even.
  pose proof (Z.div_mod num den ltac:(lia)) as Hdm.
  pose proof (Z.mod_pos_bound num den Hden) as Hb.
  pose proof (Z.div_pos num den Hnum Hden) as Hq.
  destruct (Z.compare_spec (2 * (num mod den)) den) as [He|Hl|Hg]; [destruct (Z.even _)| |];
    split; nia.
Qed.

Lemma round_hundredths (x : float) : hundredths x (PyFloat.round x 2).
Proof.
  unfold hundredths, PyFloat.round.
  destruct (Prim2SF x) as [s|s| |s m e]; try reflexivity.
  exists (PyFloat.scaled_int m e 2).
  assert (H100 : PyFloat.of_int (10 ^ 2) = 100%float) by (vm_compute; reflexivity).
  rewrite H100. unfold PyFloat.scaled_int.
  change (10 ^ 2) with 100.
  destruct (Z.leb_spec 0 e) as [He|He].
  - split; [pose proof (Z.pow_nonneg 2 e ltac:(lia)); nia|]. split; [lia|].
    destruct (Z.leb_spec (2 ^ 53) (Z.pos m * 2 ^ e * 100)); split; intros; try lia;
      reflexivity.
  - pose proof (Z.pow_pos_nonneg 2 (- e) ltac:(lia) ltac:(lia)) as Hp.
    destruct (round_half_even_near (Z.pos m * 100) (2 ^ (- e)) ltac:(lia) Hp)
      as [Hn Hnear].
    split; [exact Hn|]. split; [lia|].
    destruct (Z.leb_spec (2 ^ 53) (PyFloat.round_half_even (Z.pos m * 100) (2 ^ (- e))));
      split; intros; try lia; reflexivity.
Qed.

Lemma place_of_props_distance (lat lon lat' lon' : float) (props : Props) :
  has_distance props = true ->
  place_of_props lat lon props = place_of_props lat' lon' props /\
  ~ raises lat lon props /\
  forall place,
    place_of_props lat lon props = Appended place ->
    exists r, rp_distance place = Some r /\
              hundredths (default 0%float (props_distance props) / 1000.0)%float r.
Proof.
  unfold has_distance, raises, place_of_props. intros Hd.
  apply negb_true_iff in Hd. rewrite Hd. cbn [andb].
  split; [reflexivity|].
  destruct (negb (truthy (default "" (props_name props))));
    (split; [discriminate|]); [discriminate|].
  intros place [= <-]. cbn [rp_distance]. eexists. split; [reflexivity|].
  apply round_hundredths.
Qed.

(** X24: the centre of the search is used only for features that come
    without a distance: when every feature of the answer has a distance
    that is not zero, no feature can make the loop raise, the places
    returned are the named features and are the same for any centre
    ([calculate_distance] plays no part), and each place carries the
    distance of its feature in kilometres rounded to two decimals: the
    double nearest to [n / 100] for an integer [n] nearest to a
    hundred times the kilometres. *)
Theorem fetch_places_centre_unused (key : string) (fs : list Props)
    (lat lon lat' lon' : float) :
  truthy key = true ->
  Forall (fun props => has_distance props = true) fs ->
  let places := fetch_places_from_geoapify (Some key) (HttpAnswer 200 (Some fs)) lat lon in
  places = fetch_places_from_geoapify (Some key) (HttpAnswer 200 (Some fs)) lat' lon' /\
  map rp_name places = map props_name (List.filter props_named fs) /\
  Forall2
    (fun props place =>
       exists r, rp_distance place = Some r /\
                 hundredths (default 0%float (props_distance props) / 1000.0)%float r)
    (List.filter props_named fs) places.
Proof.
  intros Hk Hd places. subst places. rewrite !(fetch_answer key fs) by exact Hk.
  assert (Hloop : places_loop lat lon fs = places_loop lat' lon' fs /\
                  exists places,
                    places_loop lat lon fs = Some places /\
                    map rp_name places = map props_name (List.filter props_named fs) /\
                    Forall2
                      (fun props place =>
                         exists r, rp_distance place = Some r /\
                                   hundredths
                                     (default 0%float (props_distance props) / 1000.0)%float
                                     r)
                      (List.filter props_named fs) places).
  { induction Hd as [|props fs Hp _ (IH1 & places & IH2 & IHn & IHd)].
    - split; [reflexivity|]. exists []. repeat split; constructor.
    - destruct (place_of_props_distance lat lon lat' lon' props Hp) as (Heq & Hno & Hdist).
      cbn [places_loop List.filter]. rewrite <- Heq, <- IH1. split; [reflexivity|].
      pose proof (place_of_props_cases lat lon props) as Hc.
      destruct (place_of_props lat lon props) as [|p|] eqn:Hstep.
      + rewrite Hc. exists places. auto.
      + destruct Hc as (-> & Hf & _). rewrite IH2. cbn [mbind option_bind].
        exists (p :: places). split; [reflexivity|].
        assert (Hname : rp_name p = props_name props).
        { unfold place_fields, feature_fields in Hf. congruence. }
        cbn [map]. rewrite Hname, IHn. split; [reflexivity|].
        constructor; [now apply Hdist | exact IHd].
      + destruct (Hno Hstep). }
  destruct Hloop as (<- & places & -> & Hn & Hdis). cbn [default]. auto.
Qed.

End Distances.

(** ** The further properties at work *)

Section FurtherScenarios.

Import Reference AIService Classifier PlaceService DatabaseService App PyStr Vocabulary.

(** The sample answer has five features, one of them without name;
    with one more feature, whose latitude is infinite and whose
    distance is missing, nothing is returned. *)
Lemma fetch_places_named_witness :
  truthy "key" = true /\
  map (fun place => (rp_name place, rp_kinds place))
    (fetch_places_from_geoapify (Some "key") (HttpAnswer 200 (Some sample_attractions))
       18.93 72.83) =
  [(Some "Red Fort", Some "tourism.sights,tourism.sights.fort");
   (Some "India Gate", Some "tourism.sights,tourism.sights.memorial");
   (Some "Marine Drive", Some "tourism.attraction");
   (Some "Gateway of India", Some "tourism.sights")] /\
  fetch_places_from_geoapify (Some "key") (HttpAnswer 200 (Some sample_with_stray))
    18.93 72.83 = [].
Proof.
  assert (Hk : truthy "key" = true) by reflexivity.
  assert (Hno : Forall (fun props => ~ raises 18.93 72.83 props) sample_attractions).
  { unfold sample_attractions, raises.
    repeat (constructor; [vm_compute; discriminate|]). constructor. }
  assert (Hr : Exists (raises 18.93 72.83) sample_with_stray).
  { unfold sample_with_stray. apply Exists_app. right. constructor.
    vm_compute. reflexivity. }
  split; [exact Hk|]. split.
  - pose proof (proj1 (@fetch_places_named runtime "key" sample_attractions 18.93 72.83 Hk)
                  Hno) as Hf.
    apply (f_equal (map (fun t => (t.1.1.1.1.1.1, t.1.2)))) in Hf.
    rewrite !map_map in Hf. cbn [place_fields fst snd] in Hf.
    etransitivity; [exact Hf|]. vm_compute. reflexivity.
  - exact (proj1 (proj2 (@fetch_places_named runtime "key" sample_with_stray 18.93 72.83
                           Hk)) Hr).
Defined.

Lemma fetch_then_format_keeps_all_witness :
  length (fst (format_place_data
                 (fetch_places_from_geoapify (Some "key")
                    (HttpAnswer 200 (Some sample_attractions)) 18.93 72.83)
                 "attractions" 0)) = 4%nat.
Proof.
  rewrite (proj1 (@fetch_then_format_keeps_all runtime (Some "key")
                    (HttpAnswer 200 (Some sample_attractions)) 18.93 72.83
                    "attractions" 0)).
  vm_compute. reflexivity.
Defined.

Lemma format_place_data_well_formed_witness :
  Forall (well_formed "hotels")
    (fst (format_place_data
            (fetch_places_from_geoapify (Some "key") (HttpAnswer 200 (Some sample_hotels))
               18.93 72.83) "hotels" 0)).
Proof.
  exact (proj1 (@format_place_data_well_formed runtime _ "hotels" 0
                  reference_rng_in_range)).
Defined.

Lemma luxury_hotel_top_price_witness :
  categorize_hotel_type "Taj Mahal Palace Hotel" "luxury,heritage" = "luxury" /\
  estimate_price_range "Taj Mahal Palace Hotel" "luxury,heritage" 3.7 = "₹₹₹".
Proof.
  assert (Hl : categorize_hotel_type "Taj Mahal Palace Hotel" "luxury,heritage" = "luxury")
    by (vm_compute; reflexivity).
  split; [exact Hl|].
  exact (@luxury_hotel_top_price runtime "Taj Mahal Palace Hotel" "luxury,heritage" 3.7 Hl).
Defined.

(** City Lodge has no price keyword: with the raw rating 0 its price is
    not the top tier, although it is rated 4.6. *)
Lemma price_by_keywords_witness :
  PyFloat.ge 0 4.0 = false /\
  (estimate_price_range "City Lodge" "accommodation.hotel" 0 = "₹₹₹" <->
   has_keyword LUXURY_KEYWORDS (str_lower ("City Lodge" ++ " " ++ "accommodation.hotel"))).
Proof.
  split; [reflexivity|].
  exact (proj1 (@price_by_keywords runtime "City Lodge" "accommodation.hotel" 0 eq_refl)).
Defined.

Lemma rank_places_idempotent_witness :
  Forall rating_is_number sample_places /\
  rank_places (rank_places sample_places) = rank_places sample_places.
Proof.
  assert (Hn : Forall rating_is_number sample_places).
  { let l := eval vm_compute in sample_places in change sample_places with l.
    repeat (constructor; [vm_compute; reflexivity|]). constructor. }
  split; [exact Hn|]. exact (proj1 (rank_places_idempotent sample_places Hn)).
Defined.

Lemma rank_places_unique_witness :
  Forall rating_is_number sample_ranked /\
  PyList.non_increasing (fun x y => key_lt (rank_key x) (rank_key y)) sample_ranked /\
  sample_ranked = rank_places sample_ranked.
Proof.
  assert (Hn : Forall rating_is_number sample_ranked).
  { let l := eval vm_compute in sample_ranked in change sample_ranked with l.
    repeat (constructor; [vm_compute; reflexivity|]). constructor. }
  assert (Hs : PyList.non_increasing (fun x y => key_lt (rank_key x) (rank_key y))
                 sample_ranked).
  { let l := eval vm_compute in sample_ranked in change sample_ranked with l.
    repeat (constructor; [|repeat (constructor; [vm_compute; reflexivity|]); constructor]).
    constructor. }
  split; [exact Hn|]. split; [exact Hs|].
  apply (rank_places_unique sample_ranked sample_ranked Hn Hn Hs).
  intros x _. reflexivity.
Defined.

Lemma get_cached_data_hit_witness :
  fst (get_cached_data None (5 + 23 * hour) "Paris" (paris_cache 5 42%nat)) =
    Returned (Some 42%nat) /\
  exists doc,
    paris_cache 5 42%nat !! city_key "Paris" = Some doc /\ doc_data doc = Some 42%nat.
Proof.
  assert (Hh : fst (get_cached_data None (5 + 23 * hour) "Paris" (paris_cache 5 42%nat)) =
               Returned (Some 42%nat)) by (vm_compute; reflexivity).
  split; [exact Hh|].
  destruct (@get_cached_data_hit nat runtime None (5 + 23 * hour) "Paris" (paris_cache 5 42%nat)
              42%nat Hh) as (_ & doc & Hdoc & Hdata & _).
  exists doc. split; [exact Hdoc | exact Hdata].
Defined.

(** ["Paris"] and [" PARIS "] are one entry; the second write, at
    2.5 ms, is stored as 2 ms. *)
Lemma cache_data_last_write_wins_witness :
  city_key "Paris" = city_key " PARIS " /\
  get_cached_data None (2000 + 24 * hour - 1) "Paris"
    (snd (cache_data None 2500 " PARIS " 2%nat (snd (cache_data None 10 "Paris" 1%nat ∅)))) =
  (Returned (Some 2%nat),
   snd (cache_data None 2500 " PARIS " 2%nat (snd (cache_data None 10 "Paris" 1%nat ∅)))) /\
  fst (get_cached_data None (2000 + 24 * hour) "Paris"
         (snd (cache_data None 2500 " PARIS " 2%nat
                 (snd (cache_data None 10 "Paris" 1%nat ∅))))) = Returned None.
Proof.
  assert (Hk : city_key "Paris" = city_key " PARIS ") by (vm_compute; reflexivity).
  split; [exact Hk|].
  destruct (@cache_data_last_write_wins nat runtime ∅ "Paris" " PARIS "
              1%nat 2%nat 10 2500 (2000 + 24 * hour - 1) Hk) as (_ & Hhit & _).
  destruct (@cache_data_last_write_wins nat runtime ∅ "Paris" " PARIS "
              1%nat 2%nat 10 2500 (2000 + 24 * hour) Hk) as (_ & _ & _ & Hmiss).
  split.
  - apply Hhit. vm_compute. reflexivity.
  - rewrite Hmiss; [reflexivity|]. vm_compute. discriminate.
Defined.

Lemma cache_data_other_city_witness :
  city_key "Paris" <> city_key "Rome" /\
  fst (get_cached_data None 30 "Rome" (snd (cache_data None 20 "Paris" 1%nat ∅))) =
  fst (get_cached_data None 30 "Rome" (∅ : Collection nat)).
Proof.
  assert (Hk : city_key "Paris" <> city_key "Rome") by (vm_compute; discriminate).
  split; [exact Hk|].
  exact (proj2 (@cache_data_other_city nat runtime ∅ "Paris" "Rome"
                  1%nat 2%nat 20 25 30 Hk)).
Defined.

(** Paris and Rome were written, Berlin was not. *)
Lemma never_written_is_miss_witness :
  fst (get_cached_data None 40 "Berlin"
         (fold_left (fun c w => snd (cache_data None w.1.1 w.1.2 w.2 c)) sample_writes ∅)) =
  Returned None.
Proof.
  assert (Hw : Forall (fun w : Z * string * nat =>
                         str_strip (str_lower w.1.2) <> str_strip (str_lower "Berlin"))
                 sample_writes).
  { unfold sample_writes.
    repeat (constructor; [vm_compute; discriminate|]). constructor. }
  rewrite (@never_written_is_miss nat runtime sample_writes "Berlin" 40 Hw). reflexivity.
Defined.

Lemma clear_cache_one_city_witness :
  truthy "Paris" = true /\
  fst (get_cached_data None 6 "Paris"
         (snd (clear_cache None (Some "Paris") (paris_cache 5 42%nat)))) = Returned None /\
  clear_cache (Some (DriverError "timed out")) (Some "Paris") (paris_cache 5 42%nat) =
    (Returned tt, paris_cache 5 42%nat).
Proof.
  assert (Ht : truthy "Paris" = true) by reflexivity.
  destruct (@clear_cache_one_city nat runtime (paris_cache 5 42%nat) "Paris" 6 Ht)
    as (_ & Hget & _ & Hfault).
  split; [exact Ht|]. split; [now rewrite Hget | apply Hfault].
Defined.

(** The empty string as city clears everything. *)
Lemma clear_cache_everything_witness :
  snd (clear_cache None (Some "") (paris_cache 5 42%nat)) = ∅ /\
  fst (get_cached_data None 6 "Paris"
         (snd (clear_cache None (Some "") (paris_cache 5 42%nat)))) = Returned None.
Proof.
  destruct (@clear_cache_everything nat runtime (paris_cache 5 42%nat) (Some "") "Paris" 6
              (or_intror eq_refl)) as (He & _ & Hget).
  split; [exact He|]. now rewrite Hget.
Defined.

(** Mumbai searched twice, the second time with every service down. *)
Lemma search_read_through_witness :
  resp_cached (search (Some " Mumbai ") sample_env ∅ 0).1.1 = Some false /\
  resp_cached
    (search (Some "MUMBAI") sample_env_later
       (search (Some " Mumbai ") sample_env ∅ 0).1.2 5).1.1 = Some true /\
  resp_hotels
    (search (Some "MUMBAI") sample_env_later
       (search (Some " Mumbai ") sample_env ∅ 0).1.2 5).1.1 =
  resp_hotels (search (Some " Mumbai ") sample_env ∅ 0).1.1.
Proof.
  assert (Hf : resp_cached (search (Some " Mumbai ") sample_env ∅ 0).1.1 = Some false)
    by (vm_compute; reflexivity).
  assert (Hw : env_write_fault sample_env = None) by reflexivity.
  assert (Hr : env_read_fault sample_env_later = None) by reflexivity.
  assert (Hn : env_read_now sample_env_later - bson_datetime (env_write_now sample_env)
               < timedelta_hours 24) by (vm_compute; reflexivity).
  assert (Ht : truthy (str_strip (default "" (Some "MUMBAI"))) = true)
    by (vm_compute; reflexivity).
  assert (Hk : city_key (str_strip (default "" (Some "MUMBAI"))) =
               city_key (str_strip (default "" (Some " Mumbai "))))
    by (vm_compute; reflexivity).
  split; [exact Hf|].
  rewrite (@search_read_through runtime (Some " Mumbai ") (Some "MUMBAI") sample_env
             sample_env_later ∅ 0 5 Hf Hw Hr Hn Ht Hk).
  cbn [fst snd cached_response payload_of resp_cached resp_hotels hotels].
  split; reflexivity.
Defined.

(** The places API is down while Mumbai is searched. *)
Lemma outage_is_cached_witness :
  resp_status (search (Some "Mumbai") outage_env ∅ 0).1.1 = 200 /\
  resp_hotels (search (Some "Mumbai") outage_env ∅ 0).1.1 = [] /\
  resp_hotels
    (search (Some "Mumbai") sample_env_later
       (search (Some "Mumbai") outage_env ∅ 0).1.2 5).1.1 = [].
Proof.
  assert (Ht : truthy (str_strip (default "" (Some "Mumbai"))) = true)
    by (vm_compute; reflexivity).
  assert (Hm : fst (get_cached_data (env_read_fault outage_env) (env_read_now outage_env)
                      (str_strip (default "" (Some "Mumbai")))
                      (∅ : Collection Payload)) = Returned None)
    by (vm_compute; reflexivity).
  assert (Hc : env_coordinates outage_env = (Some 18.93%float, Some 72.83%float,
                                             Some "Mumbai, India")) by reflexivity.
  assert (Ha : reply_failed (env_attractions outage_env)) by (left; reflexivity).
  assert (Hh : reply_failed (env_hotels outage_env)).
  { right. exists 503, None. split; [reflexivity | discriminate]. }
  assert (Hr : reply_failed (env_restaurants outage_env)) by (left; reflexivity).
  destruct (@outage_is_cached runtime (Some "Mumbai") outage_env ∅ 0 18.93 72.83
              (Some "Mumbai, India") Ht Hm Hc Ha Hh Hr)
    as (Hs & _ & _ & Hhot & _ & Hnext).
  split; [exact Hs|]. split; [exact Hhot|].
  rewrite (Hnext eq_refl sample_env_later 5 eq_refl ltac:(vm_compute; reflexivity)).
  reflexivity.
Defined.

(** The geocoder knows no Atlantis. *)
Lemma geocode_failure_is_404_witness :
  resp_status
    (search (Some "Atlantis")
       (with_coordinates (get_coordinates (GeocodeAnswer (Some []))) sample_env) ∅ 0).1.1
  = 404.
Proof.
  assert (Ht : truthy (str_strip (default "" (Some "Atlantis"))) = true)
    by (vm_compute; reflexivity).
  assert (Hm : fst (get_cached_data (env_read_fault sample_env) (env_read_now sample_env)
                      (str_strip (default "" (Some "Atlantis")))
                      (∅ : Collection Payload)) = Returned None)
    by (vm_compute; reflexivity).
  assert (Hg : (get_coordinates (GeocodeAnswer (Some []))).1.1 = None \/
               (get_coordinates (GeocodeAnswer (Some []))).1.2 = None)
    by (left; reflexivity).
  rewrite (proj1 (@geocode_failure_is_404 runtime (GeocodeAnswer (Some []))
                    (Some "Atlantis") sample_env ∅ 0 Ht Hm Hg)).
  reflexivity.
Defined.

(** The cache filled by a search for Mumbai is cleared with an empty
    city. *)
Lemma clear_endpoint_then_search_witness :
  snd (clear_cache_endpoint (Some "") None (@search runtime (Some " Mumbai ") sample_env ∅ 0).1.2)
    = ∅ /\
  resp_cached
    (search (Some "Mumbai") sample_env_later
       (clear_cache_endpoint (Some "") None
          (@search runtime (Some " Mumbai ") sample_env ∅ 0).1.2).2 5).1.1 <> Some true.
Proof.
  destruct (@clear_endpoint_then_search runtime (Some "")
              (@search runtime (Some " Mumbai ") sample_env ∅ 0).1.2
              (Some "Mumbai") sample_env_later 5 (or_intror eq_refl)) as (Hc & Hs).
  split; [now rewrite Hc | exact Hs].
Defined.

(** Every feature of the sample answer has its distance: Delhi or
    Mumbai as centre makes no difference, and 1234.5678 m is reported
    as 1.23 km. *)
Lemma fetch_places_centre_unused_witness :
  Forall (fun props => has_distance props = true) sample_walk /\
  fetch_places_from_geoapify (Some "key") (HttpAnswer 200 (Some sample_walk))
    28.61 77.21 =
  fetch_places_from_geoapify (Some "key") (HttpAnswer 200 (Some sample_walk))
    18.93 72.83 /\
  map rp_distance
    (fetch_places_from_geoapify (Some "key") (HttpAnswer 200 (Some sample_walk))
       28.61 77.21) =
  [Some 1.23%float; Some 2.67%float; Some 0%float].
Proof.
  assert (Hd : Forall (fun props => has_distance props = true) sample_walk).
  { unfold sample_walk.
    repeat (constructor; [vm_compute; reflexivity|]). constructor. }
  split; [exact Hd|]. split.
  - exact (proj1 (@fetch_places_centre_unused runtime "key" sample_walk
                    28.61 77.21 18.93 72.83 eq_refl Hd)).
  - vm_compute. reflexivity.
Defined.

End FurtherScenarios.
